(** * Verification of the analysis core of [src/utils/aiAnalysis.ts]

    The TypeScript functions are embedded once, over an interface of
    JavaScript numbers, and read at two instances of that interface:

    - [JSfloat]: IEEE 754 binary64, the kernel's primitive floats.  This is
      what the program runs on; concrete inputs are evaluated here.
    - [JSreal]: the real numbers, arithmetic without rounding: the reading
      in which a formula is usually written down.  A statement proved here
      says what the formulas give; it says something of the program where
      its binary64 counterpart stands next to it, or where rounding cannot
      touch it.  Where rounding does touch it, the statement is made on
      binary64 and the failing input is evaluated there.  Division by zero
      is not meaningful at this instance, and no statement proved at it
      rests on the value of a quotient by zero. *)

From Stdlib Require Import Floats ZArith QArith Reals Lra Lia Psatz.
From Stdlib Require Import List String Bool Arith Permutation Sorted.
Import ListNotations.

Set Warnings "-inexact-float".

(** ** JavaScript numbers *)

(** The operations of the [number] type that the analysis code uses. *)
Class JSNumber (num : Type) : Type := {
  (** a decimal literal of the source, given as its exact rational value *)
  lit : Q -> num;
  (** an integer ([length], an index, a loop counter) as a number *)
  of_Z : Z -> num;
  add : num -> num -> num;
  sub : num -> num -> num;
  mul : num -> num -> num;
  div : num -> num -> num;
  neg : num -> num;
  (** [a < b] *)
  lt : num -> num -> bool;
  (** ToBoolean: false at zero and NaN *)
  truthy : num -> bool;
  Math_sqrt : num -> num;
  Math_abs : num -> num;
  Math_min : num -> num -> num;
  Math_max : num -> num -> num;
  (** [Math.floor], read as an integer: the code only floors multiples of an
      array length and uses the result as an index or a count *)
  Math_floor : num -> Z;
  (** what arithmetic sees when an array is read out of range *)
  undefined : num
}.

(** The transcendental functions of [Math]; ECMAScript leaves their rounding
    to the implementation, so they stay a parameter at the float instance. *)
Class JSMath (num : Type) : Type := {
  Math_exp : num -> num;
  Math_pow : num -> num -> num
}.

Declare Scope js_scope.
Delimit Scope js_scope with js.
Notation "a + b" := (add a b) : js_scope.
Notation "a - b" := (sub a b) : js_scope.
Notation "a * b" := (mul a b) : js_scope.
Notation "a / b" := (div a b) : js_scope.
Notation "- a" := (neg a) : js_scope.
Notation "a < b" := (lt a b) : js_scope.
Notation "a > b" := (lt b a) : js_scope.

(** ** The binary64 instance *)

Module F64.

Definition of_Z (z : Z) : float :=
  match z with
  | Z0 => PrimFloat.zero
  | Zpos _ => PrimFloat.of_uint63 (Uint63.of_Z z)
  | Zneg p => PrimFloat.opp (PrimFloat.of_uint63 (Uint63.of_Z (Zpos p)))
  end.

(** The nearest double to [n/d]: what the JavaScript lexer produces for a
    decimal literal whose digits and scale are below 2^53. *)
Definition lit (q : Q) : float :=
  PrimFloat.div (of_Z (Qnum q)) (of_Z (Zpos (Qden q))).

Definition truthy (x : float) : bool :=
  negb (PrimFloat.eqb x PrimFloat.zero) && negb (PrimFloat.is_nan x).

Definition max (a b : float) : float :=
  if PrimFloat.is_nan a || PrimFloat.is_nan b then PrimFloat.nan
  else if PrimFloat.ltb a b then b
  else if PrimFloat.ltb b a then a
  else if PrimFloat.get_sign a then b else a.

Definition min (a b : float) : float :=
  if PrimFloat.is_nan a || PrimFloat.is_nan b then PrimFloat.nan
  else if PrimFloat.ltb a b then a
  else if PrimFloat.ltb b a then b
  else if PrimFloat.get_sign a then a else b.

(** Largest integer not above [x]; 0 where [Math.floor] has no integer
    value (NaN, the infinities). *)
Definition floor (x : float) : Z :=
  match Prim2SF x with
  | S754_finite s m (Zneg k) =>
      if s then - ((Zpos m + Z.pow 2 (Zpos k) - 1) / Z.pow 2 (Zpos k))
      else Zpos m / Z.pow 2 (Zpos k)
  | S754_finite s m e =>
      if s then - (Zpos m * Z.pow 2 e) else Zpos m * Z.pow 2 e
  | _ => 0
  end%Z.

End F64.

#[export] Instance JSfloat : JSNumber float := {|
  lit := F64.lit;
  of_Z := F64.of_Z;
  add := PrimFloat.add;
  sub := PrimFloat.sub;
  mul := PrimFloat.mul;
  div := PrimFloat.div;
  neg := PrimFloat.opp;
  lt := PrimFloat.ltb;
  truthy := F64.truthy;
  Math_sqrt := PrimFloat.sqrt;
  Math_abs := PrimFloat.abs;
  Math_min := F64.min;
  Math_max := F64.max;
  Math_floor := F64.floor;
  undefined := PrimFloat.nan
|}.

(** ** The exact instance *)

Module Exact.

Definition lit (q : Q) : R := (IZR (Qnum q) / IZR (Zpos (Qden q)))%R.
Definition lt (a b : R) : bool := if Rlt_dec a b then true else false.
Definition truthy (a : R) : bool := if Req_dec_T a 0%R then false else true.
Definition floor (a : R) : Z := Int_part a.

End Exact.

#[export] Instance JSreal : JSNumber R := {|
  lit := Exact.lit;
  of_Z := IZR;
  add := Rplus;
  sub := Rminus;
  mul := Rmult;
  div := Rdiv;
  neg := Ropp;
  lt := Exact.lt;
  truthy := Exact.truthy;
  Math_sqrt := sqrt;
  Math_abs := Rabs;
  Math_min := Rmin;
  Math_max := Rmax;
  Math_floor := Exact.floor;
  undefined := 0%R
|}.

#[export] Instance JSrealMath : JSMath R := {|
  Math_exp := exp;
  Math_pow := Rpower
|}.

(** ** Results of calls that may throw *)

(** A block either returns, or throws after having read the clock [reads]
    times. *)
Inductive outcome (A : Type) : Type :=
| Returned (a : A)
| Thrown (reads : nat).
Arguments Returned {A} a.
Arguments Thrown {A} reads.

(** [try { c } catch { h }]; the handler is told how far the clock has been
    read. *)
Definition try_catch {A} (c : outcome A) (h : nat -> A) : A :=
  match c with
  | Returned a => a
  | Thrown reads => h reads
  end.

(** the clock as the handler sees it *)
Definition later {num} (Date_now : nat -> num) (reads : nat) : nat -> num :=
  fun k => Date_now (reads + k)%nat.

(** ** Data model ([src/types.ts]) *)

Module AnomalyResult.
Record t (num : Type) : Type := mk {
  index : nat;
  value : num;
  timestamp : num;
  score : num;
  method : string
}.
Arguments mk {num}.
Arguments index {num}.
Arguments value {num}.
Arguments timestamp {num}.
Arguments score {num}.
Arguments method {num}.
End AnomalyResult.

Module TrendPrediction.
Record t (num : Type) : Type := mk {
  timestamp : num;
  value : num;
  confidence : num
}.
Arguments mk {num}.
Arguments timestamp {num}.
Arguments value {num}.
Arguments confidence {num}.
End TrendPrediction.

(** ** Array helpers *)

Section Arrays.
Context {num : Type} {JN : JSNumber num}.
Local Open Scope js_scope.

(** [data.length] as a number *)
Definition len {A} (data : list A) : num := of_Z (Z.of_nat (List.length data)).

(** [data.reduce((a, b) => a + b, 0)] *)
Definition sum (data : list num) : num :=
  fold_left (fun a b => a + b) data (of_Z 0).

(** [Math.pow(x, 2)]: the square, as fdlibm's [pow] (V8) returns for an
    exponent of 2 *)
Definition Math_pow2 (x : num) : num := x * x.

(** [data.reduce((sum, val) => sum + Math.pow(val - mean, 2), 0)] *)
Definition sumSquares (mean : num) (data : list num) : num :=
  fold_left (fun sum val => sum + Math_pow2 (val - mean)) data (of_Z 0).

(** the pairs [(index, value)] that [forEach] and [reduce] visit *)
Definition entries {A} (data : list A) : list (nat * A) :=
  combine (seq 0 (List.length data)) data.

(** [a || b] on numbers *)
Definition or_else (a b : num) : num := if truthy a then a else b.

(** [data[i]] *)
Definition at_index (data : list num) (i : nat) : num := nth i data undefined.

(** [data.slice(-k)] for [k > 0] *)
Definition slice_last (k : nat) {A} (data : list A) : list A :=
  skipn (List.length data - k) data.

(** [data.slice(a, b)] for [0 <= a <= b] *)
Definition slice {A} (a b : nat) (data : list A) : list A :=
  firstn (b - a) (skipn a data).

End Arrays.

(** ** Z-score detector *)

Section ZScore.
Context {num : Type} {JN : JSNumber num}.
Local Open Scope js_scope.

(** [Date_now k] is the clock reading of the call's [k]-th use of
    [Date.now()], counted from 0. *)
Definition detectAnomaliesZScore (Date_now : nat -> num)
    (data : list num) (sensitivity : num) : list (AnomalyResult.t num) :=
  if (List.length data <? 3)%nat then []
  else
    let mean := sum data / len data in
    let std := Math_sqrt (sumSquares mean data / len data) in
    fold_left
      (fun anomalies '(index, value) =>
         let zScore := Math_abs ((value - mean) / or_else std (of_Z 1)) in
         if zScore > sensitivity then
           anomalies ++
           [AnomalyResult.mk index value
              (Date_now (List.length anomalies)
               - (len data - of_Z (Z.of_nat index)) * of_Z 1000)
              zScore "zscore"]
         else anomalies)
      (entries data) [].

End ZScore.

(** ** IQR detector *)

Section IQR.
Context {num : Type} {JN : JSNumber num}.
Local Open Scope js_scope.

(** One step of [sort((a, b) => a - b)]: [x], which precedes every element
    of [sorted] in the input, goes in front of the first element that the
    comparator does not put before it. *)
Fixpoint insert_ascending (x : num) (sorted : list num) : list num :=
  match sorted with
  | [] => [x]
  | y :: rest =>
      if (x - y) > of_Z 0 then y :: insert_ascending x rest
      else x :: y :: rest
  end.

(** [[...data].sort((a, b) => a - b)].  Array.prototype.sort is stable, so
    with a consistent comparator its result is this list whatever the
    engine's algorithm.  The comparator is consistent when no sample is
    NaN; with a NaN among the samples the order is left to the engine, and
    the statements on binary64 that rest on the sorted copy assume that
    there is none. *)
Definition sort_ascending (data : list num) : list num :=
  fold_right insert_ascending [] data.

Definition detectAnomaliesIQR (Date_now : nat -> num)
    (data : list num) (sensitivity : num) : list (AnomalyResult.t num) :=
  if (List.length data <? 4)%nat then []
  else
    let sorted := sort_ascending data in
    let q1Index := Math_floor (len sorted * lit 0.25) in
    let q3Index := Math_floor (len sorted * lit 0.75) in
    let q1 := at_index sorted (Z.to_nat q1Index) in
    let q3 := at_index sorted (Z.to_nat q3Index) in
    let iqr := q3 - q1 in
    let lowerBound := q1 - sensitivity * iqr in
    let upperBound := q3 + sensitivity * iqr in
    fold_left
      (fun anomalies '(index, value) =>
         if (value < lowerBound) || (value > upperBound) then
           let distance :=
             Math_min (Math_abs (value - lowerBound))
                      (Math_abs (value - upperBound)) in
           anomalies ++
           [AnomalyResult.mk index value
              (Date_now (List.length anomalies)
               - (len data - of_Z (Z.of_nat index)) * of_Z 1000)
              (distance / iqr) "iqr"]
         else anomalies)
      (entries data) [].

End IQR.

(** ** TensorFlow.js *)

(** The library calls of the two learning paths.  Their results depend on
    float32 kernels, on randomly initialised weights and on shuffled batches,
    none of which is in this repository; each may throw ([None]). *)
Class TensorFlow (num : Type) : Type := {
  (** [tensor.sub(mean).div(std.add(1e-7)).array()] of [tf.tensor1d(data)] *)
  tf_standardize : list num -> option (list num);
  (** [tf.sequential], [compile] and [fit] on the training pairs: the
      trained model as its [predict] function *)
  tf_fit : list (list num) -> list num -> option (list num -> option num)
}.

(** ** Sliding-window detector *)

Section ML.
Context {num : Type} {JN : JSNumber num} {TF : TensorFlow num}.
Local Open Scope js_scope.

(** The body of the [try] block.  Disposing of the tensors returns nothing
    and is left out. *)
Definition detectAnomaliesML_try (Date_now : nat -> num)
    (data : list num) (sensitivity : num)
    : outcome (list (AnomalyResult.t num)) :=
  match tf_standardize data with
  | None => Thrown 0
  | Some sequence =>
      let windowSize := Z.to_nat (Z.min 5 (Math_floor (len data / of_Z 3))) in
      let threshold := sensitivity * lit 0.8 in
      Returned
        (fold_left
           (fun anomalies i =>
              let window := slice (i - windowSize) i sequence in
              let current := at_index sequence i in
              let windowMean := sum window / len window in
              let windowStd :=
                Math_sqrt (sumSquares windowMean window / len window) in
              let error :=
                Math_abs (current - windowMean) / (windowStd + lit 1e-7) in
              if error > threshold then
                anomalies ++
                [AnomalyResult.mk i (at_index data i)
                   (Date_now (List.length anomalies)
                    - (len data - of_Z (Z.of_nat i)) * of_Z 1000)
                   error "ml"]
              else anomalies)
           (seq windowSize (List.length data - windowSize)) [])
  end.

(** The promise that [detectAnomaliesML] returns, settled. *)
Definition detectAnomaliesML (Date_now : nat -> num)
    (data : list num) (sensitivity : num)
    : outcome (list (AnomalyResult.t num)) :=
  if (List.length data <? 5)%nat then Returned []
  else
    Returned
      (try_catch (detectAnomaliesML_try Date_now data sensitivity)
         (fun reads =>
            detectAnomaliesZScore (later Date_now reads) data
              (sensitivity * of_Z 10))).

End ML.

(** ** Trend forecaster *)

Section Forecast.
Context {num : Type} {JN : JSNumber num} {JM : JSMath num} {TF : TensorFlow num}.
Local Open Scope js_scope.

Definition calculateSlope (data : list num) : num :=
  if (List.length data <? 2)%nat then of_Z 0
  else
    let n := len data in
    let sumX := (n * (n - of_Z 1)) / of_Z 2 in
    let sumY := sum data in
    let sumXY :=
      fold_left (fun sum '(x, y) => sum + of_Z (Z.of_nat x) * y)
        (entries data) (of_Z 0) in
    let sumX2 := (n * (n - of_Z 1) * (of_Z 2 * n - of_Z 1)) / of_Z 6 in
    let denominator := n * sumX2 - sumX * sumX in
    if Math_abs denominator < lit 0.0001 then of_Z 0
    else (n * sumXY - sumX * sumY) / denominator.

(** The body of the loop of [simpleLinearPrediction] at counter [k], when
    [reads] points have been pushed: the point it pushes. *)
Definition simpleLinearPrediction_point (Date_now : nat -> num)
    (lastValue slope mean : num) (steps : Z) (reads k : nat)
    : TrendPrediction.t num :=
  let i := of_Z (Z.of_nat k) in
  let trendValue := lastValue + slope * i in
  let dampening := Math_exp (- i * lit 0.12) in
  let predValue := trendValue * dampening + mean * (of_Z 1 - dampening) in
  TrendPrediction.mk
    (Date_now reads + i * of_Z 60000)
    predValue
    (Math_max (lit 0.3) (of_Z 1 - (i / of_Z steps) * lit 0.6)).

(** The loop counter runs over [1..steps]; [steps] is an integer (the
    panel's slider), possibly zero or negative. *)
Definition simpleLinearPrediction (Date_now : nat -> num)
    (data : list num) (steps : Z) : list (TrendPrediction.t num) :=
  let lookback := Z.max 5 (Math_floor (len data * lit 0.3)) in
  let recentData := slice_last (Z.to_nat lookback) data in
  let slope := calculateSlope recentData in
  let mean := sum recentData / len recentData in
  let lastValue := at_index data (List.length data - 1) in
  fold_left
    (fun predictions k =>
       predictions ++
       [simpleLinearPrediction_point Date_now lastValue slope mean steps
          (List.length predictions) k])
    (seq 1 (Z.to_nat steps)) [].

(** The prediction loop of the learning path, from step [k] on. *)
Fixpoint predictTrend_rollout (Date_now : nat -> num)
    (model : list num -> option num)
    (mean normalizedStd lastActualValue : num)
    (remaining : list nat) (currentSequence : list num)
    (predictions : list (TrendPrediction.t num))
    : outcome (list (TrendPrediction.t num)) :=
  match remaining with
  | [] => Returned predictions
  | k :: rest =>
      match model currentSequence with
      | None => Thrown (List.length predictions)
      | Some normalizedPrediction =>
          let i := of_Z (Z.of_nat k) in
          let predictedValue := normalizedPrediction * normalizedStd + mean in
          let distance := Math_abs (predictedValue - lastActualValue) in
          let distanceRatio :=
            distance / (Math_abs lastActualValue + of_Z 1) in
          let stepDecay := Math_pow (lit 0.92) (i - of_Z 1) in
          let distancePenalty :=
            Math_max (of_Z 0) (of_Z 1 - distanceRatio * lit 0.5) in
          let confidence :=
            Math_max (lit 0.4)
              (Math_min (lit 0.95) (stepDecay * distancePenalty)) in
          predictTrend_rollout Date_now model mean normalizedStd
            lastActualValue rest
            (skipn 1 currentSequence ++ [normalizedPrediction])
            (predictions ++
             [TrendPrediction.mk
                (Date_now (List.length predictions) + i * of_Z 60000)
                predictedValue confidence])
      end
  end.

(** the body of the [try] block *)
Definition predictTrend_try (Date_now : nat -> num)
    (data : list num) (steps : Z) : outcome (list (TrendPrediction.t num)) :=
  let lookback :=
    Z.min 30 (Z.max 10 (Math_floor (len data * lit 0.3))) in
  let trainingData := slice_last (Z.to_nat lookback) data in
  let mean := sum trainingData / len trainingData in
  let std :=
    Math_sqrt (sumSquares mean trainingData / len trainingData) in
  let normalizedStd := if std < lit 0.01 then of_Z 1 else std in
  let normalized := map (fun v => (v - mean) / normalizedStd) trainingData in
  let sequenceLength := 3%nat in
  let positions :=
    seq sequenceLength (List.length normalized - sequenceLength) in
  let xs := map (fun i => slice (i - sequenceLength) i normalized) positions in
  let ys := map (fun i => at_index normalized i) positions in
  if (List.length xs <? 3)%nat then
    Returned (simpleLinearPrediction Date_now data steps)
  else
    match tf_fit xs ys with
    | None => Thrown 0
    | Some model =>
        let lastActualValue := at_index data (List.length data - 1) in
        predictTrend_rollout Date_now model mean normalizedStd
          lastActualValue (seq 1 (Z.to_nat steps))
          (slice_last sequenceLength normalized) []
    end.

(** The promise that [predictTrend] returns, settled: fulfilled
    ([Returned]) or rejected ([Thrown]). *)
Definition predictTrend (Date_now : nat -> num)
    (data : list num) (steps : Z) : outcome (list (TrendPrediction.t num)) :=
  if (List.length data <? 5)%nat then
    Returned (simpleLinearPrediction Date_now data steps)
  else
    Returned
      (try_catch (predictTrend_try Date_now data steps)
         (fun reads =>
            simpleLinearPrediction (later Date_now reads) data steps)).

End Forecast.

(** ** Insight generator *)

Module AIInsight.
Inductive severity : Type := info | warning | critical.

(** A message is a template string; its interpolated parts are kept as
    they are handed to the formatter. *)
Inductive piece (num : Type) : Type :=
| Text (s : string)
| Count (n : nat)
| Fixed (x : num) (digits : nat).
Arguments Text {num} s.
Arguments Count {num} n.
Arguments Fixed {num} x digits.

Record t (num : Type) : Type := mk {
  type : severity;
  message : list (piece num);
  confidence : num
}.
Arguments mk {num}.
Arguments type {num}.
Arguments message {num}.
Arguments confidence {num}.
End AIInsight.

Section Insights.
Context {num : Type} {JN : JSNumber num}.
Local Open Scope js_scope.
Import AIInsight.

(** The constants that [generateAIInsights] computes once past its early
    return, where [data] holds at least two samples. *)

Definition latest (data : list num) : num :=
  at_index data (List.length data - 1).
Definition previous (data : list num) : num :=
  at_index data (List.length data - 2).
Definition change (data : list num) : num :=
  ((latest data - previous data) / previous data) * of_Z 100.

Definition firstHalf (data : list num) : list num :=
  slice 0 (Z.to_nat (Math_floor (len data / of_Z 2))) data.
Definition secondHalf (data : list num) : list num :=
  skipn (Z.to_nat (Math_floor (len data / of_Z 2))) data.
Definition firstMean (data : list num) : num :=
  sum (firstHalf data) / len (firstHalf data).
Definition secondMean (data : list num) : num :=
  sum (secondHalf data) / len (secondHalf data).
Definition trendChange (data : list num) : num :=
  ((secondMean data - firstMean data) / firstMean data) * of_Z 100.

Definition volatility (data : list num) : num :=
  let mean := sum data / len data in
  Math_sqrt (sumSquares mean data / len data) / mean.

(** The [if] blocks of [generateAIInsights] that follow the early return,
    in their order, each as the insights it pushes. *)

Definition anomalyRule (data : list num)
    (anomalies : list (AnomalyResult.t num)) : list (AIInsight.t num) :=
  if (0 <? List.length anomalies)%nat then
    let severity :=
      if (len anomalies : num) > (len data : num) * lit 0.1
      then critical else warning in
    [mk severity
       [Text "Detected "; Count (List.length anomalies); Text " anomal";
        Text (if (1 <? List.length anomalies)%nat then "ies" else "y");
        Text " in the data. ";
        Text (match severity with
              | critical => "Immediate attention required!"
              | _ => "Investigation recommended."
              end)]
       (lit 0.9)]
  else [].

Definition swingRule (data : list num) : list (AIInsight.t num) :=
  if Math_abs (change data) > of_Z 20 then
    [mk (if change data > of_Z 0 then info else warning)
       [Text "Significant ";
        Text (if change data > of_Z 0 then "increase" else "decrease");
        Text " of "; Fixed (Math_abs (change data)) 1;
        Text "% detected in latest value."]
       (lit 0.85)]
  else [].

Definition trendRule (data : list num) : list (AIInsight.t num) :=
  if Math_abs (trendChange data) > of_Z 15 then
    [mk info
       [Text "Overall trend shows ";
        Text (if trendChange data > of_Z 0 then "upward" else "downward");
        Text " movement of "; Fixed (Math_abs (trendChange data)) 1;
        Text "% over time."]
       (lit 0.8)]
  else [].

Definition forecastRule (data : list num)
    (predictions : list (TrendPrediction.t num)) : list (AIInsight.t num) :=
  if (0 <? List.length predictions)%nat then
    let mean := sum data / len data in
    let avgPrediction :=
      fold_left (fun sum p => sum + TrendPrediction.value p)
        predictions (of_Z 0) / len predictions in
    let predChange := ((avgPrediction - mean) / mean) * of_Z 100 in
    if Math_abs predChange > of_Z 10 then
      [mk (if Math_abs predChange > of_Z 30 then warning else info)
         [Text "AI predicts ";
          Text (if predChange > of_Z 0 then "increase" else "decrease");
          Text " of "; Fixed (Math_abs predChange) 1;
          Text "% in upcoming values."]
         (lit 0.75)]
    else []
  else [].

Definition extremeRule (data : list num) : list (AIInsight.t num) :=
  let mean := sum data / len data in
  if latest data > mean * lit 1.5 then
    [mk info
       [Text "Current value ("; Fixed (latest data) 2; Text ") is ";
        Fixed (((latest data - mean) / mean) * of_Z 100) 0;
        Text "% above average."]
       (lit 0.9)]
  else if latest data < mean * lit 0.5 then
    [mk warning
       [Text "Current value ("; Fixed (latest data) 2; Text ") is ";
        Fixed (((mean - latest data) / mean) * of_Z 100) 0;
        Text "% below average."]
       (lit 0.9)]
  else [].

Definition volatilityRule (data : list num) : list (AIInsight.t num) :=
  if volatility data > lit 0.3 then
    [mk warning
       [Text "High volatility detected (";
        Fixed (volatility data * of_Z 100) 1;
        Text "%). Data shows significant fluctuations."]
       (lit 0.85)]
  else if volatility data < lit 0.05 then
    [mk info
       [Text "Low volatility detected. Data is stable and consistent."]
       (lit 0.8)]
  else [].

Definition generateAIInsights (data : list num)
    (anomalies : list (AnomalyResult.t num))
    (predictions : list (TrendPrediction.t num)) : list (AIInsight.t num) :=
  if (List.length data <? 2)%nat then
    [mk info
       [Text "Not enough data points for analysis. Need at least 2 data points."]
       (lit 1.0)]
  else
    anomalyRule data anomalies ++ swingRule data ++ trendRule data
    ++ forecastRule data predictions ++ extremeRule data
    ++ volatilityRule data.

End Insights.

(** ** Statistics calculator *)

Module DescriptiveStats.
Record t (num : Type) : Type := mk {
  mean : num;
  median : num;
  min : num;
  max : num;
  stdDev : num;
  variance : num;
  count : nat
}.
Arguments mk {num}.
Arguments mean {num}.
Arguments median {num}.
Arguments min {num}.
Arguments max {num}.
Arguments stdDev {num}.
Arguments variance {num}.
Arguments count {num}.
End DescriptiveStats.

Section Stats.
Context {num : Type} {JN : JSNumber num}.
Local Open Scope js_scope.

(** [None] is the [null] that the source returns. *)
Definition calculateStats (data : list num) : option (DescriptiveStats.t num) :=
  if (List.length data =? 0)%nat then None
  else
    let sorted := sort_ascending data in
    let mean := sum data / len data in
    let median :=
      at_index sorted (Z.to_nat (Math_floor (len sorted / of_Z 2))) in
    let min := at_index sorted 0 in
    let max := at_index sorted (List.length sorted - 1) in
    let variance := sumSquares mean data / len data in
    let stdDev := Math_sqrt variance in
    Some (DescriptiveStats.mk mean median min max stdDev variance
            (List.length data)).

End Stats.

(** * Vocabulary of the statements *)

(** The order-processing times of the sample data set. *)
Definition orders : list float :=
  [22.5; 24.3; 23.8; 25.7; 22.1; 26.4; 24.9; 23.2; 95.8; 25.5;
   24.1; 22.8; 26.7; 23.5; 25.2; 24.8; 108.3; 23.9; 25.6; 22.4]%float.

(** The same twenty samples as real numbers. *)
Definition orders_exact : list R :=
  [22.5; 24.3; 23.8; 25.7; 22.1; 26.4; 24.9; 23.2; 95.8; 25.5;
   24.1; 22.8; 26.7; 23.5; 25.2; 24.8; 108.3; 23.9; 25.6; 22.4]%R.

(** A clock that stands still at the epoch. *)
Definition epoch : nat -> float := fun _ => 0%float.

(** A stand-in for the engine's [Math.exp] and [Math.pow], for runs whose
    statements do not depend on the values of either. *)
Definition any_math : JSMath float :=
  {| Math_exp := fun x => x; Math_pow := fun x _ => x |}.

(** [Math.pow] at the exponents 0 and 1, where every engine is exact; no
    other exponent is reached in a forecast of two steps, and the learning
    path does not call [Math.exp]. *)
Definition pow_upto_1 : JSMath float :=
  {| Math_exp := fun x => x;
     Math_pow := fun x y => if PrimFloat.eqb y 1 then x else 1%float |}.

(** Nine samples that repeat 100, 1, 1. *)
Definition periodic : list float := [100; 1; 1; 100; 1; 1; 100; 1; 1]%float.

(** Training that has learnt the period of three: the model predicts the
    oldest value of its window. *)
Definition period_model : TensorFlow float :=
  {| tf_standardize := fun _ => None;
     tf_fit := fun _ _ =>
                 Some (fun window => Some (nth 0 window PrimFloat.nan)) |}.

(** [true] when no number is above the one before it *)
Fixpoint non_increasing (l : list float) : bool :=
  match l with
  | a :: (b :: _) as rest => PrimFloat.leb b a && non_increasing rest
  | _ => true
  end.

(** TensorFlow calls that always throw. *)
Definition tf_unavailable : TensorFlow float :=
  {| tf_standardize := fun _ => None; tf_fit := fun _ _ => None |}.

(** [Math.exp] at -0.12, the argument of the first step: the double nearest
    to e^-0.12.  A forecast of one step on the fallback path passes no
    other argument, and the fallback path does not call [Math.pow]. *)
Definition exp_first_step : JSMath float :=
  {| Math_exp :=
       fun x =>
         if PrimFloat.eqb x (-0.12) then 0.8869204367171575%float
         else PrimFloat.nan;
     Math_pow := fun x _ => x |}.

(** Two equal samples. *)
Definition steady : list float := [23.3; 23.3]%float.

(** Six samples at the top of the binary64 range: their sum overflows. *)
Definition huge : list float :=
  [1e308; 1e308; 1e308; 1e308; 1e308; 1e308]%float.

(** The least exponent of binary64. *)
Definition emin64 : Z := -1074.

(** the result carries the sign [s] and is neither zero nor NaN *)
Definition signed (s : bool) (r : spec_float) : Prop :=
  match r with
  | S754_finite s' _ _ | S754_infinity s' => s' = s
  | _ => False
  end.

(** the result is NaN, or carries the sign [s] *)
Definition signed_or_nan (s : bool) (r : spec_float) : Prop :=
  match r with
  | S754_finite s' _ _ | S754_infinity s' | S754_zero s' => s' = s
  | S754_nan => True
  end.

(** not NaN *)
Definition number (x : float) : Prop := Prim2SF x <> S754_nan.

(** [x <= y] on binary64 *)
Definition le64 (x y : float) : Prop := PrimFloat.leb x y = true.

(** [lo <= c <= hi] on binary64 *)
Definition between64 (lo hi c : float) : Prop := le64 lo c /\ le64 c hi.

(** a zero of either sign, or NaN *)
Definition zero_or_nan (x : float) : Prop :=
  Prim2SF x = S754_nan \/ exists s, Prim2SF x = S754_zero s.

(** [true] when each number is below the one before it *)
Fixpoint strictly_decreasing (l : list float) : bool :=
  match l with
  | a :: (b :: _) as rest => PrimFloat.ltb b a && strictly_decreasing rest
  | _ => true
  end.

Section Observations.
Context {num : Type}.

(** an anomaly record without its timestamp *)
Definition untimed (a : AnomalyResult.t num) : nat * num * num * string :=
  (AnomalyResult.index a, AnomalyResult.value a, AnomalyResult.score a,
   AnomalyResult.method a).

(** a forecast point without its timestamp *)
Definition undated (p : TrendPrediction.t num) : num * num :=
  (TrendPrediction.value p, TrendPrediction.confidence p).

Definition outcome_map {A B} (f : A -> B) (o : outcome A) : outcome B :=
  match o with
  | Returned a => Returned (f a)
  | Thrown reads => Thrown reads
  end.

End Observations.

(** What the specification calls the sum of a sequence. *)
Definition total (data : list R) : R := fold_right Rplus 0%R data.

(** The specification's words for the trend window and its slope. *)

(** the most recent max(5, floor(n * 0.3)) samples *)
Definition recent_window {A} (data : list A) : list A :=
  skipn (List.length data - Nat.max 5 (3 * List.length data / 10)) data.

(** The least-squares slope of the samples against their positions
    0, 1, ..., in closed form through the sums of products, and 0 when the
    denominator is negligible. *)
Definition ols_slope (ys : list R) : R :=
  let n := INR (List.length ys) in
  let xs := seq 0 (List.length ys) in
  let Sx := total (map INR xs) in
  let Sy := total ys in
  let Sxy := total (map (fun '(x, y) => INR x * y)%R (combine xs ys)) in
  let Sxx := total (map (fun x => INR x * INR x)%R xs) in
  let denominator := (n * Sxx - Sx * Sx)%R in
  if Rlt_dec (Rabs denominator) 0.0001%R then 0%R
  else ((n * Sxy - Sx * Sy) / denominator)%R.

(** The textbook least-squares slope of the samples against their positions:
    the sum of the products of the deviations from the two means over the
    sum of the squared deviations of the positions. *)
Definition least_squares_slope (ys : list R) : R :=
  let n := INR (List.length ys) in
  let xs := seq 0 (List.length ys) in
  let xbar := (total (map INR xs) / n)%R in
  let ybar := (total ys / n)%R in
  (total (map (fun '(x, y) => (INR x - xbar) * (y - ybar))%R (combine xs ys))
   / total (map (fun x => (INR x - xbar) * (INR x - xbar))%R xs))%R.

(** ** The detectors' local constants *)

Section Scores.
Context {num : Type} {JN : JSNumber num}.
Local Open Scope js_scope.

(** [zScore] of [detectAnomaliesZScore] for the sample [value] *)
Definition zScore (data : list num) (value : num) : num :=
  let mean := sum data / len data in
  let std := Math_sqrt (sumSquares mean data / len data) in
  Math_abs ((value - mean) / or_else std (of_Z 1)).

(** [q1], [q3], [iqr] and the two bounds of [detectAnomaliesIQR] *)
Definition q1 (data : list num) : num :=
  let sorted := sort_ascending data in
  at_index sorted (Z.to_nat (Math_floor (len sorted * lit 0.25))).
Definition q3 (data : list num) : num :=
  let sorted := sort_ascending data in
  at_index sorted (Z.to_nat (Math_floor (len sorted * lit 0.75))).
Definition iqr (data : list num) : num := q3 data - q1 data.
Definition lowerBound (data : list num) (sensitivity : num) : num :=
  q1 data - sensitivity * iqr data.
Definition upperBound (data : list num) (sensitivity : num) : num :=
  q3 data + sensitivity * iqr data.

(** the test of the loop of [detectAnomaliesIQR] *)
Definition outside (data : list num) (sensitivity value : num) : bool :=
  (value < lowerBound data sensitivity) || (value > upperBound data sensitivity).

(** [windowSize] of [detectAnomaliesML] *)
Definition windowSize (data : list num) : nat :=
  Z.to_nat (Z.min 5 (Math_floor (len data / of_Z 3))).

(** [error] of the loop of [detectAnomaliesML] at position [i] *)
Definition windowError (sequence : list num) (windowSize i : nat) : num :=
  let window := slice (i - windowSize) i sequence in
  let current := at_index sequence i in
  let windowMean := sum window / len window in
  let windowStd := Math_sqrt (sumSquares windowMean window / len window) in
  Math_abs (current - windowMean) / (windowStd + lit 1e-7).

End Scores.

Section InsightVocabulary.
Context {num : Type} {JN : JSNumber num}.
Import AIInsight.

(** the confidences that the source attaches to its insights *)
Definition stated (i : AIInsight.t num) : Prop :=
  In (confidence i) [lit 1.0; lit 0.9; lit 0.85; lit 0.8; lit 0.75].

(** an insight that some rule other than the anomaly rule pushed *)
Definition calm (i : AIInsight.t num) : Prop :=
  stated i /\ type i <> critical.

End InsightVocabulary.

(** * The panel's data ([src/utils/dataProcessing.ts]) *)

(** The global functions and the strict equality that the panel and its
    data helpers use on numbers. *)
Class JSGlobals (num : Type) : Type := {
  isNaN : num -> bool;
  isFinite : num -> bool;
  (** [a === b] *)
  strict_eq : num -> num -> bool
}.

#[export] Instance JSfloatGlobals : JSGlobals float := {|
  isNaN := PrimFloat.is_nan;
  isFinite := PrimFloat.is_finite;
  strict_eq := PrimFloat.eqb
|}.

#[export] Instance JSrealGlobals : JSGlobals R := {|
  isNaN := fun _ => false;
  isFinite := fun _ => true;
  strict_eq := fun a b => if Req_dec_T a b then true else false
|}.

Module DataPoint.
Record t (num : Type) : Type := mk {
  timestamp : num;
  value : num;
  isAnomaly : option bool;
  isPrediction : option bool
}.
Arguments mk {num}.
Arguments timestamp {num}.
Arguments value {num}.
Arguments isAnomaly {num}.
Arguments isPrediction {num}.
End DataPoint.

(** Grafana's data frames, as far as the helpers read them: the type and
    the values of each field ([None] is [null] or [undefined]), and the two
    names of a frame. *)
Module FieldType.
Inductive t : Type := time | number | string | boolean | other.
Definition eqb (a b : t) : bool :=
  match a, b with
  | time, time | number, number | string, string | boolean, boolean
  | other, other => true
  | _, _ => false
  end.
End FieldType.

Module Field.
Record t (num : Type) : Type := mk {
  type : FieldType.t;
  values : list (option num)
}.
Arguments mk {num}.
Arguments type {num}.
Arguments values {num}.
End Field.

Module DataFrame.
Record t (num : Type) : Type := mk {
  name : option string;
  refId : option string;
  fields : list (Field.t num)
}.
Arguments mk {num}.
Arguments name {num}.
Arguments refId {num}.
Arguments fields {num}.
End DataFrame.

Section DataProcessing.
Context {num : Type} {JN : JSNumber num} {JG : JSGlobals num}.
Local Open Scope js_scope.

Definition extractNumericValues (data : list (DataFrame.t num)) : list num :=
  if (List.length data =? 0)%nat then []
  else
    fold_left
      (fun values series =>
         let valueFields :=
           filter (fun f => FieldType.eqb (Field.type f) FieldType.number)
             (DataFrame.fields series) in
         fold_left
           (fun values field =>
              fold_left
                (fun values value =>
                   match value with
                   | Some v => if negb (isNaN v) then values ++ [v] else values
                   | None => values
                   end)
                (Field.values field) values)
           valueFields values)
      data [].

(** [a || b] on optional strings: the empty string is falsy *)
Definition or_string (a : option string) (b : string) : string :=
  match a with
  | Some (String c s) => String c s
  | _ => b
  end.

Definition getSeriesNames (data : list (DataFrame.t num)) : list string :=
  if (List.length data =? 0)%nat then []
  else
    filter (fun name => negb (String.eqb name EmptyString))
      (map (fun series =>
              or_string (DataFrame.name series)
                (or_string (DataFrame.refId series) "Series"))
         data).

(** [Math.min(...values)] and [Math.max(...values)] of an array that holds
    [first] and then [rest] *)
Definition Math_min_of (first : num) (rest : list num) : num :=
  fold_left Math_min rest first.
Definition Math_max_of (first : num) (rest : list num) : num :=
  fold_left Math_max rest first.

(** The spread calls [Math.min(...values)] and [Math.max(...values)] pass
    every element as an argument.  An engine accepts only so many
    arguments in a call and throws a RangeError beyond, which nothing
    catches ([None]); [max_arguments] is how many it accepts here. *)
Definition normalizeData (max_arguments : nat) (values : list num)
    : option (list num) :=
  match values with
  | [] => Some []
  | first :: rest =>
      if (max_arguments <? List.length values)%nat then None
      else
        let min := Math_min_of first rest in
        let max := Math_max_of first rest in
        let range := max - min in
        if strict_eq range (of_Z 0) then Some (map (fun _ => lit 0.5) values)
        else Some (map (fun v => (v - min) / range) values)
  end.

(** [window.reduce((sum, v) => sum + v, 0) / window.length] *)
Definition average (window : list num) : num := sum window / len window.

(** The window size is a count; the source's default is 3. *)
Definition smoothData (values : list num) (windowSize : nat) : list num :=
  if (List.length values <? windowSize)%nat then values
  else
    let halfWindow := (windowSize / 2)%nat in
    fold_left
      (fun smoothed i =>
         let start := (i - halfWindow)%nat in
         let end_ := Nat.min (List.length values) (i + halfWindow + 1) in
         let window := slice start end_ values in
         smoothed ++ [average window])
      (seq 0 (List.length values)) [].

(** The period is a count.  [i < period - 1] is read as [i + 1 < period],
    and the window starts at [i + 1 - period], which is where
    [i - period + 1] lies when the first test fails. *)
Definition calculateMovingAverage (values : list num) (period : nat)
    : list num :=
  if (List.length values <? period)%nat then values
  else
    fold_left
      (fun ma i =>
         if (i + 1 <? period)%nat then ma ++ [at_index values i]
         else
           let window := slice (i + 1 - period) (i + 1) values in
           ma ++ [average window])
      (seq 0 (List.length values)) [].

End DataProcessing.

(** * The panel ([src/components/SimplePanel.tsx]) *)

(** a record that points at its sample *)
Definition points_into {num : Type} (data : list num)
    (a : AnomalyResult.t num) : Prop :=
  nth_error data (AnomalyResult.index a) = Some (AnomalyResult.value a).

Module VisualizationMode.
Inductive t : Type := chart | gauge | stats | ai_analysis.
End VisualizationMode.

Module AnomalyMethod.
Inductive t : Type := zscore | iqr | ml.
End AnomalyMethod.

(** The options that the analysis reads. *)
Module SimpleOptions.
Record t (num : Type) : Type := mk {
  visualizationMode : VisualizationMode.t;
  enableAnomalyDetection : bool;
  anomalyMethod : AnomalyMethod.t;
  anomalySensitivity : num;
  enableTrendPrediction : bool;
  (** the slider's value, an integer *)
  predictionSteps : Z;
  enableAIInsights : bool;
  enableDataUpload : bool;
  dataUrl : string
}.
Arguments mk {num}.
Arguments visualizationMode {num}.
Arguments enableAnomalyDetection {num}.
Arguments anomalyMethod {num}.
Arguments anomalySensitivity {num}.
Arguments enableTrendPrediction {num}.
Arguments predictionSteps {num}.
Arguments enableAIInsights {num}.
Arguments enableDataUpload {num}.
Arguments dataUrl {num}.
End SimpleOptions.

(** A call of one of the panel's state setters. *)
Inductive update (num : Type) : Type :=
| setLoading (loading : bool)
| setInsights (insights : list (AIInsight.t num))
| setAnomalies (anomalies : list (AnomalyResult.t num))
| setPredictions (predictions : list (TrendPrediction.t num))
| setProcessedData (points : list (DataPoint.t num)).
Arguments setLoading {num}.
Arguments setInsights {num}.
Arguments setAnomalies {num}.
Arguments setPredictions {num}.
Arguments setProcessedData {num}.

Section Panel.
Context {num : Type} {JN : JSNumber num} {JG : JSGlobals num}
        {JM : JSMath num} {TF : TensorFlow num}.
Local Open Scope js_scope.
Import SimpleOptions.

(** The memoised [numericValues]: the external points when they are used,
    the frames' numbers otherwise, and of either the last 1000 at most. *)
Definition numericValues (options : SimpleOptions.t num)
    (externalData : list (DataPoint.t num)) (series : list (DataFrame.t num))
    : list num :=
  let values :=
    if enableDataUpload options
       && negb (String.eqb (dataUrl options) EmptyString)
       && (0 <? List.length externalData)%nat
    then map DataPoint.value externalData
    else extractNumericValues series in
  if (1000 <? List.length values)%nat then slice_last 1000 values else values.

Definition validValues (numericValues : list num) : bool :=
  forallb (fun v => negb (isNaN v) && isFinite v) numericValues.

Definition forceAIAnalysis (options : SimpleOptions.t num) : bool :=
  match visualizationMode options with
  | VisualizationMode.ai_analysis => true
  | _ => false
  end.
Definition shouldRunAnomalyDetection (options : SimpleOptions.t num) : bool :=
  forceAIAnalysis options || enableAnomalyDetection options.
Definition shouldRunTrendPrediction (options : SimpleOptions.t num) : bool :=
  forceAIAnalysis options || enableTrendPrediction options.
Definition shouldRunAIInsights (options : SimpleOptions.t num) : bool :=
  forceAIAnalysis options || enableAIInsights options.

(** [detectedAnomalies] of the timer's callback once the [switch] is
    through; [clock] is the clock during the detector's call. *)
Definition detectedAnomalies (clock : nat -> num)
    (options : SimpleOptions.t num) (numericValues : list num)
    : outcome (list (AnomalyResult.t num)) :=
  if shouldRunAnomalyDetection options then
    match anomalyMethod options with
    | AnomalyMethod.zscore =>
        Returned
          (detectAnomaliesZScore clock numericValues
             (anomalySensitivity options))
    | AnomalyMethod.iqr =>
        Returned
          (detectAnomaliesIQR clock numericValues (anomalySensitivity options))
    | AnomalyMethod.ml =>
        if (List.length numericValues <=? 100)%nat then
          detectAnomaliesML clock numericValues
            (anomalySensitivity options / of_Z 10)
        else
          Returned
            (detectAnomaliesZScore clock numericValues
               (anomalySensitivity options))
    end
  else Returned [].

Definition dataWithAnomalies (timeSeriesData : list (DataPoint.t num))
    (detectedAnomalies : list (AnomalyResult.t num))
    : list (DataPoint.t num) :=
  map (fun '(idx, point) =>
         DataPoint.mk (DataPoint.timestamp point) (DataPoint.value point)
           (Some
              (existsb (fun a => (AnomalyResult.index a =? idx)%nat)
                 detectedAnomalies))
           (DataPoint.isPrediction point))
    (entries timeSeriesData).

(** [trendPredictions] of the timer's callback; [clock] is the clock
    during the forecaster's call. *)
Definition trendPredictions (clock : nat -> num)
    (options : SimpleOptions.t num) (numericValues : list num)
    : outcome (list (TrendPrediction.t num)) :=
  if shouldRunTrendPrediction options
     && (5 <=? List.length numericValues)%nat
     && (List.length numericValues <=? 100)%nat
  then predictTrend clock numericValues (Z.min (predictionSteps options) 10)
  else Returned [].

(** The callback that the analysis effect hands to [setTimeout], as the
    setter calls it makes, in their order.  A rejected promise leaves the
    [try] block for the handler, which only logs; [finally] runs at the
    end. *)
Definition analysisTimer (clockA clockP : nat -> num)
    (options : SimpleOptions.t num) (numericValues : list num)
    (timeSeriesData : list (DataPoint.t num)) : list (update num) :=
  [setLoading true]
  ++ match detectedAnomalies clockA options numericValues with
     | Thrown _ => []
     | Returned detected =>
         [setAnomalies detected;
          setProcessedData (dataWithAnomalies timeSeriesData detected)]
         ++ match trendPredictions clockP options numericValues with
            | Thrown _ => []
            | Returned trend =>
                [setPredictions trend]
                ++ (if shouldRunAIInsights options then
                      [setInsights
                         (generateAIInsights numericValues detected trend)]
                    else [])
            end
     end
  ++ [setLoading false].

(** The analysis effect: the setter calls it makes at once and, when it
    sets the timer, those of the timer's callback. *)
Definition analysisEffect (clockA clockP : nat -> num)
    (options : SimpleOptions.t num) (numericValues : list num)
    (timeSeriesData : list (DataPoint.t num))
    : list (update num) * option (list (update num)) :=
  if (List.length numericValues <? 2)%nat then
    ([setInsights []; setAnomalies []; setPredictions [];
      setProcessedData []], None)
  else if negb (validValues numericValues) then
    ([setInsights []; setAnomalies []; setPredictions []], None)
  else if shouldRunAIInsights options
          && negb (shouldRunAnomalyDetection options)
          && negb (shouldRunTrendPrediction options) then
    ([setInsights (generateAIInsights numericValues [] []);
      setProcessedData timeSeriesData], None)
  else if negb (shouldRunAnomalyDetection options)
          && negb (shouldRunTrendPrediction options)
          && negb (shouldRunAIInsights options) then
    ([setAnomalies []; setPredictions []; setInsights [];
      setProcessedData timeSeriesData], None)
  else
    ([], Some (analysisTimer clockA clockP options numericValues
                 timeSeriesData)).

End Panel.

(** ** The time series of the frames *)

Section TimeSeries.
Context {num : Type} {JN : JSNumber num} {JG : JSGlobals num}.
Local Open Scope js_scope.

(** One step of [points.sort((a, b) => a.timestamp - b.timestamp)], as
    [insert_ascending]; it is the engine's order when no timestamp is
    NaN. *)
Fixpoint insert_by_timestamp (p : DataPoint.t num)
    (sorted : list (DataPoint.t num)) : list (DataPoint.t num) :=
  match sorted with
  | [] => [p]
  | q :: rest =>
      if (DataPoint.timestamp p - DataPoint.timestamp q) > of_Z 0
      then q :: insert_by_timestamp p rest
      else p :: q :: rest
  end.

Definition sort_by_timestamp (points : list (DataPoint.t num))
    : list (DataPoint.t num) :=
  fold_right insert_by_timestamp [] points.

(** [values[i]]; a missing element reads as [undefined], which the test
    [!= null] treats like [null]. *)
Definition value_at (values : list (option num)) (i : nat) : option num :=
  match nth_error values i with
  | Some value => value
  | None => None
  end.

Definition extractTimeSeriesData (data : list (DataFrame.t num))
    : list (DataPoint.t num) :=
  if (List.length data =? 0)%nat then []
  else
    let points :=
      fold_left
        (fun points series =>
           let timeField :=
             find (fun f => FieldType.eqb (Field.type f) FieldType.time)
               (DataFrame.fields series) in
           let valueField :=
             find (fun f => FieldType.eqb (Field.type f) FieldType.number)
               (DataFrame.fields series) in
           match timeField, valueField with
           | Some timeField, Some valueField =>
               let timeValues := Field.values timeField in
               let dataValues := Field.values valueField in
               fold_left
                 (fun points i =>
                    match value_at timeValues i, value_at dataValues i with
                    | Some timestamp, Some value =>
                        if negb (isNaN value) then
                          points
                          ++ [DataPoint.mk timestamp value (Some false)
                                (Some false)]
                        else points
                    | _, _ => points
                    end)
                 (seq 0 (List.length timeValues)) points
           | _, _ => points
           end)
        data [] in
    sort_by_timestamp points.

(** a point as [extractTimeSeriesData] builds it *)
Definition unmarked (p : DataPoint.t num) : Prop :=
  DataPoint.isAnomaly p = Some false
  /\ DataPoint.isPrediction p = Some false
  /\ isNaN (DataPoint.value p) = false.

End TimeSeries.

(** in the order of their times *)
Definition by_time (p q : DataPoint.t R) : Prop :=
  (DataPoint.timestamp p <= DataPoint.timestamp q)%R.

(** A frame with one time field and one number field, without gaps. *)
Definition plain_frame {num : Type} (times values : list num)
    : DataFrame.t num :=
  DataFrame.mk None None
    [Field.mk FieldType.time (map Some times);
     Field.mk FieldType.number (map Some values)].

(** * Concrete runs on binary64 *)

(** C1, as stated, fails: at sensitivity 3 the flagged indices are not 8 and
    16. *)
Lemma zscore_orders_not_8_and_16 :
  map AnomalyResult.index (detectAnomaliesZScore epoch orders 3%float)
  <> [8; 16]%nat.
Proof. vm_compute. discriminate. Qed.

(** C6: the code at a failing input.  Four of the five samples are 1, so both
    quartiles are 1 and the IQR is 0; the sample 5 lies outside the collapsed
    bounds, its distance to them is 4, and its score is 4/0, which is
    +Infinity: the division by the IQR is not guarded. *)
Theorem iqr_zero_spread_infinite_score (Date_now : nat -> float) :
  detectAnomaliesIQR Date_now [1; 1; 1; 1; 5]%float 2%float
  = [AnomalyResult.mk 4 5%float (Date_now 0%nat - 1000)%float
       PrimFloat.infinity "iqr"].
Proof. vm_compute. reflexivity. Qed.

(** C9: on the two samples 10, 10 with no anomalies and no forecasts the
    insight generator returns a single insight, the low-volatility one of the
    volatility rule; the anomaly, swing, trend and forecast rules and the
    extreme-value rule push nothing.  Every divisor on the way is 10 or a
    length (2, 1, 1), and the quotients are the plain numbers 0, 0 and 0. *)
Theorem insights_two_equal_samples :
  generateAIInsights [10; 10]%float [] []
  = [AIInsight.mk AIInsight.info
       [AIInsight.Text "Low volatility detected. Data is stable and consistent."]
       0.8%float]
  /\ anomalyRule [10; 10]%float [] = []
  /\ swingRule [10; 10]%float = []
  /\ trendRule [10; 10]%float = []
  /\ forecastRule [10; 10]%float [] = []
  /\ extremeRule [10; 10]%float = []
  /\ volatilityRule [10; 10]%float = generateAIInsights [10; 10]%float [] []
  /\ (previous [10; 10]%float = 10%float
      /\ firstMean [10; 10]%float = 10%float
      /\ (sum [10; 10]%float / len [10; 10]%float)%js = 10%float)
  /\ (len [10; 10]%float = 2%float
      /\ len (firstHalf [10; 10]%float) = 1%float
      /\ len (secondHalf [10; 10]%float) = 1%float)
  /\ (change [10; 10]%float = 0%float
      /\ trendChange [10; 10]%float = 0%float
      /\ volatility [10; 10]%float = 0%float).
Proof. repeat split; vm_compute; reflexivity. Qed.

(** * Loops that push *)

Section Loops.
Context {A B : Type}.

(** A loop whose every step leaves the accumulator alone returns it. *)
Lemma fold_left_skips (f : B -> A -> B) (l : list A) (acc : B) :
  (forall x, In x l -> forall b, f b x = b) -> fold_left f l acc = acc.
Proof.
  revert acc.
  induction l as [|x l IH]; intros acc Hskip; simpl.
  - reflexivity.
  - rewrite (Hskip x) by (left; reflexivity).
    apply IH. intros y Hy. apply Hskip. right. exact Hy.
Qed.

(** Two loops over the same list stay related when their steps preserve
    the relation. *)
Lemma fold_left_related {C : Type} (rel : B -> C -> Prop)
    (f : B -> A -> B) (g : C -> A -> C) (l : list A) :
  (forall b c x, In x l -> rel b c -> rel (f b x) (g c x)) ->
  forall b c, rel b c -> rel (fold_left f l b) (fold_left g l c).
Proof.
  induction l as [|x l IH]; intros Hstep b c Hbc; simpl.
  - exact Hbc.
  - apply IH.
    + intros b' c' y Hy. apply Hstep. right. exact Hy.
    + apply Hstep; [left; reflexivity | exact Hbc].
Qed.

End Loops.

Lemma entries_In {A} (data : list A) (i : nat) (v : A) :
  In (i, v) (entries data) -> In v data.
Proof. unfold entries. intros Hin. apply in_combine_r in Hin. exact Hin. Qed.

(** * Facts of binary64 arithmetic *)

Module F64Facts.

(** The literals of the source, read through [lit], are the doubles that the
    JavaScript lexer produces for them. *)
Example literals :
  map lit [0.25; 0.75; 0.8; 1e-7; 0.3; 0.01; 0.0001; 0.12; 0.6; 0.92; 0.5;
           0.4; 0.95; 0.1; 0.9; 0.85; 0.75; 1.5; 0.05; 1.0]%Q
  = [0.25; 0.75; 0.8; 1e-7; 0.3; 0.01; 0.0001; 0.12; 0.6; 0.92; 0.5;
     0.4; 0.95; 0.1; 0.9; 0.85; 0.75; 1.5; 0.05; 1.0]%float.
Proof. vm_compute. reflexivity. Qed.

Example floors :
  map Math_floor [0; 0.75; 1; 1.25; 5; 6.6; 7.5; 30; -0.5; -2]%float
  = [0; 0; 1; 1; 5; 6; 7; 30; -1; -2]%Z.
Proof. vm_compute. reflexivity. Qed.

Lemma sub_self (c : float) : zero_or_nan (c - c)%float.
Proof.
  unfold zero_or_nan. rewrite sub_spec.
  destruct (Prim2SF c) as [s| s | |s m e].
  - right. exists false. destruct s; reflexivity.
  - left. destruct s; reflexivity.
  - left. reflexivity.
  - right. exists false.
    unfold SF64sub, SFsub. rewrite Z.min_id.
    unfold shl_align. rewrite Z.sub_diag. reflexivity.
Qed.

Lemma div_zero_or_nan (x d : float) :
  zero_or_nan x -> zero_or_nan (x / d)%float.
Proof.
  unfold zero_or_nan. rewrite div_spec.
  intros [Hx | [s Hx]]; rewrite Hx.
  - left. reflexivity.
  - destruct (Prim2SF d) as [sd| sd | |sd md ed]; simpl;
      first [left; reflexivity | right; eexists; reflexivity].
Qed.

Lemma abs_zero_or_nan (x : float) :
  zero_or_nan x -> zero_or_nan (PrimFloat.abs x).
Proof.
  unfold zero_or_nan. rewrite abs_spec.
  intros [Hx | [s Hx]]; rewrite Hx; simpl.
  - left. reflexivity.
  - right. eexists. reflexivity.
Qed.

(** Nothing positive lies below a zero or a NaN. *)
Lemma positive_not_below (s x : float) :
  PrimFloat.ltb 0 s = true -> zero_or_nan x -> PrimFloat.ltb s x = false.
Proof.
  rewrite !ltb_spec. unfold SFltb. intros Hpos [Hx | [sx Hx]]; rewrite Hx.
  - destruct (Prim2SF s); reflexivity.
  - revert Hpos. change (Prim2SF 0) with (S754_zero false).
    destruct (Prim2SF s) as [ss| ss | |ss ms es]; simpl;
      try discriminate; destruct ss; simpl; congruence.
Qed.

End F64Facts.

(** * The order of binary64 and the sign of a difference

    The comparator of [sort] is [a - b].  On binary64 a difference of two
    numbers is never rounded to zero and never changes sign, so the
    comparator orders the numbers as [<] does. *)

Module F64Order.

Local Open Scope Z_scope.

Lemma fexp_eq (e : Z) : fexp prec emax e = Z.max (e - 53) emin64.
Proof. reflexivity. Qed.

Lemma digits2_bounds (p : positive) :
  2 ^ (Zpos (digits2_pos p) - 1) <= Zpos p < 2 ^ Zpos (digits2_pos p).
Proof.
  induction p as [p IH | p IH |]; simpl digits2_pos.
  - rewrite Pos2Z.inj_succ.
    replace (Z.succ (Zpos (digits2_pos p)) - 1) with (Zpos (digits2_pos p)) by lia.
    rewrite Z.pow_succ_r by lia.
    assert (2 ^ Zpos (digits2_pos p) = 2 * 2 ^ (Zpos (digits2_pos p) - 1)) as E.
    { rewrite <- Z.pow_succ_r by lia. f_equal. lia. }
    lia.
  - rewrite Pos2Z.inj_succ.
    replace (Z.succ (Zpos (digits2_pos p)) - 1) with (Zpos (digits2_pos p)) by lia.
    rewrite Z.pow_succ_r by lia.
    assert (2 ^ Zpos (digits2_pos p) = 2 * 2 ^ (Zpos (digits2_pos p) - 1)) as E.
    { rewrite <- Z.pow_succ_r by lia. f_equal. lia. }
    lia.
  - simpl. lia.
Qed.

Lemma shr_1_m (mrs : shr_record) :
  0 <= shr_m mrs -> shr_m (shr_1 mrs) = Z.div2 (shr_m mrs).
Proof.
  destruct mrs as [m r s]. simpl.
  destruct m as [|[p|p|]|p]; simpl; intros; try reflexivity; lia.
Qed.

Lemma shr_1_nonneg (mrs : shr_record) :
  0 <= shr_m mrs -> 0 <= shr_m (shr_1 mrs).
Proof.
  destruct mrs as [m r s]. simpl.
  destruct m as [|[p|p|]|p]; simpl; intros; lia.
Qed.

Lemma iter_shr_m (p : positive) :
  forall mrs, 0 <= shr_m mrs ->
    shr_m (SpecFloat.iter_pos shr_1 p mrs) = Z.shiftr (shr_m mrs) (Zpos p)
    /\ 0 <= shr_m (SpecFloat.iter_pos shr_1 p mrs).
Proof.
  induction p as [p IH | p IH |]; intros mrs Hm; simpl SpecFloat.iter_pos.
  - pose proof (shr_1_nonneg mrs Hm) as H1.
    destruct (IH (shr_1 mrs) H1) as [E1 N1].
    destruct (IH _ N1) as [E2 N2].
    split; [| exact N2].
    rewrite E2, E1, shr_1_m by exact Hm.
    rewrite Z.div2_spec, !Z.shiftr_shiftr by lia. f_equal. lia.
  - destruct (IH mrs Hm) as [E1 N1].
    destruct (IH _ N1) as [E2 N2].
    split; [| exact N2].
    rewrite E2, E1, Z.shiftr_shiftr by lia. f_equal. lia.
  - split; [| apply shr_1_nonneg; exact Hm].
    rewrite shr_1_m by exact Hm. apply Z.div2_spec.
Qed.

Lemma shiftr_pos (m n : Z) : 0 <= n -> 2 ^ n <= m -> 1 <= Z.shiftr m n.
Proof.
  intros Hn Hm. rewrite Z.shiftr_div_pow2 by exact Hn.
  assert (0 < 2 ^ n) by (apply Z.pow_pos_nonneg; lia).
  apply Z.div_le_lower_bound; lia.
Qed.

(** shifting to the format's exponent leaves a positive mantissa positive *)
Lemma shr_fexp_pos (m : positive) (e : Z) (l : location) :
  emin64 <= e ->
  1 <= shr_m (fst (shr_fexp prec emax (Zpos m) e l))
  /\ emin64 <= snd (shr_fexp prec emax (Zpos m) e l).
Proof.
  intros He. unfold shr_fexp, shr.
  assert (shr_m (shr_record_of_loc (Zpos m) l) = Zpos m) as Hrec.
  { destruct l as [|[| |]]; reflexivity. }
  simpl Zdigits2. rewrite fexp_eq.
  destruct (Z.max (Zpos (digits2_pos m) + e - 53) emin64 - e) as [|p|p] eqn:Hn;
    simpl fst; simpl snd.
  - rewrite Hrec. lia.
  - destruct (iter_shr_m p (shr_record_of_loc (Zpos m) l)) as [E _];
      [rewrite Hrec; lia |].
    rewrite E, Hrec. split; [| lia].
    apply shiftr_pos; [lia |].
    pose proof (digits2_bounds m) as [Hlow _].
    eapply Z.le_trans; [| exact Hlow].
    apply Z.pow_le_mono_r; lia.
  - rewrite Hrec. lia.
Qed.

Lemma round_nearest_even_pos (m : Z) (l : location) :
  1 <= m -> exists q, round_nearest_even m l = Zpos q.
Proof.
  intros Hm. unfold round_nearest_even.
  destruct l as [|[| |]]; try destruct (Z.even m);
    match goal with |- exists q, ?x = Zpos q =>
      destruct x as [|q|q] eqn:E; [lia | exists q; reflexivity | lia]
    end.
Qed.

Lemma binary_round_aux_signed (s : bool) (m : positive) (e : Z) (l : location) :
  emin64 <= e -> signed s (binary_round_aux prec emax s (Zpos m) e l).
Proof.
  intros He. unfold binary_round_aux.
  destruct (shr_fexp_pos m e l He) as [Hm1 He1].
  destruct (shr_fexp prec emax (Zpos m) e l) as [mrs1 e1].
  simpl fst in Hm1. simpl snd in He1.
  destruct (round_nearest_even_pos (shr_m mrs1) (loc_of_shr_record mrs1) Hm1)
    as [q Hq].
  rewrite Hq.
  destruct (shr_fexp_pos q e1 loc_Exact He1) as [Hm2 _].
  destruct (shr_fexp prec emax (Zpos q) e1 loc_Exact) as [mrs2 e2].
  simpl fst in Hm2.
  destruct (shr_m mrs2) as [|m2|m2]; [lia | | lia].
  destruct (e2 <=? emax - prec); reflexivity.
Qed.

Lemma binary_round_aux_signed_or_nan (s : bool) (m e : Z) (l : location) :
  signed_or_nan s (binary_round_aux prec emax s m e l).
Proof.
  unfold binary_round_aux.
  destruct (shr_fexp prec emax m e l) as [mrs1 e1].
  destruct (shr_fexp prec emax _ e1 loc_Exact) as [mrs2 e2].
  destruct (shr_m mrs2) as [|m2|m2]; [reflexivity | | exact I].
  destruct (e2 <=? emax - prec); reflexivity.
Qed.

Lemma binary_round_signed (s : bool) (m : positive) (e : Z) :
  emin64 <= e -> signed s (binary_round prec emax s m e).
Proof.
  intros He. unfold binary_round, shl_align.
  rewrite fexp_eq.
  destruct (Z.max (Zpos (digits2_pos m) + e - 53) emin64 - e) as [|d|d] eqn:Hd;
    apply binary_round_aux_signed; lia.
Qed.

Lemma binary_round_signed_or_nan (s : bool) (m : positive) (e : Z) :
  signed_or_nan s (binary_round prec emax s m e).
Proof.
  unfold binary_round.
  destruct (shl_align _ _ _) as [mz ez].
  apply binary_round_aux_signed_or_nan.
Qed.

Lemma canonical_facts (m : positive) (e : Z) :
  canonical_mantissa prec emax m e = true ->
  emin64 <= e /\ Zpos (digits2_pos m) <= 53
  /\ (emin64 < e -> Zpos (digits2_pos m) = 53).
Proof.
  unfold canonical_mantissa. rewrite fexp_eq. intros H.
  apply Z.eqb_eq in H. unfold emin64 in *. lia.
Qed.

Lemma valid_finite (s : bool) (m : positive) (e : Z) :
  valid_binary (S754_finite s m e) = true ->
  canonical_mantissa prec emax m e = true.
Proof.
  simpl. unfold bounded. intros H. apply andb_prop in H. apply H.
Qed.

Lemma Zpos_iter_xO (m d : positive) :
  Zpos (Pos.iter xO m d) = Zpos m * 2 ^ Zpos d.
Proof.
  induction d as [|d IH] using Pos.peano_ind.
  - simpl. lia.
  - rewrite Pos.iter_succ, Pos2Z.inj_succ, Z.pow_succ_r by lia.
    rewrite Pos2Z.inj_xO, IH. lia.
Qed.

Lemma shl_align_value (m : positive) (e ez : Z) :
  ez <= e -> Zpos (fst (shl_align m e ez)) = Zpos m * 2 ^ (e - ez).
Proof.
  intros Hle. unfold shl_align.
  destruct (ez - e) as [|d|d] eqn:Hd; simpl fst.
  - replace (e - ez) with 0 by lia. lia.
  - lia.
  - rewrite Zpos_iter_xO. f_equal. f_equal. lia.
Qed.

(** the aligned mantissas of two canonical numbers compare like the numbers *)
Lemma aligned_compare (mx my : positive) (ex ey : Z) :
  canonical_mantissa prec emax mx ex = true ->
  canonical_mantissa prec emax my ey = true ->
  (Zpos (fst (shl_align mx ex (Z.min ex ey)))
   ?= Zpos (fst (shl_align my ey (Z.min ex ey))))
  = match ex ?= ey with
    | Lt => Lt
    | Gt => Gt
    | Eq => Pos.compare_cont Eq mx my
    end.
Proof.
  intros Hx Hy.
  apply canonical_facts in Hx as (Hex & Hdx & Hnx).
  apply canonical_facts in Hy as (Hey & Hdy & Hny).
  pose proof (digits2_bounds mx) as [Hlx Hux].
  pose proof (digits2_bounds my) as [Hly Huy].
  rewrite !shl_align_value by lia.
  assert (forall d, 0 < d -> 2 <= 2 ^ d) as Hpow.
  { intros d Hd. change 2 with (2 ^ 1) at 1. apply Z.pow_le_mono_r; lia. }
  assert (forall d, d <= 53 -> 2 ^ d <= 2 ^ 53) as Hcap.
  { intros d Hd. destruct (Z_lt_le_dec d 0) as [Hneg | Hpos].
    - rewrite Z.pow_neg_r by lia. lia.
    - apply Z.pow_le_mono_r; lia. }
  destruct (Z.compare_spec ex ey) as [Heq | Hlt | Hgt].
  - subst ey. rewrite Z.min_id, Z.sub_diag. simpl (2 ^ 0). rewrite !Z.mul_1_r.
    reflexivity.
  - rewrite Z.min_l by lia. rewrite Z.sub_diag. simpl (2 ^ 0). rewrite Z.mul_1_r.
    apply Z.compare_lt_iff.
    specialize (Hny ltac:(lia)). rewrite Hny in Hly.
    specialize (Hpow (ey - ex) ltac:(lia)).
    specialize (Hcap (Zpos (digits2_pos mx)) Hdx).
    change (2 ^ (53 - 1)) with 4503599627370496 in Hly.
    change (2 ^ 53) with 9007199254740992 in Hcap.
    nia.
  - rewrite Z.min_r by lia. rewrite Z.sub_diag. simpl (2 ^ 0). rewrite Z.mul_1_r.
    apply Z.compare_gt_iff.
    specialize (Hnx ltac:(lia)). rewrite Hnx in Hlx.
    specialize (Hpow (ex - ey) ltac:(lia)).
    specialize (Hcap (Zpos (digits2_pos my)) Hdy).
    change (2 ^ (53 - 1)) with 4503599627370496 in Hlx.
    change (2 ^ 53) with 9007199254740992 in Hcap.
    nia.
Qed.

Lemma ltb_zero_signed (s : bool) (r : spec_float) :
  signed s r -> SFltb (S754_zero false) r = negb s.
Proof.
  destruct r as [s'|s'| |s' m e]; simpl; intros H; try contradiction;
    subst s'; destruct s; reflexivity.
Qed.

Lemma ltb_zero_negative (r : spec_float) :
  signed_or_nan true r -> SFltb (S754_zero false) r = false.
Proof.
  destruct r as [s'|s'| |s' m e]; simpl; intros H; try reflexivity;
    subst s'; reflexivity.
Qed.

(** The sign of a difference: [x - y > 0] exactly when [y < x]. *)
Lemma SFsub_positive (X Y : spec_float) :
  valid_binary X = true -> valid_binary Y = true ->
  X <> S754_nan -> Y <> S754_nan ->
  SFltb (S754_zero false) (SF64sub X Y) = SFltb Y X.
Proof.
  intros HvX HvY HX HY.
  destruct X as [sx|sx| |sx mx ex], Y as [sy|sy| |sy my ey];
    try congruence;
    try (destruct sx, sy; reflexivity);
    try (destruct sx; reflexivity);
    try (destruct sy; reflexivity).
  apply valid_finite in HvX, HvY.
  pose proof (aligned_compare mx my ex ey HvX HvY) as Hcmp.
  pose proof (canonical_facts _ _ HvX) as (Hex & _).
  pose proof (canonical_facts _ _ HvY) as (Hey & _).
  unfold SF64sub, SFsub.
  set (ax := fst (shl_align mx ex (Z.min ex ey))) in *.
  set (ay := fst (shl_align my ey (Z.min ex ey))) in *.
  assert (emin64 <= Z.min ex ey) as Hez by lia.
  assert (Pos.compare_cont Eq my mx = CompOpp (Pos.compare_cont Eq mx my))
    as Hanti by (symmetry; apply (Pos.compare_cont_antisym mx my Eq)).
  unfold SFltb at 2. unfold SFcompare.
  destruct sx, sy; unfold cond_Zopp, binary_normalize.
  - (* both negative: the difference is ay - ax *)
    rewrite (Z.compare_antisym ex ey), Hanti.
    destruct (- Zpos ax - - Zpos ay) as [|z|z] eqn:Hz.
    + assert ((Zpos ax ?= Zpos ay) = Eq) as E by (apply Z.compare_eq_iff; lia).
      rewrite E in Hcmp.
      destruct (ex ?= ey); try discriminate. rewrite <- Hcmp. reflexivity.
    + assert ((Zpos ax ?= Zpos ay) = Lt) as E by (apply Z.compare_lt_iff; lia).
      rewrite E in Hcmp.
      rewrite (ltb_zero_signed false) by (apply binary_round_signed; exact Hez).
      destruct (ex ?= ey); try discriminate; try reflexivity.
      rewrite <- Hcmp. reflexivity.
    + assert ((Zpos ax ?= Zpos ay) = Gt) as E by (apply Z.compare_gt_iff; lia).
      rewrite E in Hcmp.
      rewrite ltb_zero_negative by apply binary_round_signed_or_nan.
      destruct (ex ?= ey); try discriminate; try reflexivity.
      rewrite <- Hcmp. reflexivity.
  - (* x negative, y positive *)
    destruct (- Zpos ax - Zpos ay) as [|z|z] eqn:Hz; try lia.
    rewrite ltb_zero_negative by apply binary_round_signed_or_nan.
    reflexivity.
  - (* x positive, y negative *)
    destruct (Zpos ax - - Zpos ay) as [|z|z] eqn:Hz; try lia.
    rewrite (ltb_zero_signed false) by (apply binary_round_signed; exact Hez).
    reflexivity.
  - (* both positive: the difference is ax - ay *)
    rewrite (Z.compare_antisym ex ey), Hanti.
    destruct (Zpos ax - Zpos ay) as [|z|z] eqn:Hz.
    + assert ((Zpos ax ?= Zpos ay) = Eq) as E by (apply Z.compare_eq_iff; lia).
      rewrite E in Hcmp.
      destruct (ex ?= ey); try discriminate. rewrite <- Hcmp. reflexivity.
    + assert ((Zpos ax ?= Zpos ay) = Gt) as E by (apply Z.compare_gt_iff; lia).
      rewrite E in Hcmp.
      rewrite (ltb_zero_signed false) by (apply binary_round_signed; exact Hez).
      destruct (ex ?= ey); try discriminate; try reflexivity.
      rewrite <- Hcmp. reflexivity.
    + assert ((Zpos ax ?= Zpos ay) = Lt) as E by (apply Z.compare_lt_iff; lia).
      rewrite E in Hcmp.
      rewrite ltb_zero_negative by apply binary_round_signed_or_nan.
      destruct (ex ?= ey); try discriminate; try reflexivity.
      rewrite <- Hcmp. reflexivity.
Qed.


(** *** The order of the non-NaN numbers *)

Ltac split_compares :=
  repeat match goal with
         | |- context [Z.compare ?a ?b] => destruct (Z.compare_spec a b)
         | |- context [Pos.compare ?a ?b] => destruct (Pos.compare_spec a b)
         end.

Lemma SFleb_total (X Y : spec_float) :
  X <> S754_nan -> Y <> S754_nan ->
  SFltb Y X = false -> SFleb X Y = true.
Proof.
  intros HX HY. unfold SFltb, SFleb, SFcompare.
  destruct X as [sx|sx| |sx mx ex], Y as [sy|sy| |sy my ey];
    try congruence;
    try (destruct sx, sy; simpl; congruence);
    try (destruct sx; simpl; congruence);
    try (destruct sy; simpl; congruence).
  change (Pos.compare_cont Eq my mx) with (Pos.compare my mx).
  change (Pos.compare_cont Eq mx my) with (Pos.compare mx my).
  destruct sx, sy; split_compares; simpl; intros; subst;
    try reflexivity; try discriminate; lia.
Qed.

Lemma SFltb_leb (X Y : spec_float) : SFltb X Y = true -> SFleb X Y = true.
Proof.
  unfold SFltb, SFleb. destruct (SFcompare X Y) as [[| |]|]; congruence.
Qed.

Lemma SFleb_trans (X Y Z : spec_float) :
  SFleb X Y = true -> SFleb Y Z = true -> SFleb X Z = true.
Proof.
  unfold SFleb, SFcompare.
  destruct X as [sx|sx| |sx mx ex], Y as [sy|sy| |sy my ey],
           Z as [sz|sz| |sz mz ez];
    try discriminate;
    try (destruct sx; simpl; congruence);
    try (destruct sy; simpl; congruence);
    try (destruct sz; simpl; congruence);
    try (destruct sx, sy; simpl; congruence);
    try (destruct sx, sz; simpl; congruence);
    try (destruct sy, sz; simpl; congruence);
    try (destruct sx, sy, sz; simpl; congruence).
  change (Pos.compare_cont Eq mx my) with (Pos.compare mx my).
  change (Pos.compare_cont Eq my mz) with (Pos.compare my mz).
  change (Pos.compare_cont Eq mx mz) with (Pos.compare mx mz).
  destruct sx, sy, sz; split_compares; simpl; intros; subst;
    try reflexivity; try discriminate; lia.
Qed.

Local Close Scope Z_scope.

Lemma number_spec (x : float) : PrimFloat.is_nan x = false -> number x.
Proof.
  unfold number, PrimFloat.is_nan. rewrite FloatAxioms.eqb_spec.
  intros Hnan Hx. rewrite Hx in Hnan. discriminate.
Qed.

(** [x - y > 0] exactly when [y < x]. *)
Lemma comparator_positive (x y : float) :
  number x -> number y ->
  PrimFloat.ltb 0 (x - y)%float = PrimFloat.ltb y x.
Proof.
  intros Hx Hy. rewrite !ltb_spec, sub_spec.
  apply SFsub_positive; try apply Prim2SF_valid; assumption.
Qed.

Lemma le64_total (x y : float) :
  number x -> number y -> PrimFloat.ltb y x = false -> le64 x y.
Proof.
  unfold le64. rewrite ltb_spec, leb_spec. apply SFleb_total.
Qed.

Lemma lt_le64 (x y : float) : PrimFloat.ltb x y = true -> le64 x y.
Proof. unfold le64. rewrite ltb_spec, leb_spec. apply SFltb_leb. Qed.

Lemma le64_trans (x y z : float) : le64 x y -> le64 y z -> le64 x z.
Proof. unfold le64. rewrite !leb_spec. apply SFleb_trans. Qed.

Lemma le64_refl (x : float) : number x -> le64 x x.
Proof.
  intros Hx. apply le64_total; try assumption.
  rewrite ltb_spec. unfold SFltb, SFcompare.
  destruct (Prim2SF x) as [s|s| |s m e]; try reflexivity.
  - destruct s; reflexivity.
  - rewrite Z.compare_refl, Pos.compare_cont_refl.
    destruct s; reflexivity.
Qed.

End F64Order.

(** C10: the code at a failing input.  On binary64 three samples of 0.1 sum
    to 0.30000000000000004 and their mean is 0.10000000000000002; every
    sample deviates from it by one rounding error, and so does the standard
    deviation, which is therefore not 0 and escapes the [std || 1] guard.
    Every score is 1, and a sensitivity of 0.5 flags all three samples of a
    constant sequence. *)
Theorem zscore_constant_flagged :
  map AnomalyResult.index
    (detectAnomaliesZScore epoch [0.1; 0.1; 0.1]%float 0.5%float)
  = [0; 1; 2]%nat
  /\ map AnomalyResult.score
       (detectAnomaliesZScore epoch [0.1; 0.1; 0.1]%float 0.5%float)
     = [1; 1; 1]%float.
Proof. split; vm_compute; reflexivity. Qed.

(** What the guard does cover: a constant-valued input of length at least 3
    whose mean is computed without rounding error, which is to say equals
    the common value, is not flagged at any sensitivity above 0. *)
Lemma zscore_constant_exact_mean (Date_now : nat -> float)
    (c sensitivity : float) (n : nat) :
  (3 <= n)%nat ->
  (sum (repeat c n) / len (repeat c n))%js = c ->
  (of_Z 0 < sensitivity)%js = true ->
  detectAnomaliesZScore Date_now (repeat c n) sensitivity = [].
Proof.
  intros Hn Hmean Hpos.
  unfold detectAnomaliesZScore.
  rewrite repeat_length.
  destruct (Nat.ltb_spec n 3) as [Hlt | _]; [lia |].
  cbv zeta. rewrite <- (repeat_length c n) at 1. rewrite Hmean.
  apply fold_left_skips.
  intros [index value] Hin anomalies.
  apply entries_In, repeat_spec in Hin. subst value.
  simpl lt.
  rewrite F64Facts.positive_not_below; [reflexivity | exact Hpos |].
  apply F64Facts.abs_zero_or_nan, F64Facts.div_zero_or_nan, F64Facts.sub_self.
Qed.

Example zscore_constant_exact_mean_at_24_5 :
  detectAnomaliesZScore epoch (repeat 24.5%float 4) 3%float = [].
Proof.
  apply zscore_constant_exact_mean.
  - lia.
  - vm_compute. reflexivity.
  - vm_compute. reflexivity.
Qed.

(** * The forecaster's shape *)

(** A loop that pushes once per element builds the list of what it pushed;
    [length acc] is the number of pushes so far. *)
Lemma fold_left_push_from {A B} (g : nat -> A -> B) (l : list A) (acc : list B) :
  fold_left (fun acc x => acc ++ [g (List.length acc) x]) l acc
  = acc ++ map (fun '(k, x) => g k x)
             (combine (seq (List.length acc) (List.length l)) l).
Proof.
  revert acc.
  induction l as [|x l IH]; intros acc; simpl.
  - rewrite app_nil_r. reflexivity.
  - rewrite IH, <- app_assoc, length_app. simpl.
    rewrite Nat.add_1_r. reflexivity.
Qed.

Lemma fold_left_push_all {A B} (g : nat -> A -> B) (l : list A) :
  fold_left (fun acc x => acc ++ [g (List.length acc) x]) l []
  = map (fun '(k, x) => g k x) (entries l).
Proof. rewrite fold_left_push_from. reflexivity. Qed.

Section ForecastShape.
Context {num : Type} {JN : JSNumber num} {JM : JSMath num} {TF : TensorFlow num}.
Local Open Scope js_scope.

Lemma simpleLinearPrediction_length (Date_now : nat -> num)
    (data : list num) (steps : Z) :
  List.length (simpleLinearPrediction Date_now data steps) = Z.to_nat steps.
Proof.
  unfold simpleLinearPrediction. cbv zeta.
  rewrite (fold_left_push_all
             (simpleLinearPrediction_point Date_now _ _ _ steps)).
  unfold entries.
  rewrite length_map, length_combine, !length_seq. lia.
Qed.

Lemma predictTrend_rollout_length (Date_now : nat -> num)
    (model : list num -> option num) (mean normalizedStd lastActualValue : num)
    (remaining : list nat) :
  forall currentSequence predictions result,
    predictTrend_rollout Date_now model mean normalizedStd lastActualValue
      remaining currentSequence predictions = Returned result ->
    List.length result = (List.length predictions + List.length remaining)%nat.
Proof.
  induction remaining as [|k rest IH]; intros window predictions result; simpl.
  - intros [= <-]. lia.
  - destruct (model window) as [p|]; [| discriminate].
    intros Hrun. apply IH in Hrun. rewrite Hrun, length_app. simpl. lia.
Qed.

Lemma predictTrend_try_length (Date_now : nat -> num)
    (data : list num) (steps : Z) (result : list (TrendPrediction.t num)) :
  predictTrend_try Date_now data steps = Returned result ->
  List.length result = Z.to_nat steps.
Proof.
  unfold predictTrend_try. cbv zeta.
  destruct (_ <? 3)%nat.
  - intros [= <-]. apply simpleLinearPrediction_length.
  - destruct (tf_fit _ _) as [model|]; [| discriminate].
    intros Hrun. apply predictTrend_rollout_length in Hrun.
    rewrite Hrun, length_seq. reflexivity.
Qed.

(** The promise is always fulfilled, with one point per step. *)
Lemma predictTrend_returns (Date_now : nat -> num) (data : list num) (steps : Z) :
  exists predictions,
    predictTrend Date_now data steps = Returned predictions
    /\ List.length predictions = Z.to_nat steps.
Proof.
  unfold predictTrend.
  destruct (_ <? 5)%nat.
  - eexists. split; [reflexivity | apply simpleLinearPrediction_length].
  - eexists. split; [reflexivity |].
    destruct (predictTrend_try Date_now data steps) as [result | reads] eqn:Htry;
      simpl.
    + apply (predictTrend_try_length _ _ _ _ Htry).
    + apply simpleLinearPrediction_length.
Qed.

(** C8 (amended): the forecaster never signals a failure, whatever the
    input, the step count and the behaviour of the TensorFlow calls: its
    promise is always fulfilled; a negative (or zero) step count is not
    rejected but answered with the empty forecast. *)
Theorem predictTrend_never_rejects (Date_now : nat -> num)
    (data : list num) (steps : Z) :
  exists predictions,
    predictTrend Date_now data steps = Returned predictions
    /\ ((steps <= 0)%Z -> predictions = []).
Proof.
  destruct (predictTrend_returns Date_now data steps) as [ps [Hps Hlen]].
  exists ps. split; [exact Hps |].
  intros Hneg. apply length_zero_iff_nil. rewrite Hlen. lia.
Qed.

End ForecastShape.

Lemma predictTrend_never_rejects_witness :
  exists predictions,
    predictTrend (TF := tf_unavailable)
      (JM := any_math)
      epoch orders (-1) = Returned predictions
    /\ predictions = [].
Proof.
  destruct (predictTrend_never_rejects (TF := tf_unavailable)
              (JM := any_math)
              epoch orders (-1)) as (predictions & Hreturned & Hempty).
  exists predictions. split; [exact Hreturned | apply Hempty; lia].
Defined.

(** C8, as stated, fails: a step count of -1 is not rejected.  On three
    samples (fallback path) and on nine (learning path, trained model at
    hand) the promise is fulfilled with the empty forecast. *)
Lemma predictTrend_negative_steps_not_rejected :
  predictTrend (JM := any_math) (TF := tf_unavailable) epoch
    [1; 2; 3]%float (-1)
  = Returned []
  /\ predictTrend (JM := pow_upto_1) (TF := period_model) epoch periodic (-1)
     = Returned [].
Proof. split; vm_compute; reflexivity. Qed.

(** * The fallback of the sliding-window detector *)

Section MLFallback.
Context {num : Type} {JN : JSNumber num} {TF : TensorFlow num}.
Local Open Scope js_scope.

(** The [try] block throws only in the TensorFlow calls that open it,
    before the clock is read. *)
Lemma detectAnomaliesML_try_thrown (Date_now : nat -> num)
    (data : list num) (sensitivity : num) (reads : nat) :
  detectAnomaliesML_try Date_now data sensitivity = Thrown reads <->
  tf_standardize data = None /\ reads = 0%nat.
Proof.
  unfold detectAnomaliesML_try.
  destruct (tf_standardize data) as [sequence|]; split.
  - discriminate.
  - intros [Hnone _]. discriminate.
  - intros [= <-]. split; reflexivity.
  - intros [_ ->]. reflexivity.
Qed.

(** C5: whenever the [try] block of the sliding-window detector throws, for
    whatever reason, the detector returns exactly what the z-score detector
    returns on the same input with the caller's sensitivity times 10; the
    promise is fulfilled, not rejected, and the result is not the empty
    default. *)
Theorem detectAnomaliesML_falls_back (Date_now : nat -> num)
    (data : list num) (sensitivity : num) (reads : nat) :
  (5 <= List.length data)%nat ->
  detectAnomaliesML_try Date_now data sensitivity = Thrown reads ->
  detectAnomaliesML Date_now data sensitivity
  = Returned (detectAnomaliesZScore Date_now data (sensitivity * of_Z 10)).
Proof.
  intros Hlen Hthrown.
  unfold detectAnomaliesML.
  destruct (Nat.ltb_spec (List.length data) 5) as [Hshort | _]; [lia |].
  rewrite Hthrown. simpl.
  apply detectAnomaliesML_try_thrown in Hthrown as [_ ->].
  reflexivity.
Qed.

End MLFallback.


Lemma detectAnomaliesML_falls_back_witness :
  detectAnomaliesML (TF := tf_unavailable) epoch orders 0.3%float
  = Returned (detectAnomaliesZScore epoch orders (0.3%float * of_Z 10)%js).
Proof.
  apply (detectAnomaliesML_falls_back (TF := tf_unavailable)
           epoch orders 0.3%float 0).
  - simpl. lia.
  - reflexivity.
Defined.

(** * What depends on the clock *)

Section Clock.
Context {num : Type} {JN : JSNumber num} {JM : JSMath num} {TF : TensorFlow num}.
Local Open Scope js_scope.


Lemma detectAnomaliesZScore_untimed (clock1 clock2 : nat -> num)
    (data : list num) (sensitivity : num) :
  map untimed (detectAnomaliesZScore clock1 data sensitivity)
  = map untimed (detectAnomaliesZScore clock2 data sensitivity).
Proof.
  unfold detectAnomaliesZScore.
  destruct (_ <? 3)%nat; [reflexivity |]. cbv zeta.
  apply (fold_left_related (fun b c => map untimed b = map untimed c));
    [| reflexivity].
  intros b c [index value] _ Hbc.
  destruct (lt _ _); [| exact Hbc].
  rewrite !map_app, Hbc. reflexivity.
Qed.

Lemma detectAnomaliesIQR_untimed (clock1 clock2 : nat -> num)
    (data : list num) (sensitivity : num) :
  map untimed (detectAnomaliesIQR clock1 data sensitivity)
  = map untimed (detectAnomaliesIQR clock2 data sensitivity).
Proof.
  unfold detectAnomaliesIQR.
  destruct (_ <? 4)%nat; [reflexivity |]. cbv zeta.
  apply (fold_left_related (fun b c => map untimed b = map untimed c));
    [| reflexivity].
  intros b c [index value] _ Hbc.
  destruct (_ || _); [| exact Hbc].
  rewrite !map_app, Hbc. reflexivity.
Qed.

Lemma detectAnomaliesML_untimed (clock1 clock2 : nat -> num)
    (data : list num) (sensitivity : num) :
  outcome_map (map untimed) (detectAnomaliesML clock1 data sensitivity)
  = outcome_map (map untimed) (detectAnomaliesML clock2 data sensitivity).
Proof.
  unfold detectAnomaliesML.
  destruct (_ <? 5)%nat; [reflexivity |]. simpl. f_equal.
  unfold detectAnomaliesML_try.
  destruct (tf_standardize data) as [sequence|]; simpl.
  - apply (fold_left_related (fun b c => map untimed b = map untimed c));
      [| reflexivity].
    intros b c i _ Hbc.
    destruct (lt _ _); [| exact Hbc].
    rewrite !map_app, Hbc. reflexivity.
  - unfold detectAnomaliesZScore.
    destruct (_ <? 3)%nat; [reflexivity |]. cbv zeta.
    apply (fold_left_related (fun b c => map untimed b = map untimed c));
      [| reflexivity].
    intros b c [index value] _ Hbc.
    destruct (lt _ _); [| exact Hbc].
    rewrite !map_app, Hbc. reflexivity.
Qed.

Lemma simpleLinearPrediction_undated (clock1 clock2 : nat -> num)
    (data : list num) (steps : Z) :
  map undated (simpleLinearPrediction clock1 data steps)
  = map undated (simpleLinearPrediction clock2 data steps).
Proof.
  unfold simpleLinearPrediction. cbv zeta.
  apply (fold_left_related (fun b c => map undated b = map undated c));
    [| reflexivity].
  intros b c k _ Hbc. rewrite !map_app, Hbc. reflexivity.
Qed.

Lemma predictTrend_rollout_undated (clock1 clock2 : nat -> num)
    (model : list num -> option num) (mean normalizedStd lastActualValue : num)
    (remaining : list nat) :
  forall currentSequence predictions1 predictions2,
    map undated predictions1 = map undated predictions2 ->
    outcome_map (map undated)
      (predictTrend_rollout clock1 model mean normalizedStd lastActualValue
         remaining currentSequence predictions1)
    = outcome_map (map undated)
        (predictTrend_rollout clock2 model mean normalizedStd lastActualValue
           remaining currentSequence predictions2).
Proof.
  induction remaining as [|k rest IH]; intros window ps1 ps2 Hps; simpl.
  - rewrite Hps. reflexivity.
  - destruct (model window) as [p|]; simpl.
    + apply IH. rewrite !map_app, Hps. reflexivity.
    + f_equal. rewrite <- (length_map undated ps1), Hps. apply length_map.
Qed.

Lemma predictTrend_undated (clock1 clock2 : nat -> num)
    (data : list num) (steps : Z) :
  outcome_map (map undated) (predictTrend clock1 data steps)
  = outcome_map (map undated) (predictTrend clock2 data steps).
Proof.
  unfold predictTrend.
  destruct (_ <? 5)%nat; simpl; f_equal.
  - apply simpleLinearPrediction_undated.
  - assert (outcome_map (map undated) (predictTrend_try clock1 data steps)
            = outcome_map (map undated) (predictTrend_try clock2 data steps))
      as Htry.
    { unfold predictTrend_try. cbv zeta.
      destruct (_ <? 3)%nat; simpl.
      - f_equal. apply simpleLinearPrediction_undated.
      - destruct (tf_fit _ _) as [model|]; [| reflexivity].
        apply predictTrend_rollout_undated. reflexivity. }
    destruct (predictTrend_try clock1 data steps) as [r1 | reads1];
      destruct (predictTrend_try clock2 data steps) as [r2 | reads2];
      simpl in Htry |- *; try discriminate.
    + injection Htry as Htry. exact Htry.
    + apply simpleLinearPrediction_undated.
Qed.

(** C7 (amended): two calls with identical input and parameters return
    sequences of the same shape whose fields other than the timestamp are
    identical, whatever the clock reads during either call; this holds for
    the three detectors and the forecaster (for the sliding-window detector
    and the learning path of the forecaster: given the same behaviour of
    the TensorFlow calls, which the code does not seed).  The timestamps
    follow the clock. *)
Theorem results_identical_up_to_clock (clock1 clock2 : nat -> num)
    (data : list num) (sensitivity : num) (steps : Z) :
  map untimed (detectAnomaliesZScore clock1 data sensitivity)
  = map untimed (detectAnomaliesZScore clock2 data sensitivity)
  /\ map untimed (detectAnomaliesIQR clock1 data sensitivity)
     = map untimed (detectAnomaliesIQR clock2 data sensitivity)
  /\ outcome_map (map untimed) (detectAnomaliesML clock1 data sensitivity)
     = outcome_map (map untimed) (detectAnomaliesML clock2 data sensitivity)
  /\ map undated (simpleLinearPrediction clock1 data steps)
     = map undated (simpleLinearPrediction clock2 data steps)
  /\ outcome_map (map undated) (predictTrend clock1 data steps)
     = outcome_map (map undated) (predictTrend clock2 data steps).
Proof.
  repeat split.
  - apply detectAnomaliesZScore_untimed.
  - apply detectAnomaliesIQR_untimed.
  - apply detectAnomaliesML_untimed.
  - apply simpleLinearPrediction_undated.
  - apply predictTrend_undated.
Qed.

End Clock.

(** C7, as stated, fails: the same input and the same sensitivity, given to
    the z-score detector once at the epoch and once a second later, return
    records that differ in their timestamps. *)
Lemma zscore_timestamps_follow_clock :
  detectAnomaliesZScore epoch orders 3%float
  <> detectAnomaliesZScore (fun _ => 1000%float) orders 3%float.
Proof. vm_compute. discriminate. Qed.

(** * Sorting *)

Section SortPermutation.
Context {num : Type} {JN : JSNumber num}.

(** Whatever the comparator answers, sorting rearranges. *)
Lemma insert_permutation (x : num) (l : list num) :
  Permutation (insert_ascending x l) (x :: l).
Proof.
  induction l as [|y l IH]; simpl.
  - apply Permutation_refl.
  - destruct (lt _ _).
    + apply perm_trans with (y :: x :: l).
      * apply perm_skip. exact IH.
      * apply perm_swap.
    + apply Permutation_refl.
Qed.

Lemma sort_permutation (l : list num) : Permutation (sort_ascending l) l.
Proof.
  induction l as [|x l IH]; simpl.
  - apply perm_nil.
  - apply perm_trans with (x :: sort_ascending l).
    + apply insert_permutation.
    + apply perm_skip. exact IH.
Qed.

End SortPermutation.

(** ** On binary64 *)

Section Sort64.

Lemma insert_sorted64 (x : float) (l : list float) :
  number x -> Forall number l ->
  StronglySorted le64 l -> StronglySorted le64 (insert_ascending x l).
Proof.
  intros Hx. induction l as [|y l IH]; intros Hl Hsorted; simpl.
  - constructor; constructor.
  - inversion Hsorted as [|? ? Htail Hhead]; subst.
    inversion Hl as [|? ? Hy Hl']; subst.
    change (PrimFloat.ltb PrimFloat.zero (x - y)%float)
      with (PrimFloat.ltb 0 (x - y)%float).
    rewrite (F64Order.comparator_positive x y Hx Hy).
    destruct (PrimFloat.ltb y x) eqn:Hcmp.
    + constructor; [apply IH; assumption |].
      apply (Permutation_Forall (Permutation_sym (insert_permutation x l))).
      constructor; [apply F64Order.lt_le64; exact Hcmp | exact Hhead].
    + pose proof (F64Order.le64_total x y Hx Hy Hcmp) as Hxy.
      constructor; [exact Hsorted |].
      constructor; [exact Hxy |].
      eapply Forall_impl; [| exact Hhead]. simpl.
      intros z Hz. apply (F64Order.le64_trans x y z Hxy Hz).
Qed.

Lemma sort_sorted64 (data : list float) :
  Forall number data -> StronglySorted le64 (sort_ascending data).
Proof.
  induction data as [|x data IH]; intros Hdata; simpl.
  - constructor.
  - inversion Hdata as [|? ? Hx Hrest]; subst.
    apply insert_sorted64; [exact Hx | | apply IH; exact Hrest].
    apply (Permutation_Forall (Permutation_sym (sort_permutation data))).
    exact Hrest.
Qed.

Lemma sorted64_nth_le (l : list float) :
  StronglySorted le64 l -> Forall number l ->
  forall i j d, (i <= j < List.length l)%nat -> le64 (nth i l d) (nth j l d).
Proof.
  induction 1 as [|x l Htail IH Hhead]; intros Hl i j d [Hij Hj];
    simpl in Hj.
  - lia.
  - inversion Hl as [|? ? Hx Hl']; subst.
    destruct i as [|i], j as [|j]; simpl; try lia.
    + apply F64Order.le64_refl. exact Hx.
    + rewrite Forall_forall in Hhead. apply Hhead, nth_In. lia.
    + apply IH; [exact Hl' | lia].
Qed.

(** The first and the last element of the sorted copy bound every sample. *)
Lemma sorted_bounds64 (data : list float) (x : float) :
  Forall number data -> In x data ->
  le64 (nth 0 (sort_ascending data) PrimFloat.nan) x
  /\ le64 x (nth (List.length (sort_ascending data) - 1)
               (sort_ascending data) PrimFloat.nan).
Proof.
  intros Hdata Hx.
  pose proof (sort_permutation data) as Hperm.
  pose proof (sort_sorted64 data Hdata) as Hsorted.
  pose proof (Permutation_Forall (Permutation_sym Hperm) Hdata) as Hnum.
  apply (Permutation_in _ (Permutation_sym Hperm)) in Hx.
  destruct (In_nth _ _ PrimFloat.nan Hx) as [j [Hj <-]].
  split; apply sorted64_nth_le; try assumption; lia.
Qed.

End Sort64.

(** * Exact arithmetic *)


Module ExactFacts.

Local Open Scope R_scope.

Lemma lt_true (a b : R) : lt a b = true <-> a < b.
Proof.
  simpl. unfold Exact.lt.
  destruct (Rlt_dec a b); split; intros;
    first [reflexivity | discriminate | lra].
Qed.

Lemma lt_false (a b : R) : lt a b = false <-> b <= a.
Proof.
  simpl. unfold Exact.lt.
  destruct (Rlt_dec a b); split; intros;
    first [reflexivity | discriminate | lra].
Qed.

Lemma len_INR {A} (l : list A) : len l = INR (List.length l).
Proof. unfold len. simpl. symmetry. apply INR_IZR_INZ. Qed.

Lemma fold_left_plus (f : R -> R) (l : list R) (a : R) :
  fold_left (fun acc v => acc + f v) l a = a + total (map f l).
Proof.
  revert a. induction l as [|x l IH]; intros a; simpl.
  - lra.
  - rewrite IH. lra.
Qed.

Lemma sum_total (l : list R) : sum l = total l.
Proof.
  unfold sum. simpl.
  rewrite (fold_left_plus (fun v => v)), map_id. lra.
Qed.

Lemma sumSquares_total (mean : R) (l : list R) :
  sumSquares mean l = total (map (fun v => (v - mean) * (v - mean)) l).
Proof.
  unfold sumSquares, Math_pow2. simpl.
  rewrite (fold_left_plus (fun v => (v - mean) * (v - mean))). lra.
Qed.

(** [Math.floor] of a quotient of integers is the integer quotient. *)
Lemma floor_quotient (a b : Z) :
  (0 < b)%Z -> Math_floor (IZR a / IZR b) = (a / b)%Z.
Proof.
  intros Hb. simpl. unfold Exact.floor. symmetry. apply Int_part_spec.
  assert (0 < IZR b) as Hb' by (apply IZR_lt; exact Hb).
  pose proof (Z.div_mod a b ltac:(lia)) as Hdm.
  pose proof (Z.mod_pos_bound a b Hb) as Hmod.
  assert (IZR a = IZR b * IZR (a / b) + IZR (a mod b)) as Ha.
  { rewrite <- mult_IZR, <- plus_IZR. f_equal. exact Hdm. }
  assert (0 <= IZR (a mod b) < IZR b) as Hm.
  { split; [apply IZR_le | apply IZR_lt]; lia. }
  rewrite Ha. split.
  - apply Rmult_lt_reg_r with (IZR b); [exact Hb' |].
    unfold Rdiv. rewrite Rmult_minus_distr_r, Rmult_assoc, Rinv_l by lra. lra.
  - apply Rmult_le_reg_r with (IZR b); [exact Hb' |].
    unfold Rdiv. rewrite Rmult_assoc, Rinv_l by lra. lra.
Qed.

(** *** Sorting *)

Lemma insert_sorted (x : R) (l : list R) :
  StronglySorted Rle l -> StronglySorted Rle (insert_ascending x l).
Proof.
  induction l as [|y l IH]; intros Hsorted; simpl.
  - constructor; constructor.
  - inversion Hsorted as [|? ? Htail Hhead]; subst.
    destruct (Exact.lt 0 (x - y)) eqn:Hcmp.
    + apply (lt_true 0 (x - y)) in Hcmp.
      constructor; [apply IH; exact Htail |].
      apply (Permutation_Forall (Permutation_sym (insert_permutation x l))).
      constructor; [lra | exact Hhead].
    + apply (lt_false 0 (x - y)) in Hcmp.
      constructor; [exact Hsorted |].
      constructor; [lra |].
      eapply Forall_impl; [| exact Hhead]. simpl. intros z Hz. lra.
Qed.

Lemma sort_sorted (l : list R) : StronglySorted Rle (sort_ascending l).
Proof.
  induction l as [|x l IH]; simpl.
  - constructor.
  - apply insert_sorted. exact IH.
Qed.

Lemma sorted_nth_le (l : list R) :
  StronglySorted Rle l ->
  forall i j d, (i <= j < List.length l)%nat -> nth i l d <= nth j l d.
Proof.
  induction 1 as [|x l Htail IH Hhead]; intros i j d [Hij Hj]; simpl in Hj.
  - lia.
  - destruct i as [|i], j as [|j]; simpl; try lra; try lia.
    + rewrite Forall_forall in Hhead. apply Hhead, nth_In. lia.
    + apply IH. lia.
Qed.

End ExactFacts.

(** * Constant data in exact arithmetic *)

Lemma total_repeat (c : R) (n : nat) : total (repeat c n) = (INR n * c)%R.
Proof.
  induction n as [|n IH].
  - simpl. lra.
  - rewrite S_INR. simpl. rewrite IH. lra.
Qed.

(** Without rounding the mean of a constant sequence is its value, every
    deviation is 0, and the z-score detector flags nothing at any positive
    sensitivity. *)
Lemma zscore_constant_exact (Date_now : nat -> R) (c sensitivity : R) (n : nat) :
  (3 <= n)%nat -> (0 < sensitivity)%R ->
  detectAnomaliesZScore Date_now (repeat c n) sensitivity = [].
Proof.
  intros Hn Hpos.
  unfold detectAnomaliesZScore.
  rewrite repeat_length.
  destruct (Nat.ltb_spec n 3) as [Hlt | _]; [lia |].
  cbv zeta.
  rewrite ExactFacts.sum_total, ExactFacts.len_INR, total_repeat, repeat_length.
  assert (INR n <> 0)%R as Hnz by (apply not_0_INR; lia).
  assert (INR n * c / INR n = c)%R as Hmean by (field; exact Hnz).
  simpl div. rewrite Hmean.
  apply fold_left_skips.
  intros [index value] Hin anomalies.
  apply entries_In, repeat_spec in Hin. subst value.
  replace (lt sensitivity _) with false; [reflexivity |].
  symmetry. apply ExactFacts.lt_false. simpl.
  unfold Rminus, Rdiv. rewrite Rplus_opp_r, Rmult_0_l, Rabs_R0. lra.
Qed.

(** * The z-score detector on the sample data, in exact arithmetic *)

Section ZScoreIndices.
Context {num : Type} {JN : JSNumber num}.
Local Open Scope js_scope.

(** The flagged indices are those of the samples that pass the test. *)
Lemma detectAnomaliesZScore_indices (Date_now : nat -> num)
    (data : list num) (sensitivity : num) :
  (3 <= List.length data)%nat ->
  map AnomalyResult.index (detectAnomaliesZScore Date_now data sensitivity)
  = map fst
      (filter
         (fun '(index, value) =>
            let mean := sum data / len data in
            let std := Math_sqrt (sumSquares mean data / len data) in
            Math_abs ((value - mean) / or_else std (of_Z 1)) > sensitivity)
         (entries data)).
Proof.
  intros Hlen. unfold detectAnomaliesZScore.
  destruct (Nat.ltb_spec (List.length data) 3) as [Hshort | _]; [lia |].
  cbv zeta.
  generalize (entries data) as l.
  assert (forall l acc,
            map AnomalyResult.index
              (fold_left
                 (fun anomalies '(index, value) =>
                    if Math_abs
                         ((value - sum data / len data)
                          / or_else
                              (Math_sqrt
                                 (sumSquares (sum data / len data) data
                                  / len data))
                              (of_Z 1)) > sensitivity
                    then
                      anomalies ++
                      [AnomalyResult.mk index value
                         (Date_now (List.length anomalies)
                          - (len data - of_Z (Z.of_nat index)) * of_Z 1000)
                         (Math_abs
                            ((value - sum data / len data)
                             / or_else
                                 (Math_sqrt
                                    (sumSquares (sum data / len data) data
                                     / len data))
                                 (of_Z 1)))
                         "zscore"]
                    else anomalies) l acc)
            = map AnomalyResult.index acc
              ++ map fst
                   (filter
                      (fun '(index, value) =>
                         Math_abs
                           ((value - sum data / len data)
                            / or_else
                                (Math_sqrt
                                   (sumSquares (sum data / len data) data
                                    / len data))
                                (of_Z 1)) > sensitivity) l)) as Hloop.
  { induction l as [|[index value] l IH]; intros acc; simpl.
    - rewrite app_nil_r. reflexivity.
    - rewrite IH. destruct (lt _ _); [| reflexivity].
      rewrite map_app, <- app_assoc. reflexivity. }
  intros l. apply (Hloop l []).
Qed.

End ZScoreIndices.

Section ZScoreExact.

Local Open Scope R_scope.

Lemma square_lt_reg (x y : R) : 0 <= x -> 0 <= y -> x * x < y * y -> x < y.
Proof. intros Hx Hy Hsq. nra. Qed.

Lemma square_le_reg (x y : R) : 0 <= x -> 0 <= y -> x * x <= y * y -> x <= y.
Proof. intros Hx Hy Hsq. nra. Qed.

Lemma filter_pair_cons {A B} (f : A -> B -> bool) (a : A) (b : B)
    (l : list (A * B)) :
  filter (fun '(x, y) => f x y) ((a, b) :: l)
  = if f a b then (a, b) :: filter (fun '(x, y) => f x y) l
    else filter (fun '(x, y) => f x y) l.
Proof. reflexivity. Qed.

(** With a positive variance the test |a| / sqrt V > s is a^2 > s^2 V. *)
Lemma exact_zscore_test (a V s : R) :
  0 < V -> 0 <= s ->
  lt s (Math_abs (a / or_else (Math_sqrt V) (of_Z 1))) = lt (s * s * V) (a * a).
Proof.
  intros HV Hs.
  assert (0 < sqrt V) as Hstd by (apply sqrt_lt_R0; exact HV).
  assert (sqrt V * sqrt V = V) as Hsq by (apply sqrt_sqrt; lra).
  unfold or_else. simpl truthy. unfold Exact.truthy.
  simpl Math_abs. simpl Math_sqrt. simpl div.
  destruct (Req_dec_T (sqrt V) 0) as [Hzero | _]; [lra |].
  unfold Rdiv. rewrite Rabs_mult, (Rabs_pos_eq (/ sqrt V)).
  2:{ left. apply Rinv_0_lt_compat. exact Hstd. }
  assert (0 < / sqrt V) as Hinv by (apply Rinv_0_lt_compat; exact Hstd).
  pose proof (Rinv_l (sqrt V) ltac:(lra)) as Hone.
  pose proof (Rabs_pos a) as Habs.
  assert (Rabs a * Rabs a = a * a) as Hsqa.
  { unfold Rabs. destruct (Rcase_abs a); ring. }
  destruct (Rlt_dec (s * s * V) (a * a)) as [Hflag | Hkeep].
  - rewrite (proj2 (ExactFacts.lt_true _ _) Hflag).
    apply ExactFacts.lt_true.
    assert (s * sqrt V < Rabs a) as Hlt.
    { apply square_lt_reg; [nra | exact Habs |].
      replace (s * sqrt V * (s * sqrt V)) with (s * s * (sqrt V * sqrt V))
        by ring.
      rewrite Hsq, Hsqa. exact Hflag. }
    replace s with (s * sqrt V * / sqrt V) by (rewrite Rmult_assoc, Rinv_r; lra).
    apply Rmult_lt_compat_r; assumption.
  - rewrite (proj2 (ExactFacts.lt_false (s * s * V) (a * a))) by lra.
    apply ExactFacts.lt_false.
    assert (Rabs a <= s * sqrt V) as Hle.
    { apply square_le_reg; [exact Habs | nra |].
      replace (s * sqrt V * (s * sqrt V)) with (s * s * (sqrt V * sqrt V))
        by ring.
      rewrite Hsq, Hsqa. lra. }
    replace s with (s * sqrt V * / sqrt V) by (rewrite Rmult_assoc, Rinv_r; lra).
    apply Rmult_le_compat_r; [lra | exact Hle].
Qed.

Lemma orders_exact_mean : (sum orders_exact / len orders_exact)%js = 32.075.
Proof. unfold sum, len, orders_exact. simpl. lra. Qed.

Lemma orders_exact_variance :
  (sumSquares 32.075 orders_exact / len orders_exact)%js = 549.607875.
Proof. unfold sumSquares, Math_pow2, len, orders_exact. simpl. lra. Qed.

(** Without rounding, too, only the sample at index 16 exceeds a score of
    3: the squared deviation of 95.8 is 4060.875625, of 108.3 it is
    5810.250625, and 9 times the variance is 4946.470875. *)
Lemma zscore_orders_exact (Date_now : nat -> R) :
  map AnomalyResult.index (detectAnomaliesZScore Date_now orders_exact 3)
  = [16%nat].
Proof.
  rewrite detectAnomaliesZScore_indices by (simpl; lia).
  cbv zeta. rewrite orders_exact_mean, orders_exact_variance.
  change (entries orders_exact)
    with (combine (seq 0 20) orders_exact).
  unfold orders_exact. simpl seq. simpl combine.
  repeat (rewrite (filter_pair_cons
                     (fun (_ : nat) (value : R) =>
                        lt 3 (Math_abs
                                ((value - 32.075)
                                 / or_else (Math_sqrt 549.607875) (of_Z 1)))));
          rewrite exact_zscore_test by lra;
          first [ rewrite (proj2 (ExactFacts.lt_true _ _)) by lra
                | rewrite (proj2 (ExactFacts.lt_false _ _)) by lra ]).
  reflexivity.
Qed.

End ZScoreExact.

(** C1 (amended): on the 20 order-processing times with sensitivity 3 the
    z-score detector flags exactly the sample at index 16, with score
    3.2514...; the sample at index 8 scores 2.7182..., which does not exceed
    3, and is flagged (together with index 16 and nothing else) only once the
    sensitivity is lowered to 2.  The clock only enters the timestamps, and
    rounding plays no part: in exact arithmetic, too, index 16 alone is
    flagged. *)
Theorem zscore_orders_flags_16_only (Date_now : nat -> float)
    (clock : nat -> R) :
  detectAnomaliesZScore Date_now orders 3%float
  = [AnomalyResult.mk 16 108.3%float (Date_now 0%nat - 4000)%float
       3.2514041791970856%float "zscore"]
  /\ detectAnomaliesZScore Date_now orders 2%float
     = [AnomalyResult.mk 8 95.8%float (Date_now 0%nat - 12000)%float
          2.7182122836252449%float "zscore";
        AnomalyResult.mk 16 108.3%float (Date_now 1%nat - 4000)%float
          3.2514041791970856%float "zscore"]
  /\ map AnomalyResult.index (detectAnomaliesZScore clock orders_exact 3%R)
     = [16%nat].
Proof.
  split; [vm_compute; reflexivity |].
  split; [vm_compute; reflexivity |].
  apply zscore_orders_exact.
Qed.

(** * The statistics calculator's contract *)

Section StatsContract.

Local Open Scope R_scope.
Import DescriptiveStats.

Lemma sorted_bounds (data : list R) (x : R) :
  data <> [] -> In x data ->
  nth 0 (sort_ascending data) 0 <= x
  /\ x <= nth (List.length (sort_ascending data) - 1) (sort_ascending data) 0.
Proof.
  intros Hne Hx.
  pose proof (sort_permutation data) as Hperm.
  pose proof (ExactFacts.sort_sorted data) as Hsorted.
  apply (Permutation_in _ (Permutation_sym Hperm)) in Hx.
  destruct (In_nth _ _ 0 Hx) as [j [Hj <-]].
  split; apply ExactFacts.sorted_nth_le; try exact Hsorted; lia.
Qed.

Lemma calculateStats_nonempty (data : list R) :
  data <> [] ->
  exists stats sorted,
    calculateStats data = Some stats
    /\ Permutation sorted data /\ StronglySorted Rle sorted
    /\ count stats = List.length data
    /\ mean stats = total data / INR (List.length data)
    /\ median stats = nth (List.length data / 2) sorted 0
    /\ (In (min stats) data /\ forall x, In x data -> min stats <= x)
    /\ (In (max stats) data /\ forall x, In x data -> x <= max stats)
    /\ variance stats
       = total (map (fun x => (x - mean stats) * (x - mean stats)) data)
         / INR (List.length data)
    /\ stdDev stats = sqrt (variance stats).
Proof.
  intros Hne.
  pose proof (sort_permutation data) as Hperm.
  pose proof (Permutation_length Hperm) as Hlen.
  assert (0 < List.length data)%nat as Hpos.
  { destruct data; [congruence | simpl; lia]. }
  unfold calculateStats.
  destruct (Nat.eqb_spec (List.length data) 0) as [Hzero | _]; [lia |].
  cbv zeta. eexists. exists (sort_ascending data).
  split; [reflexivity |].
  cbn [count mean median min max variance stdDev].
  split; [exact Hperm |].
  split; [apply ExactFacts.sort_sorted |].
  split; [reflexivity |].
  split; [rewrite ExactFacts.sum_total, ExactFacts.len_INR; reflexivity |].
  split.
  { unfold at_index, len. simpl undefined. simpl of_Z.
    rewrite ExactFacts.floor_quotient by lia.
    rewrite Hlen, <- (Nat2Z.inj_div _ 2), Nat2Z.id. reflexivity. }
  split.
  { split.
    - apply (Permutation_in _ Hperm). apply nth_In. lia.
    - intros x Hx. apply (sorted_bounds data x Hne Hx). }
  split.
  { split.
    - apply (Permutation_in _ Hperm). apply nth_In. lia.
    - intros x Hx. apply (sorted_bounds data x Hne Hx). }
  split; [| reflexivity].
  rewrite ExactFacts.sumSquares_total, ExactFacts.len_INR. reflexivity.
Qed.

Lemma calculateStats_nonempty64 (samples : list float) :
  samples <> [] -> Forall number samples ->
  exists stats sorted,
    calculateStats samples = Some stats
    /\ Permutation sorted samples /\ StronglySorted le64 sorted
    /\ count stats = List.length samples
    /\ mean stats = (sum samples / len samples)%js
    /\ median stats
       = at_index sorted (Z.to_nat (Math_floor ((len sorted / of_Z 2)%js : float)))
    /\ (In (min stats) samples /\ forall x, In x samples -> le64 (min stats) x)
    /\ (In (max stats) samples /\ forall x, In x samples -> le64 x (max stats))
    /\ variance stats = (sumSquares (mean stats) samples / len samples)%js
    /\ stdDev stats = PrimFloat.sqrt (variance stats).
Proof.
  intros Hne Hnum.
  pose proof (sort_permutation samples) as Hperm.
  pose proof (Permutation_length Hperm) as Hlen.
  assert (0 < List.length samples)%nat as Hpos.
  { destruct samples; [congruence | simpl; lia]. }
  unfold calculateStats.
  destruct (Nat.eqb_spec (List.length samples) 0) as [Hzero | _]; [lia |].
  cbv zeta. eexists. exists (sort_ascending samples).
  split; [reflexivity |].
  cbn [count mean median min max variance stdDev].
  split; [exact Hperm |].
  split; [apply sort_sorted64; exact Hnum |].
  split; [reflexivity |].
  split; [reflexivity |].
  split; [reflexivity |].
  split.
  { split.
    - apply (Permutation_in _ Hperm). apply nth_In. lia.
    - intros x Hx. apply (sorted_bounds64 samples x Hnum Hx). }
  split.
  { split.
    - apply (Permutation_in _ Hperm). apply nth_In. lia.
    - intros x Hx. apply (sorted_bounds64 samples x Hnum Hx). }
  split; reflexivity.
Qed.

End StatsContract.

(** C2: on every non-empty sequence (exact arithmetic) the statistics
    calculator returns a record with count = length, mean = sum / count,
    median = the element at index floor(n/2) of the sorted copy, min and max
    the least and the greatest sample, variance = the sum of squared
    deviations from the mean divided by count, and stdDev = its square root;
    on binary64 a non-empty sequence without NaN gets a record too, with
    the same count, min and max the least and the greatest sample in the
    floating-point order, the median read from the sorted copy, and the mean,
    the population variance and its square root computed in floating point;
    on the empty sequence the result is absent; on 1, 2, 3, 4, 5
    (binary64) the record has mean 3, median 3, min 1, max 5, variance 2 and
    stdDev sqrt 2. *)
Theorem calculateStats_contract (data : list R) (samples : list float) :
  (data <> [] ->
   exists stats sorted,
     calculateStats data = Some stats
     /\ Permutation sorted data /\ StronglySorted Rle sorted
     /\ DescriptiveStats.count stats = List.length data
     /\ DescriptiveStats.mean stats = (total data / INR (List.length data))%R
     /\ DescriptiveStats.median stats = nth (List.length data / 2) sorted 0%R
     /\ (In (DescriptiveStats.min stats) data
         /\ forall x, In x data -> (DescriptiveStats.min stats <= x)%R)
     /\ (In (DescriptiveStats.max stats) data
         /\ forall x, In x data -> (x <= DescriptiveStats.max stats)%R)
     /\ DescriptiveStats.variance stats
        = (total (map (fun x => (x - DescriptiveStats.mean stats)
                                * (x - DescriptiveStats.mean stats)) data)
           / INR (List.length data))%R
     /\ DescriptiveStats.stdDev stats = sqrt (DescriptiveStats.variance stats))
  /\ (samples <> [] -> Forall number samples ->
      exists stats sorted,
        calculateStats samples = Some stats
        /\ Permutation sorted samples /\ StronglySorted le64 sorted
        /\ DescriptiveStats.count stats = List.length samples
        /\ DescriptiveStats.mean stats = (sum samples / len samples)%js
        /\ DescriptiveStats.median stats
           = at_index sorted (Z.to_nat (Math_floor ((len sorted / of_Z 2)%js : float)))
        /\ (In (DescriptiveStats.min stats) samples
            /\ forall x, In x samples -> le64 (DescriptiveStats.min stats) x)
        /\ (In (DescriptiveStats.max stats) samples
            /\ forall x, In x samples -> le64 x (DescriptiveStats.max stats))
        /\ DescriptiveStats.variance stats
           = (sumSquares (DescriptiveStats.mean stats) samples / len samples)%js
        /\ DescriptiveStats.stdDev stats
           = PrimFloat.sqrt (DescriptiveStats.variance stats))
  /\ calculateStats (@nil R) = None
  /\ calculateStats (@nil float) = None
  /\ calculateStats [1; 2; 3; 4; 5]%float
     = Some (DescriptiveStats.mk 3 3 1 5 (PrimFloat.sqrt 2) 2 5)%float.
Proof.
  split; [apply calculateStats_nonempty |].
  split.
  { apply calculateStats_nonempty64. }
  split; [reflexivity |].
  split; [reflexivity |].
  vm_compute. reflexivity.
Qed.

Lemma calculateStats_contract_witness :
  (exists stats,
     calculateStats [4; 1; 3]%R = Some stats
     /\ DescriptiveStats.count stats = 3%nat
     /\ (DescriptiveStats.min stats <= 1)%R
     /\ (4 <= DescriptiveStats.max stats)%R)
  /\ (exists stats,
        calculateStats [4; 1; 3]%float = Some stats
        /\ DescriptiveStats.count stats = 3%nat
        /\ le64 (DescriptiveStats.min stats) 1
        /\ le64 4 (DescriptiveStats.max stats)).
Proof.
  pose proof (calculateStats_contract [4; 1; 3]%R [4; 1; 3]%float)
    as (Hexact & Hfloat & _).
  split.
  - destruct (Hexact ltac:(discriminate))
      as (stats & sorted & Hstats & Hperm & Hsorted & Hcount & Hmean & Hmedian
          & [_ Hmin] & [_ Hmax] & _).
    exists stats.
    split; [exact Hstats |].
    split; [exact Hcount |].
    split; [apply Hmin | apply Hmax]; simpl; auto.
  - assert (Forall number [4; 1; 3]%float) as Hnum.
    { repeat constructor; vm_compute; discriminate. }
    destruct (Hfloat ltac:(discriminate) Hnum)
      as (stats & sorted & Hstats & Hperm & Hsorted & Hcount & Hmean & Hmedian
          & [_ Hmin] & [_ Hmax] & _).
    exists stats.
    split; [exact Hstats |].
    split; [exact Hcount |].
    split; [apply Hmin | apply Hmax]; simpl; auto.
Defined.

(** * The fallback path, point by point *)

Lemma nth_error_combine {A B} (l1 : list A) (l2 : list B) (k : nat) :
  nth_error (combine l1 l2) k
  = match nth_error l1 k, nth_error l2 k with
    | Some a, Some b => Some (a, b)
    | _, _ => None
    end.
Proof.
  revert l2 k. induction l1 as [|a l1 IH]; intros [|b l2] [|k]; simpl;
    try reflexivity.
  - destruct (nth_error l1 k); reflexivity.
  - apply IH.
Qed.

Lemma nth_error_seq (a n k : nat) :
  (k < n)%nat -> nth_error (seq a n) k = Some (a + k)%nat.
Proof.
  revert a k. induction n as [|n IH]; intros a [|k] Hk; simpl; try lia.
  - f_equal. lia.
  - rewrite IH by lia. f_equal. lia.
Qed.

Section FallbackPoints.
Context {num : Type} {JN : JSNumber num} {JM : JSMath num} {TF : TensorFlow num}.
Local Open Scope js_scope.

(** The point at position [k] (from 0) is the one of step [k + 1], stamped
    with the clock's [k]-th reading. *)
Lemma simpleLinearPrediction_nth (Date_now : nat -> num)
    (data : list num) (steps : Z) (k : nat) :
  (k < Z.to_nat steps)%nat ->
  nth_error (simpleLinearPrediction Date_now data steps) k
  = Some
      (let lookback := Z.max 5 (Math_floor (len data * lit 0.3)) in
       let recentData := slice_last (Z.to_nat lookback) data in
       simpleLinearPrediction_point Date_now
         (at_index data (List.length data - 1))
         (calculateSlope recentData)
         (sum recentData / len recentData)
         steps k (S k)).
Proof.
  intros Hk. unfold simpleLinearPrediction. cbv zeta.
  rewrite (fold_left_push_all
             (simpleLinearPrediction_point Date_now _ _ _ steps)).
  rewrite nth_error_map. unfold entries.
  rewrite nth_error_combine, length_seq, !nth_error_seq by lia.
  reflexivity.
Qed.

Lemma slice_last_length {A} (k : nat) (data : list A) :
  (List.length (slice_last k data) <= List.length data)%nat.
Proof. unfold slice_last. rewrite length_skipn. lia. Qed.

(** When the forecaster takes the fallback path, and with which clock. *)
Lemma predictTrend_fallback (Date_now : nat -> num) (data : list num) (steps : Z) :
  ((List.length data <= 5)%nat ->
   predictTrend Date_now data steps
   = Returned (simpleLinearPrediction Date_now data steps))
  /\ (forall reads,
        (5 <= List.length data)%nat ->
        predictTrend_try Date_now data steps = Thrown reads ->
        predictTrend Date_now data steps
        = Returned (simpleLinearPrediction (later Date_now reads) data steps)).
Proof.
  unfold predictTrend. split.
  - intros Hlen.
    destruct (Nat.ltb_spec (List.length data) 5) as [_ | Hfive]; [reflexivity |].
    f_equal. unfold predictTrend_try. cbv zeta.
    match goal with |- context [(?n <? 3)%nat] =>
      destruct (Nat.ltb_spec n 3) as [_ | Hpairs] end; [reflexivity |].
    exfalso. revert Hpairs.
    rewrite length_map, length_seq, length_map.
    match goal with |- context [slice_last ?k data] =>
      generalize (slice_last_length k data);
      generalize (List.length (slice_last k data))
    end.
    intros n Hn Hpairs. lia.
  - intros reads Hlen Hthrown.
    destruct (Nat.ltb_spec (List.length data) 5) as [Hshort | _]; [lia |].
    rewrite Hthrown. reflexivity.
Qed.

End FallbackPoints.

(** * The fallback path in exact arithmetic *)


Section ExactFallback.

Local Open Scope R_scope.

Lemma total_app (l1 l2 : list R) : total (l1 ++ l2) = total l1 + total l2.
Proof.
  induction l1 as [|x l1 IH]; simpl.
  - lra.
  - rewrite IH. lra.
Qed.

Lemma total_positions (n : nat) :
  total (map INR (seq 0 n)) = INR n * (INR n - 1) / 2.
Proof.
  induction n as [|n IH].
  - simpl. lra.
  - rewrite seq_S, map_app, total_app, IH, S_INR. simpl. lra.
Qed.

Lemma total_squared_positions (n : nat) :
  total (map (fun x => INR x * INR x) (seq 0 n))
  = INR n * (INR n - 1) * (2 * INR n - 1) / 6.
Proof.
  induction n as [|n IH].
  - simpl. lra.
  - rewrite seq_S, map_app, total_app, IH, S_INR. simpl. lra.
Qed.

Lemma fold_left_products (l : list (nat * R)) (a : R) :
  fold_left (fun sum '(x, y) => (sum + of_Z (Z.of_nat x) * y)%js) l a
  = a + total (map (fun '(x, y) => INR x * y) l).
Proof.
  revert a. induction l as [|[x y] l IH]; intros a; simpl.
  - lra.
  - rewrite IH, <- INR_IZR_INZ. lra.
Qed.

(** The regression denominator n * Sxx - Sx^2 is n^2 (n^2 - 1) / 12: zero
    below two samples and at least 1 from two samples on. *)
Lemma regression_denominator (n : nat) :
  INR n * (INR n * (INR n - 1) * (2 * INR n - 1) / 6)
  - INR n * (INR n - 1) / 2 * (INR n * (INR n - 1) / 2)
  = INR n * INR n * (INR n * INR n - 1) / 12.
Proof. field. Qed.

Lemma calculateSlope_ols (ys : list R) : calculateSlope ys = ols_slope ys.
Proof.
  unfold calculateSlope, ols_slope. cbv zeta.
  rewrite total_positions, total_squared_positions.
  destruct (Nat.ltb_spec (List.length ys) 2) as [Hshort | Hlong].
  - assert (INR (List.length ys) = 0 \/ INR (List.length ys) = 1) as Hn.
    { destruct (List.length ys) as [|[|n]]; [left | right | lia]; reflexivity. }
    rewrite regression_denominator.
    destruct (Rlt_dec _ _) as [_ | Hbig]; [reflexivity |].
    exfalso. apply Hbig.
    destruct Hn as [-> | ->];
      match goal with |- Rabs ?d < _ => replace d with 0 by field end;
      rewrite Rabs_R0; lra.
  - rewrite ExactFacts.len_INR, ExactFacts.sum_total.
    unfold entries. rewrite fold_left_products.
    simpl lit. simpl of_Z. simpl Math_abs. simpl sub. simpl mul. simpl div.
    simpl lt. unfold Exact.lt, Exact.lit. simpl Qnum. simpl Qden.
    replace (IZR 1 / IZR 10000) with 0.0001 by lra.
    replace (0 + total (map (fun '(x, y) => INR x * y)
                          (combine (seq 0 (List.length ys)) ys)))
      with (total (map (fun '(x, y) => INR x * y)
                     (combine (seq 0 (List.length ys)) ys))) by lra.
    destruct (Rlt_dec _ _); reflexivity.
Qed.

(** *** The closed form is the least-squares slope *)

Lemma total_snd_combine (ys : list R) (a : nat) :
  total (map snd (combine (seq a (List.length ys)) ys)) = total ys.
Proof.
  revert a. induction ys as [|y ys IH]; intros a; simpl.
  - reflexivity.
  - rewrite IH. reflexivity.
Qed.

Lemma total_fst_combine (ys : list R) (a : nat) :
  total (map (fun p : nat * R => INR (fst p))
           (combine (seq a (List.length ys)) ys))
  = total (map INR (seq a (List.length ys))).
Proof.
  revert a. induction ys as [|y ys IH]; intros a; simpl.
  - reflexivity.
  - rewrite IH. reflexivity.
Qed.

Lemma total_centered_products (l : list (nat * R)) (a b : R) :
  total (map (fun '(x, y) => (INR x - a) * (y - b)) l)
  = total (map (fun '(x, y) => INR x * y) l)
    - a * total (map snd l)
    - b * total (map (fun p : nat * R => INR (fst p)) l)
    + INR (List.length l) * a * b.
Proof.
  induction l as [|[x y] l IH].
  - simpl. lra.
  - change (List.length ((x, y) :: l)) with (S (List.length l)).
    rewrite S_INR. simpl. rewrite IH. ring.
Qed.

Lemma total_centered_squares (xs : list nat) (a : R) :
  total (map (fun x => (INR x - a) * (INR x - a)) xs)
  = total (map (fun x => INR x * INR x) xs)
    - 2 * a * total (map INR xs)
    + INR (List.length xs) * a * a.
Proof.
  induction xs as [|x xs IH].
  - simpl. lra.
  - change (List.length (x :: xs)) with (S (List.length xs)).
    rewrite S_INR. simpl. rewrite IH. ring.
Qed.

(** From two samples on the denominator is at least 1, so the guard of
    [calculateSlope] never fires, and its closed form is the textbook
    least-squares slope. *)
Lemma ols_slope_least_squares (ys : list R) :
  (2 <= List.length ys)%nat -> ols_slope ys = least_squares_slope ys.
Proof.
  intros Hlen. unfold ols_slope, least_squares_slope. cbv zeta.
  rewrite total_centered_products, total_centered_squares.
  rewrite total_snd_combine, total_fst_combine.
  rewrite length_combine, !length_seq, Nat.min_id.
  rewrite total_positions, total_squared_positions, regression_denominator.
  set (n := INR (List.length ys)).
  assert (2 <= n) as Hn.
  { unfold n. change 2 with (INR 2). apply le_INR. exact Hlen. }
  set (Sy := total ys).
  set (Sxy := total (map (fun '(x, y) => INR x * y)
                       (combine (seq 0 (List.length ys)) ys))).
  assert (4 <= n * n) as Hsquare by nra.
  assert (12 <= n * n * (n * n - 1)) as Hden by nra.
  destruct (Rlt_dec _ _) as [Hsmall | _].
  - exfalso. rewrite Rabs_pos_eq in Hsmall by lra. lra.
  - field. repeat split; [lra | | lra].
    match goal with |- ?e <> 0 =>
      replace e with (4 * (n * (n * n - 1))) by ring
    end.
    apply Rgt_not_eq. nra.
Qed.

Lemma recentData_window (data : list R) :
  slice_last (Z.to_nat (Z.max 5 (Math_floor (len data * lit 0.3)%js))) data
  = recent_window data.
Proof.
  unfold slice_last, recent_window. do 2 f_equal.
  rewrite ExactFacts.len_INR.
  simpl mul. simpl lit. unfold Exact.lit. simpl Qnum. simpl Qden.
  replace (INR (List.length data) * (IZR 3 / IZR 10))
    with (IZR (3 * Z.of_nat (List.length data)) / IZR 10).
  2:{ rewrite mult_IZR, <- INR_IZR_INZ. lra. }
  rewrite ExactFacts.floor_quotient by lia.
  rewrite Z2Nat.inj_max. f_equal.
  rewrite <- (Nat2Z.id (3 * List.length data / 10)). f_equal.
  rewrite Nat2Z.inj_div. f_equal. lia.
Qed.

Lemma recent_window_nonempty (data : list R) :
  data <> [] -> (0 < List.length (recent_window data))%nat.
Proof.
  intros Hne. unfold recent_window. rewrite length_skipn.
  assert (0 < List.length data)%nat.
  { destruct data; [congruence | simpl; lia]. }
  lia.
Qed.

Lemma at_index_last (data : list R) :
  at_index data (List.length data - 1) = last data 0.
Proof.
  unfold at_index. simpl undefined.
  induction data as [|x data IH]; [reflexivity |].
  destruct data as [|y data]; [reflexivity |].
  change (last (x :: y :: data) 0) with (last (y :: data) 0).
  rewrite <- IH.
  replace (List.length (x :: y :: data) - 1)%nat
    with (S (List.length (y :: data) - 1)) by (simpl; lia).
  reflexivity.
Qed.

(** The fields of the point pushed at step [k]. *)
Lemma simpleLinearPrediction_point_fields (Date_now : nat -> R)
    (lastValue slope mean : R) (steps : Z) (reads k : nat) :
  let p := simpleLinearPrediction_point Date_now lastValue slope mean steps
             reads k in
  TrendPrediction.timestamp p = Date_now reads + INR k * 60000
  /\ TrendPrediction.value p
     = (lastValue + slope * INR k) * exp (- 0.12 * INR k)
       + mean * (1 - exp (- 0.12 * INR k))
  /\ TrendPrediction.confidence p
     = Rmax 0.3 (1 - 0.6 * (INR k / IZR steps)).
Proof.
  unfold simpleLinearPrediction_point. cbv zeta.
  cbn [TrendPrediction.timestamp TrendPrediction.value
       TrendPrediction.confidence].
  simpl. unfold Exact.lit. simpl Qnum. simpl Qden.
  rewrite <- INR_IZR_INZ.
  replace (- INR k * (IZR 12 / IZR 100)) with (- 0.12 * INR k) by lra.
  repeat split; try reflexivity.
  f_equal; lra.
Qed.

(** A blend of two values with a weight strictly between 0 and 1 lies
    between them. *)
Lemma blend_between (t m d : R) :
  0 < d < 1 -> Rmin t m <= t * d + m * (1 - d) <= Rmax t m.
Proof.
  intros [Hd0 Hd1].
  unfold Rmin, Rmax. destruct (Rle_dec t m); split; nra.
Qed.

Lemma dampening_range (k : nat) : 0 < exp (- 0.12 * INR (S k)) < 1.
Proof.
  split; [apply exp_pos |].
  rewrite <- exp_0. apply exp_increasing.
  pose proof (pos_INR k). rewrite S_INR. lra.
Qed.

(** The same expression in exact arithmetic: for a non-empty input and
    every step i in 1..N the value is (lastValue + slope * i) * exp(-0.12 i)
    + recentMean * (1 - exp(-0.12 i)) over the reals, a blend with a weight
    strictly between 0 and 1, and so lies between the raw trend value and
    the mean of the window; from two samples on the closed-form slope is the
    textbook least-squares slope.  The program evaluates the expression in
    binary64, where the last step does not carry over. *)
Lemma fallback_value_exact (Date_now : nat -> R) (data : list R)
    (steps : Z) (k : nat) :
  data <> [] ->
  (k < Z.to_nat steps)%nat ->
  exists p,
    nth_error (simpleLinearPrediction Date_now data steps) k = Some p
    /\ let i := INR (S k) in
       let recent := recent_window data in
       let slope := ols_slope recent in
       let recentMean := total recent / INR (List.length recent) in
       let lastValue := last data 0 in
       let trendValue := lastValue + slope * i in
       TrendPrediction.value p
       = trendValue * exp (- 0.12 * i) + recentMean * (1 - exp (- 0.12 * i))
       /\ Rmin trendValue recentMean <= TrendPrediction.value p
          <= Rmax trendValue recentMean
       /\ ((2 <= List.length recent)%nat ->
           slope = least_squares_slope recent).
Proof.
  intros Hne Hk.
  rewrite (simpleLinearPrediction_nth Date_now data steps k Hk).
  eexists. split; [reflexivity |]. cbv zeta.
  rewrite recentData_window, calculateSlope_ols, at_index_last.
  rewrite ExactFacts.sum_total, ExactFacts.len_INR.
  match goal with |- context [simpleLinearPrediction_point ?c ?l ?s ?m ?n ?r ?j] =>
    destruct (simpleLinearPrediction_point_fields c l s m n r j)
      as (_ & Hvalue & _)
  end.
  rewrite Hvalue. split; [reflexivity |].
  split; [apply blend_between, dampening_range |].
  apply ols_slope_least_squares.
Qed.

End ExactFallback.

(** * The fallback path on binary64 *)

Lemma nth_last {A} (l : list A) (d : A) :
  nth (List.length l - 1) l d = last l d.
Proof.
  induction l as [|x l IH]; [reflexivity |].
  destruct l as [|y l]; [reflexivity |].
  change (last (x :: y :: l) d) with (last (y :: l) d).
  rewrite <- IH.
  replace (List.length (x :: y :: l) - 1)%nat
    with (S (List.length (y :: l) - 1)) by (simpl; lia).
  reflexivity.
Qed.

Section Fallback64.
Context {JM : JSMath float} {TF : TensorFlow float}.
Local Open Scope js_scope.

(** Up to 1000 samples, the most that the panel keeps, the product
    [data.length * 0.3] floors to the integer quotient of 3 n by 10. *)
Lemma lookback64 (n : nat) :
  (n <= 1000)%nat ->
  Z.to_nat (Z.max 5 (Math_floor (((of_Z (Z.of_nat n) : float) * lit 0.3)%js)))
  = Nat.max 5 (3 * n / 10).
Proof.
  intros Hn.
  assert (forallb
            (fun n =>
               Nat.eqb
                 (Z.to_nat
                    (Z.max 5
                       (Math_floor (((of_Z (Z.of_nat n) : float) * lit 0.3)%js))))
                 (Nat.max 5 (3 * n / 10)))
            (seq 0 1001) = true) as Hall by (vm_compute; reflexivity).
  rewrite forallb_forall in Hall.
  apply Nat.eqb_eq, Hall, in_seq. lia.
Qed.

Lemma recentData_window64 (data : list float) :
  (List.length data <= 1000)%nat ->
  slice_last
    (Z.to_nat (Z.max 5 (Math_floor ((len data * lit 0.3)%js : float)))) data
  = recent_window data.
Proof.
  intros Hn. unfold slice_last, recent_window, len.
  rewrite (lookback64 _ Hn). reflexivity.
Qed.

(** From 2 to 300 samples the sums of the positions and the regression
    denominator are computed without rounding: they are the integers
    m (m - 1) / 2 and m^2 (m^2 - 1) / 12, and the denominator is not
    negligible. *)
Lemma regression_sums64 (m : nat) :
  (2 <= m <= 300)%nat ->
  let n : float := of_Z (Z.of_nat m) in
  let z := Z.of_nat m in
  (n * (n - of_Z 1)) / of_Z 2 = of_Z (z * (z - 1) / 2)
  /\ n * ((n * (n - of_Z 1) * (of_Z 2 * n - of_Z 1)) / of_Z 6)
     - of_Z (z * (z - 1) / 2) * of_Z (z * (z - 1) / 2)
     = of_Z (z * z * (z * z - 1) / 12)
  /\ (Math_abs (of_Z (z * z * (z * z - 1) / 12) : float) < lit 0.0001) = false.
Proof.
  intros Hm. cbv zeta.
  assert (In m (seq 2 299)) as Hin by (apply in_seq; lia).
  split; [| split].
  - clear Hm. revert m Hin. apply map_ext_in_iff. vm_compute. reflexivity.
  - clear Hm. revert m Hin. apply map_ext_in_iff. vm_compute. reflexivity.
  - assert (forallb
              (fun m =>
                 let z := Z.of_nat m in
                 negb (Math_abs (of_Z (z * z * (z * z - 1) / 12) : float)
                       < lit 0.0001))
              (seq 2 299) = true) as Hall by (vm_compute; reflexivity).
    rewrite forallb_forall in Hall.
    apply negb_true_iff, (Hall m Hin).
Qed.

Lemma calculateSlope64 (ys : list float) :
  ((List.length ys < 2)%nat -> calculateSlope ys = 0%float)
  /\ ((2 <= List.length ys <= 300)%nat ->
      let m := Z.of_nat (List.length ys) in
      let sumXY :=
        fold_left (fun sum '(x, y) => sum + of_Z (Z.of_nat x) * y)
          (entries ys) (of_Z 0) in
      calculateSlope ys
      = (of_Z m * sumXY - of_Z (m * (m - 1) / 2) * sum ys)
        / of_Z (m * m * (m * m - 1) / 12)).
Proof.
  unfold calculateSlope. split.
  - intros Hshort.
    destruct (Nat.ltb_spec (List.length ys) 2) as [_ | Hlong]; [| lia].
    reflexivity.
  - intros Hm. cbv zeta.
    destruct (Nat.ltb_spec (List.length ys) 2) as [Hshort | _]; [lia |].
    unfold len.
    destruct (regression_sums64 (List.length ys) Hm) as (HsumX & Hden & Hguard).
    cbv zeta in HsumX, Hden, Hguard.
    rewrite HsumX, Hden, Hguard. reflexivity.
Qed.

(** C4 (amended): on the fallback path (taken on inputs of at most 5
    samples and whenever the learning path throws), for a non-empty input of
    up to 1000 samples, the most that the panel keeps, and every step i in
    1..N, the forecast value is the binary64 value of
    (lastValue + slope * i) * d + recentMean * (1 - d) with
    d = Math.exp(-i * 0.12), where lastValue is the last sample of the whole
    input, the window is its most recent max(5, floor(0.3 n)) samples, 1 to
    300 of them, recentMean is the window's sum over its length, and slope
    is 0 on a window of one sample and otherwise the closed-form quotient
    (m * Sxy - Sx * Sy) / (m * Sxx - Sx^2) over the m samples of the window,
    whose sum of positions Sx = m (m - 1) / 2 and denominator
    m^2 (m^2 - 1) / 12 are computed without rounding; from two samples on
    the denominator is at least 1, so the guard against a negligible
    denominator never fires.  Nothing is said about where the value lies
    relative to the trend value and the mean. *)
Theorem fallback_forecast_value (Date_now : nat -> float)
    (data : list float) (steps : Z) (k : nat) :
  data <> [] ->
  (List.length data <= 1000)%nat ->
  (k < Z.to_nat steps)%nat ->
  let i : float := of_Z (Z.of_nat (S k)) in
  let recent := recent_window data in
  let m := Z.of_nat (List.length recent) in
  let sumXY :=
    fold_left (fun sum '(x, y) => sum + of_Z (Z.of_nat x) * y)
      (entries recent) (of_Z 0) in
  let slope := calculateSlope recent in
  let recentMean := sum recent / len recent in
  let lastValue := last data PrimFloat.nan in
  let dampening := Math_exp (- i * lit 0.12) in
  (exists p,
     nth_error (simpleLinearPrediction Date_now data steps) k = Some p
     /\ TrendPrediction.value p
        = (lastValue + slope * i) * dampening
          + recentMean * (of_Z 1 - dampening))
  /\ (1 <= List.length recent <= 300)%nat
  /\ ((List.length recent < 2)%nat -> slope = 0%float)
  /\ ((2 <= List.length recent)%nat ->
      slope
      = (of_Z m * sumXY - of_Z (m * (m - 1) / 2) * sum recent)
        / of_Z (m * m * (m * m - 1) / 12))
  /\ ((List.length data <= 5)%nat ->
      predictTrend Date_now data steps
      = Returned (simpleLinearPrediction Date_now data steps))
  /\ (forall reads,
        (5 <= List.length data)%nat ->
        predictTrend_try Date_now data steps = Thrown reads ->
        predictTrend Date_now data steps
        = Returned (simpleLinearPrediction (later Date_now reads) data steps)).
Proof.
  intros Hne Hcap Hk. cbv zeta.
  assert (1 <= List.length (recent_window data) <= 300)%nat as Hwindow.
  { unfold recent_window. rewrite length_skipn.
    assert (0 < List.length data)%nat.
    { destruct data; [congruence | simpl; lia]. }
    assert (3 * List.length data / 10 <= 300)%nat.
    { apply Nat.Div0.div_le_upper_bound. lia. }
    lia. }
  split.
  { rewrite (simpleLinearPrediction_nth Date_now data steps k Hk).
    eexists. split; [reflexivity |]. cbv zeta.
    rewrite (recentData_window64 data Hcap).
    unfold simpleLinearPrediction_point, at_index.
    cbn [TrendPrediction.value].
    rewrite (nth_last data). reflexivity. }
  split; [exact Hwindow |].
  split; [apply calculateSlope64 |].
  split.
  { intros Htwo.
    apply (proj2 (calculateSlope64 (recent_window data))). lia. }
  split; apply predictTrend_fallback.
Qed.

End Fallback64.

Lemma fallback_forecast_value_witness :
  exists p,
    nth_error
      (simpleLinearPrediction (JM := exp_first_step) epoch orders 3) 2
    = Some p.
Proof.
  destruct (fallback_forecast_value (JM := exp_first_step)
              (TF := tf_unavailable) epoch orders 3 2
              ltac:(discriminate) ltac:(simpl; lia) ltac:(simpl; lia))
    as [(p & Hp & _) _].
  exists p. exact Hp.
Defined.

(** C4, as stated, fails in its last part.  On the two samples 23.3, 23.3
    the slope is 0, so the raw trend value of step 1 is 23.3, and so is the
    mean of the window; the blend 23.3 * d + 23.3 * (1 - d) with
    d = Math.exp(-0.12) rounds to 23.299999999999997, which lies below
    both. *)
Lemma fallback_value_below_trend_and_mean :
  predictTrend (JM := exp_first_step) (TF := tf_unavailable) epoch steady 1
  = Returned [TrendPrediction.mk 60000 23.299999999999997 0.4]%float
  /\ (last steady PrimFloat.nan
      + calculateSlope (recent_window steady) * of_Z 1)%js
     = 23.3%float
  /\ (sum (recent_window steady) / len (recent_window steady))%js
     = 23.3%float
  /\ PrimFloat.ltb 23.299999999999997 23.3 = true.
Proof. repeat split; vm_compute; reflexivity. Qed.

(** * Confidence along the forecast *)

Lemma map_combine_seq {A B} (h : nat * A -> B) (g : A -> B) (l : list A) :
  (forall k x, h (k, x) = g x) ->
  forall a, map h (combine (seq a (List.length l)) l) = map g l.
Proof.
  intros Hh. induction l as [|x l IH]; intros a; simpl; [reflexivity |].
  rewrite Hh, IH. reflexivity.
Qed.

Section Confidences.
Context {num : Type} {JN : JSNumber num} {JM : JSMath num}.
Local Open Scope js_scope.

(** The confidences of the fallback path depend on the step and the step
    count only. *)
Lemma simpleLinearPrediction_confidences (Date_now : nat -> num)
    (data : list num) (steps : Z) :
  map TrendPrediction.confidence (simpleLinearPrediction Date_now data steps)
  = map (fun k => Math_max (lit 0.3)
                    (of_Z 1 - (of_Z (Z.of_nat k) / of_Z steps) * lit 0.6))
      (seq 1 (Z.to_nat steps)).
Proof.
  unfold simpleLinearPrediction. cbv zeta.
  rewrite (fold_left_push_all
             (simpleLinearPrediction_point Date_now _ _ _ steps)).
  rewrite map_map. unfold entries.
  apply map_combine_seq. intros k x. reflexivity.
Qed.

End Confidences.


(** On binary64 the confidences of the fallback path are strictly decreasing
    for every step count that the panel's slider offers. *)
Lemma fallback_confidence_decreasing_binary64 (M : JSMath float)
    (Date_now : nat -> float) (data : list float) (steps : Z) :
  (1 <= steps <= 20)%Z ->
  strictly_decreasing
    (map TrendPrediction.confidence
       (simpleLinearPrediction Date_now data steps)) = true.
Proof.
  intros Hsteps. rewrite simpleLinearPrediction_confidences.
  assert (In steps (map Z.of_nat (seq 1 20))) as Hin.
  { apply in_map_iff. exists (Z.to_nat steps). split; [lia |].
    apply in_seq. lia. }
  simpl in Hin.
  repeat (destruct Hin as [<- | Hin]; [vm_compute; reflexivity |]).
  contradiction.
Qed.

Section ExactConfidence.

Local Open Scope R_scope.

Lemma fallback_confidence_above_floor (steps : Z) (k : nat) :
  (k <= Z.to_nat steps)%nat -> (1 <= steps)%Z ->
  Rmax 0.3 (1 - 0.6 * (INR k / IZR steps)) = 1 - 0.6 * (INR k / IZR steps)
  /\ INR k / IZR steps <= 1.
Proof.
  intros Hk Hsteps.
  assert (1 <= IZR steps) as Hn by (apply IZR_le; exact Hsteps).
  assert (INR k <= IZR steps) as Hle.
  { rewrite <- (Z2Nat.id steps) by lia. rewrite <- INR_IZR_INZ.
    apply le_INR. exact Hk. }
  assert (0 < / IZR steps) as Hinv by (apply Rinv_0_lt_compat; lra).
  pose proof (Rinv_r (IZR steps) ltac:(lra)) as Hone.
  assert (INR k / IZR steps <= 1) as Hq by (unfold Rdiv; nra).
  split; [| exact Hq].
  apply Rmax_right. lra.
Qed.

(** C3 (amended): for every input and every step count N >= 1 the forecaster
    returns exactly N points, whatever the TensorFlow calls do.  On the
    fallback path (taken on inputs of at most 5 samples and whenever the
    learning path throws) the point at position k is the one of step k + 1,
    its confidence is max(0.3, 1 - 0.6 * ((k + 1) / N)), and the confidence
    of the next point is strictly smaller (exact arithmetic; on binary64
    the confidences are strictly decreasing for every N up to 20, the range
    of the panel's slider).  On the learning path the confidences need not
    be non-increasing: there is a run of two steps whose confidence rises
    from the first step to the second. *)
Theorem forecast_points_and_fallback_confidence
    {num : Type} {JN : JSNumber num} {JM : JSMath num} {TF : TensorFlow num}
    (Date_now : nat -> num) (data : list num)
    (clock : nat -> R) (samples : list R)
    (M64 : JSMath float) (clock64 : nat -> float) (samples64 : list float)
    (steps : Z) :
  (1 <= steps)%Z ->
  (exists predictions,
     predictTrend Date_now data steps = Returned predictions
     /\ List.length predictions = Z.to_nat steps)
  /\ ((List.length data <= 5)%nat ->
      predictTrend Date_now data steps
      = Returned (simpleLinearPrediction Date_now data steps))
  /\ (forall reads,
        (5 <= List.length data)%nat ->
        predictTrend_try Date_now data steps = Thrown reads ->
        predictTrend Date_now data steps
        = Returned (simpleLinearPrediction (later Date_now reads) data steps))
  /\ List.length (simpleLinearPrediction clock samples steps) = Z.to_nat steps
  /\ (forall k p,
        nth_error (simpleLinearPrediction clock samples steps) k = Some p ->
        TrendPrediction.timestamp p = clock k + INR (S k) * 60000
        /\ TrendPrediction.confidence p
           = Rmax 0.3 (1 - 0.6 * (INR (S k) / IZR steps))
        /\ forall q,
             nth_error (simpleLinearPrediction clock samples steps) (S k)
             = Some q ->
             TrendPrediction.confidence q < TrendPrediction.confidence p)
  /\ ((steps <= 20)%Z ->
      strictly_decreasing
        (map TrendPrediction.confidence
           (simpleLinearPrediction clock64 samples64 steps)) = true)
  /\ (exists predictions,
        predictTrend (JM := pow_upto_1) (TF := period_model) epoch periodic 2
        = Returned predictions
        /\ non_increasing (map TrendPrediction.confidence predictions)
           = false).
Proof.
  intros Hsteps.
  split; [apply predictTrend_returns |].
  split; [apply predictTrend_fallback |].
  split; [apply predictTrend_fallback |].
  split; [apply simpleLinearPrediction_length |].
  split.
  2:{ split.
      - intros Hcap. apply fallback_confidence_decreasing_binary64. lia.
      - eexists. split; vm_compute; reflexivity. }
  intros k p Hp.
  assert (k < Z.to_nat steps)%nat as Hk.
  { rewrite <- (simpleLinearPrediction_length clock samples steps).
    apply nth_error_Some. congruence. }
  rewrite (simpleLinearPrediction_nth clock samples steps k Hk) in Hp.
  injection Hp as <-. cbv zeta.
  match goal with |- context [simpleLinearPrediction_point ?c ?l ?s ?m ?n ?r ?j] =>
    destruct (simpleLinearPrediction_point_fields c l s m n r j)
      as (Htime & _ & Hconf)
  end.
  split; [exact Htime |]. split; [exact Hconf |].
  intros q Hq.
  assert (S k < Z.to_nat steps)%nat as Hk'.
  { rewrite <- (simpleLinearPrediction_length clock samples steps).
    apply nth_error_Some. congruence. }
  rewrite (simpleLinearPrediction_nth clock samples steps (S k) Hk') in Hq.
  injection Hq as <-. cbv zeta.
  match goal with |- context [simpleLinearPrediction_point ?c ?l ?s ?m ?n ?r (S (S k))] =>
    destruct (simpleLinearPrediction_point_fields c l s m n r (S (S k)))
      as (_ & _ & Hconf')
  end.
  rewrite Hconf, Hconf'.
  destruct (fallback_confidence_above_floor steps (S k) ltac:(lia) Hsteps)
    as [-> _].
  destruct (fallback_confidence_above_floor steps (S (S k)) ltac:(lia) Hsteps)
    as [-> _].
  assert (0 < / IZR steps) as Hinv.
  { apply Rinv_0_lt_compat. apply IZR_lt. lia. }
  rewrite (S_INR (S k)). unfold Rdiv. nra.
Qed.

End ExactConfidence.

Lemma forecast_points_and_fallback_confidence_witness :
  (exists predictions,
     predictTrend (TF := tf_unavailable)
       (JM := any_math)
       epoch orders 3 = Returned predictions
     /\ List.length predictions = 3%nat)
  /\ List.length (simpleLinearPrediction (fun _ => 0%R) [1; 2; 3]%R 3) = 3%nat.
Proof.
  destruct (forecast_points_and_fallback_confidence
              (TF := tf_unavailable)
              (JM := any_math)
              epoch orders (fun _ => 0%R) [1; 2; 3]%R
              any_math
              epoch orders 3 ltac:(lia))
    as (Hreturns & _ & _ & Hlength & _).
  split; [exact Hreturns | exact Hlength].
Defined.

(** C3, as stated, fails on the learning path.  The nine samples repeat
    100, 1, 1; a model that has learnt the period predicts the oldest value
    of its window, so the first forecast is 100, far from the last sample 1
    (penalty 0, confidence 0.4), and the second is 1 (penalty 1, confidence
    0.92): the confidence rises from step 1 to step 2. *)
Lemma learning_path_confidence_rises :
  predictTrend (JM := pow_upto_1) (TF := period_model) epoch periodic 2
  = Returned [TrendPrediction.mk 60000 100 0.4;
              TrendPrediction.mk 120000 1 0.92]%float
  /\ (exists predictions,
        predictTrend (JM := pow_upto_1) (TF := period_model) epoch periodic 2
        = Returned predictions
        /\ non_increasing (map TrendPrediction.confidence predictions)
           = false).
Proof.
  split; [vm_compute; reflexivity |].
  eexists. split; vm_compute; reflexivity.
Qed.

(** * What the detectors report *)

Section PushLoops.
Context {A B : Type}.

Lemma fold_left_pointwise (f g : B -> A -> B) (l : list A) :
  (forall b x, f b x = g b x) ->
  forall b, fold_left f l b = fold_left g l b.
Proof.
  intros Hfg. induction l as [|x l IH]; intros b; simpl.
  - reflexivity.
  - rewrite Hfg. apply IH.
Qed.

(** A loop that pushes for the elements that pass a test builds one record
    per such element, in their order; [k] counts the pushes before it. *)
Lemma fold_left_push_if (test : A -> bool) (g : nat -> A -> B)
    (l : list A) (acc : list B) :
  fold_left
    (fun acc x => if test x then acc ++ [g (List.length acc) x] else acc) l acc
  = acc ++ map (fun '(k, x) => g k x)
             (combine (seq (List.length acc) (List.length (filter test l)))
                (filter test l)).
Proof.
  revert acc. induction l as [|x l IH]; intros acc; simpl.
  - rewrite app_nil_r. reflexivity.
  - destruct (test x); simpl.
    + rewrite IH, <- app_assoc, length_app. simpl.
      rewrite Nat.add_1_r. reflexivity.
    + apply IH.
Qed.

Lemma fold_left_push_passing (test : A -> bool) (g : nat -> A -> B)
    (l : list A) :
  fold_left
    (fun acc x => if test x then acc ++ [g (List.length acc) x] else acc) l []
  = map (fun '(k, x) => g k x) (entries (filter test l)).
Proof. rewrite fold_left_push_if. reflexivity. Qed.

Lemma Forall_pushed (P : B -> Prop) (g : nat -> A -> B) (l : list A) :
  (forall k x, In x l -> P (g k x)) ->
  Forall P (map (fun '(k, x) => g k x) (entries l)).
Proof.
  intros HP. apply Forall_forall. intros b Hb.
  apply in_map_iff in Hb. destruct Hb as [[k x] [<- Hin]].
  apply HP. apply (entries_In _ _ _ Hin).
Qed.

Lemma nth_error_pushed (g : nat -> A -> B) (l : list A) (k : nat) :
  nth_error (map (fun '(k, x) => g k x) (entries l)) k
  = option_map (g k) (nth_error l k).
Proof.
  rewrite nth_error_map. unfold entries. rewrite nth_error_combine.
  destruct (nth_error l k) as [x|] eqn:Hx.
  - rewrite nth_error_seq.
    + reflexivity.
    + apply nth_error_Some. congruence.
  - destruct (nth_error (seq 0 (List.length l)) k); reflexivity.
Qed.

End PushLoops.

Section Entries.
Context {A : Type}.

Lemma combine_seq_In (l : list A) (a i : nat) (v : A) :
  In (i, v) (combine (seq a (List.length l)) l)
  <-> (a <= i)%nat /\ nth_error l (i - a) = Some v.
Proof.
  revert a. induction l as [|x l IH]; intros a; simpl.
  - split; [contradiction |]. intros [_ H]. destruct (i - a)%nat; discriminate.
  - rewrite IH. split.
    + intros [[= <- <-] | [Hle Hnth]].
      * split; [lia |]. rewrite Nat.sub_diag. reflexivity.
      * split; [lia |]. replace (i - a)%nat with (S (i - S a)) by lia.
        exact Hnth.
    + intros [Hle Hnth].
      destruct (Nat.eq_dec i a) as [-> | Hneq].
      * left. rewrite Nat.sub_diag in Hnth. simpl in Hnth. congruence.
      * right. split; [lia |].
        replace (i - a)%nat with (S (i - S a)) in Hnth by lia. exact Hnth.
Qed.

Lemma entries_nth_error (l : list A) (i : nat) (v : A) :
  In (i, v) (entries l) <-> nth_error l i = Some v.
Proof.
  unfold entries. rewrite combine_seq_In, Nat.sub_0_r.
  split; [intros [_ H]; exact H | intros H; split; [lia | exact H]].
Qed.

(** The indices that a filter keeps are in increasing order. *)
Lemma combine_seq_filter_sorted (f : nat * A -> bool) (l : list A) (a : nat) :
  StronglySorted Nat.lt
    (map fst (filter f (combine (seq a (List.length l)) l)))
  /\ Forall (fun i => a <= i)%nat
       (map fst (filter f (combine (seq a (List.length l)) l))).
Proof.
  revert a. induction l as [|x l IH]; intros a; simpl.
  - split; constructor.
  - destruct (IH (S a)) as [Hsorted Hbound].
    assert (Forall (fun i => a < i)%nat
              (map fst (filter f (combine (seq (S a) (List.length l)) l))))
      as Hlt.
    { eapply Forall_impl; [| exact Hbound]. simpl. intros i Hi. lia. }
    destruct (f (a, x)); simpl.
    + split; constructor; try assumption; try lia.
      eapply Forall_impl; [| exact Hbound]. simpl. intros i Hi. lia.
    + split; [exact Hsorted |].
      eapply Forall_impl; [| exact Hbound]. simpl. intros i Hi. lia.
Qed.

Lemma entries_filter_sorted (f : nat * A -> bool) (l : list A) :
  StronglySorted Nat.lt (map fst (filter f (entries l))).
Proof. apply combine_seq_filter_sorted. Qed.

End Entries.

Lemma seq_filter_sorted (f : nat -> bool) (a n : nat) :
  StronglySorted Nat.lt (filter f (seq a n))
  /\ Forall (fun i => a <= i < a + n)%nat (filter f (seq a n)).
Proof.
  revert a. induction n as [|n IH]; intros a; simpl.
  - split; constructor.
  - destruct (IH (S a)) as [Hsorted Hbound].
    destruct (f a); simpl.
    + split; constructor; try assumption; try lia.
      * eapply Forall_impl; [| exact Hbound]. simpl. intros i Hi. lia.
      * eapply Forall_impl; [| exact Hbound]. simpl. intros i Hi. lia.
    + split; [exact Hsorted |].
      eapply Forall_impl; [| exact Hbound]. simpl. intros i Hi. lia.
Qed.

Section DetectorRecords.
Context {num : Type} {JN : JSNumber num}.
Local Open Scope js_scope.
Import AnomalyResult.

(** The z-score detector as the records of the samples that pass its test. *)
Lemma detectAnomaliesZScore_pushed (Date_now : nat -> num)
    (data : list num) (sensitivity : num) :
  (3 <= List.length data)%nat ->
  detectAnomaliesZScore Date_now data sensitivity
  = map (fun '(k, iv) =>
           mk (fst iv) (snd iv)
             (Date_now k - (len data - of_Z (Z.of_nat (fst iv))) * of_Z 1000)
             (zScore data (snd iv)) "zscore")
      (entries
         (filter (fun iv => zScore data (snd iv) > sensitivity)
            (entries data))).
Proof.
  intros Hlen. unfold detectAnomaliesZScore.
  destruct (Nat.ltb_spec (List.length data) 3) as [Hshort | _]; [lia |].
  cbv zeta.
  rewrite <- (fold_left_push_passing
                (fun iv => zScore data (snd iv) > sensitivity)
                (fun k iv =>
                   mk (fst iv) (snd iv)
                     (Date_now k
                      - (len data - of_Z (Z.of_nat (fst iv))) * of_Z 1000)
                     (zScore data (snd iv)) "zscore")).
  apply fold_left_pointwise. intros acc [index value]. reflexivity.
Qed.

Lemma detectAnomaliesIQR_pushed (Date_now : nat -> num)
    (data : list num) (sensitivity : num) :
  (4 <= List.length data)%nat ->
  detectAnomaliesIQR Date_now data sensitivity
  = map (fun '(k, iv) =>
           mk (fst iv) (snd iv)
             (Date_now k - (len data - of_Z (Z.of_nat (fst iv))) * of_Z 1000)
             (Math_min (Math_abs (snd iv - lowerBound data sensitivity))
                       (Math_abs (snd iv - upperBound data sensitivity))
              / iqr data)
             "iqr")
      (entries
         (filter (fun iv => outside data sensitivity (snd iv))
            (entries data))).
Proof.
  intros Hlen. unfold detectAnomaliesIQR.
  destruct (Nat.ltb_spec (List.length data) 4) as [Hshort | _]; [lia |].
  cbv zeta.
  rewrite <- (fold_left_push_passing
                (fun iv => outside data sensitivity (snd iv))
                (fun k iv =>
                   mk (fst iv) (snd iv)
                     (Date_now k
                      - (len data - of_Z (Z.of_nat (fst iv))) * of_Z 1000)
                     (Math_min
                        (Math_abs (snd iv - lowerBound data sensitivity))
                        (Math_abs (snd iv - upperBound data sensitivity))
                      / iqr data)
                     "iqr")).
  apply fold_left_pointwise. intros acc [index value]. reflexivity.
Qed.

Lemma pushed_indices {A} (h : nat * A -> AnomalyResult.t num) (ix : A -> nat)
    (l : list A) :
  (forall k x, index (h (k, x)) = ix x) ->
  map index (map h (entries l)) = map ix l.
Proof.
  intros Hh. rewrite map_map. unfold entries.
  apply (map_combine_seq (fun kx => index (h kx)) ix l).
  intros k x. apply Hh.
Qed.

Lemma pushed_complete {A B} (g : nat -> A -> B) (l : list A) (x : A) :
  In x l -> exists k, In (g k x) (map (fun '(k, x) => g k x) (entries l)).
Proof.
  intros Hx. destruct (In_nth_error _ _ Hx) as [k Hk]. exists k.
  apply in_map_iff. exists (k, x). split; [reflexivity |].
  apply entries_nth_error. exact Hk.
Qed.

End DetectorRecords.

Section ZScoreRecords.
Context {num : Type} {JN : JSNumber num}.
Local Open Scope js_scope.
Import AnomalyResult.

(** X1: on three samples or more the z-score detector reports exactly the
    samples whose score exceeds the sensitivity, once each and in the order
    of their indices: every record points at its sample, carries as score
    the sample's distance from the mean that [calculateStats] returns, in
    units of its standard deviation (1 when that is zero or NaN), and that
    score exceeds the sensitivity; every sample whose score does has a
    record. *)
Theorem zscore_records_sound_and_complete (Date_now : nat -> num)
    (data : list num) (sensitivity : num) :
  (3 <= List.length data)%nat ->
  exists stats,
    calculateStats data = Some stats
    /\ let score_of v :=
         Math_abs ((v - DescriptiveStats.mean stats)
                   / or_else (DescriptiveStats.stdDev stats) (of_Z 1)) in
       let result := detectAnomaliesZScore Date_now data sensitivity in
       Forall (fun a =>
                 nth_error data (index a) = Some (value a)
                 /\ score a = score_of (value a)
                 /\ (score a > sensitivity) = true
                 /\ method a = "zscore"%string) result
       /\ StronglySorted Nat.lt (map index result)
       /\ (forall i v,
             nth_error data i = Some v ->
             (score_of v > sensitivity) = true ->
             exists a, In a result /\ index a = i /\ value a = v).
Proof.
  intros Hlen. unfold calculateStats.
  destruct (Nat.eqb_spec (List.length data) 0) as [Hzero | _]; [lia |].
  cbv zeta. eexists. split; [reflexivity |].
  cbn [DescriptiveStats.mean DescriptiveStats.stdDev].
  rewrite (detectAnomaliesZScore_pushed Date_now data sensitivity Hlen).
  split; [| split].
  - apply Forall_pushed. intros k [i v] Hin.
    apply filter_In in Hin. destruct Hin as [Hin Htest].
    apply entries_nth_error in Hin. simpl.
    repeat split; assumption.
  - rewrite (pushed_indices _ fst) by (intros k [i v]; reflexivity).
    apply entries_filter_sorted.
  - intros i v Hv Htest.
    assert (In (i, v)
              (filter (fun iv => zScore data (snd iv) > sensitivity)
                 (entries data))) as Hin.
    { apply filter_In. split; [apply entries_nth_error; exact Hv | exact Htest]. }
    destruct (pushed_complete
                (fun k iv =>
                   mk (fst iv) (snd iv)
                     (Date_now k
                      - (len data - of_Z (Z.of_nat (fst iv))) * of_Z 1000)
                     (zScore data (snd iv)) "zscore") _ _ Hin) as [k Hk].
    eexists. split; [exact Hk |]. split; reflexivity.
Qed.

End ZScoreRecords.

Lemma zscore_records_sound_and_complete_witness :
  exists stats,
    calculateStats orders = Some stats
    /\ StronglySorted Nat.lt
         (map AnomalyResult.index (detectAnomaliesZScore epoch orders 2%float)).
Proof.
  destruct (zscore_records_sound_and_complete epoch orders 2%float
              ltac:(simpl; lia)) as (stats & Hstats & _ & Hsorted & _).
  exists stats. split; [exact Hstats | exact Hsorted].
Defined.

(** ** The IQR detector's records, on binary64 *)

Section IQRRecords64.
Local Open Scope js_scope.
Import AnomalyResult.

(** Up to 1000 samples, the most that the panel keeps, the products
    [sorted.length * 0.25] and [sorted.length * 0.75] floor to the integer
    quotients of n and of 3 n by 4. *)
Lemma quartile_floors64 (n : nat) :
  (n <= 1000)%nat ->
  Z.to_nat (Math_floor (((of_Z (Z.of_nat n) : float) * lit 0.25)%js))
  = (n / 4)%nat
  /\ Z.to_nat (Math_floor (((of_Z (Z.of_nat n) : float) * lit 0.75)%js))
     = (3 * n / 4)%nat.
Proof.
  intros Hn.
  assert (forallb
            (fun n =>
               Nat.eqb
                 (Z.to_nat
                    (Math_floor
                       (((of_Z (Z.of_nat n) : float) * lit 0.25)%js)))
                 (n / 4)
               && Nat.eqb
                    (Z.to_nat
                       (Math_floor
                          (((of_Z (Z.of_nat n) : float) * lit 0.75)%js)))
                    (3 * n / 4))
            (seq 0 1001) = true) as Hall by (vm_compute; reflexivity).
  rewrite forallb_forall in Hall.
  specialize (Hall n ltac:(apply in_seq; lia)).
  apply andb_true_iff in Hall. destruct Hall as [Hq1 Hq3].
  split; apply Nat.eqb_eq; assumption.
Qed.

(** X2: on four samples or more, none of them NaN, the IQR detector
    reports exactly the samples that lie below q1 - sensitivity * iqr or
    above q3 + sensitivity * iqr, once each and in the order of their
    indices, each with its distance to the nearer bound over the iqr as
    score; up to 1000 samples q1 and q3 are the elements at the positions
    floor(n / 4) and floor(3 n / 4) of the sorted samples, and q1 is at
    most q3. *)
Theorem iqr_records_sound_and_complete (Date_now : nat -> float)
    (data : list float) (sensitivity : float) :
  (4 <= List.length data)%nat ->
  Forall number data ->
  let result := detectAnomaliesIQR Date_now data sensitivity in
  Forall (fun a =>
            nth_error data (index a) = Some (value a)
            /\ outside data sensitivity (value a) = true
            /\ score a
               = Math_min
                   (Math_abs (value a - lowerBound data sensitivity))
                   (Math_abs (value a - upperBound data sensitivity))
                 / iqr data
            /\ method a = "iqr"%string) result
  /\ StronglySorted Nat.lt (map index result)
  /\ (forall i v,
        nth_error data i = Some v ->
        outside data sensitivity v = true ->
        exists a, In a result /\ index a = i /\ value a = v)
  /\ ((List.length data <= 1000)%nat ->
      exists sorted,
        Permutation sorted data /\ StronglySorted le64 sorted
        /\ nth_error sorted (List.length data / 4) = Some (q1 data)
        /\ nth_error sorted (3 * List.length data / 4) = Some (q3 data)
        /\ le64 (q1 data) (q3 data)).
Proof.
  intros Hlen Hnum. cbv zeta.
  rewrite (detectAnomaliesIQR_pushed Date_now data sensitivity Hlen).
  split; [| split; [| split]].
  - apply Forall_pushed. intros k [i v] Hin.
    apply filter_In in Hin. destruct Hin as [Hin Htest].
    apply entries_nth_error in Hin. simpl.
    repeat split; assumption.
  - rewrite (pushed_indices _ fst) by (intros k [i v]; reflexivity).
    apply entries_filter_sorted.
  - intros i v Hv Htest.
    assert (In (i, v)
              (filter (fun iv => outside data sensitivity (snd iv))
                 (entries data))) as Hin.
    { apply filter_In. split; [apply entries_nth_error; exact Hv | exact Htest]. }
    destruct (pushed_complete
                (fun k iv =>
                   mk (fst iv) (snd iv)
                     (Date_now k
                      - (len data - of_Z (Z.of_nat (fst iv))) * of_Z 1000)
                     (Math_min
                        (Math_abs (snd iv - lowerBound data sensitivity))
                        (Math_abs (snd iv - upperBound data sensitivity))
                      / iqr data)
                     "iqr") _ _ Hin) as [k Hk].
    eexists. split; [exact Hk |]. split; reflexivity.
  - intros Hcap.
    pose proof (sort_permutation data) as Hperm.
    pose proof (Permutation_length Hperm) as Hsame.
    pose proof (sort_sorted64 data Hnum) as Hsorted.
    pose proof (Permutation_Forall (Permutation_sym Hperm) Hnum) as Hnums.
    assert (List.length data / 4 <= 3 * List.length data / 4)%nat as Horder.
    { apply Nat.Div0.div_le_mono. lia. }
    assert (3 * List.length data / 4 < List.length data)%nat as Hin.
    { apply Nat.Div0.div_lt_upper_bound. lia. }
    exists (sort_ascending data).
    split; [exact Hperm |]. split; [exact Hsorted |].
    unfold q1, q3. cbv zeta. unfold len. rewrite Hsame.
    destruct (quartile_floors64 (List.length data) Hcap) as [-> ->].
    unfold at_index.
    split; [apply nth_error_nth'; lia |].
    split; [apply nth_error_nth'; lia |].
    apply sorted64_nth_le; [exact Hsorted | exact Hnums | lia].
Qed.

End IQRRecords64.

Lemma iqr_records_sound_and_complete_witness :
  StronglySorted Nat.lt
    (map AnomalyResult.index (detectAnomaliesIQR epoch orders 2%float)).
Proof.
  assert (Forall number orders) as Hnum.
  { repeat constructor; vm_compute; discriminate. }
  apply (iqr_records_sound_and_complete epoch orders 2%float
           ltac:(simpl; lia) Hnum).
Defined.

Section MLRecords.
Context {num : Type} {JN : JSNumber num} {TF : TensorFlow num}.
Local Open Scope js_scope.
Import AnomalyResult.

Lemma detectAnomaliesML_try_pushed (Date_now : nat -> num)
    (data sequence : list num) (sensitivity : num) :
  tf_standardize data = Some sequence ->
  detectAnomaliesML_try Date_now data sensitivity
  = Returned
      (map (fun '(k, i) =>
              mk i (at_index data i)
                (Date_now k - (len data - of_Z (Z.of_nat i)) * of_Z 1000)
                (windowError sequence (windowSize data) i) "ml")
         (entries
            (filter
               (fun i =>
                  windowError sequence (windowSize data) i
                  > sensitivity * lit 0.8)
               (seq (windowSize data)
                  (List.length data - windowSize data))))).
Proof.
  intros Hseq. unfold detectAnomaliesML_try. rewrite Hseq. cbv zeta.
  f_equal.
  rewrite <- (fold_left_push_passing
                (fun i =>
                   windowError sequence (windowSize data) i
                   > sensitivity * lit 0.8)
                (fun k i =>
                   mk i (at_index data i)
                     (Date_now k - (len data - of_Z (Z.of_nat i)) * of_Z 1000)
                     (windowError sequence (windowSize data) i) "ml")).
  reflexivity.
Qed.

(** X3: the sliding-window detector never rejects, whatever the TensorFlow
    call does.  Its records point at their samples, in the order of their
    indices; below five samples there is none; when the TensorFlow call
    succeeds they are the positions from the window size on whose error
    exceeds 0.8 times the sensitivity. *)
Theorem detectAnomaliesML_settles (Date_now : nat -> num)
    (data : list num) (sensitivity : num) :
  exists result,
    detectAnomaliesML Date_now data sensitivity = Returned result
    /\ Forall (fun a =>
                 nth_error data (index a) = Some (value a)
                 /\ (method a = "ml"%string \/ method a = "zscore"%string))
         result
    /\ StronglySorted Nat.lt (map index result)
    /\ ((List.length data < 5)%nat -> result = [])
    /\ (forall sequence,
          (5 <= List.length data)%nat ->
          tf_standardize data = Some sequence ->
          Forall (fun a =>
                    (windowSize data <= index a)%nat
                    /\ score a = windowError sequence (windowSize data) (index a)
                    /\ (score a > sensitivity * lit 0.8) = true
                    /\ method a = "ml"%string) result
          /\ forall i,
               (windowSize data <= i < List.length data)%nat ->
               (windowError sequence (windowSize data) i
                > sensitivity * lit 0.8) = true ->
               In i (map index result)).
Proof.
  unfold detectAnomaliesML.
  destruct (Nat.ltb_spec (List.length data) 5) as [Hshort | Hlen].
  { exists []. split; [reflexivity |]. repeat split; try constructor; lia. }
  eexists. split; [reflexivity |].
  destruct (tf_standardize data) as [sequence |] eqn:Hseq.
  - rewrite (detectAnomaliesML_try_pushed Date_now data sequence sensitivity Hseq).
    simpl try_catch.
    pose proof (seq_filter_sorted
                  (fun i =>
                     windowError sequence (windowSize data) i
                     > sensitivity * lit 0.8)
                  (windowSize data) (List.length data - windowSize data))
      as [Hsorted Hbound].
    rewrite Forall_forall in Hbound.
    split; [| split; [| split]].
    + apply Forall_pushed. intros k i Hi. simpl.
      split; [| left; reflexivity].
      unfold at_index. apply nth_error_nth'.
      specialize (Hbound i Hi). lia.
    + rewrite (pushed_indices _ (fun i => i)) by (intros k i; reflexivity).
      rewrite map_id. exact Hsorted.
    + intros Hfive. lia.
    + intros sequence' _ [= <-]. split.
      * apply Forall_pushed. intros k i Hi. simpl.
        specialize (Hbound i Hi). apply filter_In in Hi.
        repeat split; try lia. apply Hi.
      * intros i Hi Htest.
        rewrite (pushed_indices _ (fun i => i)) by (intros k j; reflexivity).
        rewrite map_id. apply filter_In. split; [| exact Htest].
        apply in_seq. lia.
  - rewrite (proj2 (detectAnomaliesML_try_thrown Date_now data sensitivity 0)
               (conj Hseq eq_refl)).
    simpl try_catch.
    assert (3 <= List.length data)%nat as Hthree by lia.
    rewrite (detectAnomaliesZScore_pushed _ data _ Hthree).
    split; [| split; [| split]].
    + apply Forall_pushed. intros k [i v] Hin.
      apply filter_In in Hin. destruct Hin as [Hin _].
      apply entries_nth_error in Hin. simpl.
      split; [exact Hin | right; reflexivity].
    + rewrite (pushed_indices _ fst) by (intros k [i v]; reflexivity).
      apply entries_filter_sorted.
    + intros Hfive. lia.
    + intros sequence _ [=].
Qed.

End MLRecords.

(** * The sensitivity as a cutoff, on binary64 *)

Section Cutoff64.

Lemma SFleb_ltb_trans (X Y Z : spec_float) :
  SFleb X Y = true -> SFltb Y Z = true -> SFltb X Z = true.
Proof.
  unfold SFleb, SFltb, SFcompare.
  destruct X as [sx|sx| |sx mx ex], Y as [sy|sy| |sy my ey],
           Z as [sz|sz| |sz mz ez];
    try discriminate;
    try (destruct sx; simpl; congruence);
    try (destruct sy; simpl; congruence);
    try (destruct sz; simpl; congruence);
    try (destruct sx, sy; simpl; congruence);
    try (destruct sx, sz; simpl; congruence);
    try (destruct sy, sz; simpl; congruence);
    try (destruct sx, sy, sz; simpl; congruence).
  change (Pos.compare_cont Eq mx my) with (Pos.compare mx my).
  change (Pos.compare_cont Eq my mz) with (Pos.compare my mz).
  change (Pos.compare_cont Eq mx mz) with (Pos.compare mx mz).
  destruct sx, sy, sz; F64Order.split_compares; simpl; intros; subst;
    try reflexivity; try discriminate; lia.
Qed.

(** What exceeds the higher cutoff exceeds the lower one. *)
Lemma above_higher_cutoff (s1 s2 z : float) :
  le64 s1 s2 -> PrimFloat.ltb s2 z = true -> PrimFloat.ltb s1 z = true.
Proof. unfold le64. rewrite leb_spec, !ltb_spec. apply SFleb_ltb_trans. Qed.

Lemma filter_weaker_length {A} (f g : A -> bool) (l : list A) :
  (forall x, In x l -> f x = true -> g x = true) ->
  (List.length (filter f l) <= List.length (filter g l))%nat
  /\ incl (filter f l) (filter g l).
Proof.
  intros Hfg. split.
  - induction l as [|x l IH]; simpl; [lia |].
    assert (List.length (filter f l) <= List.length (filter g l))%nat as Hl.
    { apply IH. intros y Hy. apply Hfg. right. exact Hy. }
    pose proof (Hfg x (or_introl eq_refl)) as Hx.
    destruct (f x), (g x); simpl;
      first [lia | specialize (Hx eq_refl); discriminate].
  - intros x Hx. apply filter_In in Hx. destruct Hx as [Hin Hf].
    apply filter_In. split; [exact Hin | apply Hfg; assumption].
Qed.

Lemma zscore_untimed_pushed (Date_now : nat -> float) (data : list float)
    (sensitivity : float) :
  (3 <= List.length data)%nat ->
  map untimed (detectAnomaliesZScore Date_now data sensitivity)
  = map (fun iv => (fst iv, snd iv, zScore data (snd iv), "zscore"%string))
      (filter (fun iv => PrimFloat.ltb sensitivity (zScore data (snd iv)))
         (entries data)).
Proof.
  intros Hlen.
  rewrite (detectAnomaliesZScore_pushed Date_now data sensitivity Hlen).
  rewrite map_map. unfold entries at 1.
  apply (map_combine_seq _
           (fun iv => (fst iv, snd iv, zScore data (snd iv), "zscore"%string))).
  intros k iv. reflexivity.
Qed.

(** X4: on binary64 the sensitivity is a cutoff.  Raising it never adds an
    anomaly: what the z-score detector reports at the higher sensitivity it
    reports, with the same index, value and score, at the lower one. *)
Theorem zscore_higher_sensitivity_flags_less (clock1 clock2 : nat -> float)
    (data : list float) (s1 s2 : float) :
  le64 s1 s2 ->
  incl (map untimed (detectAnomaliesZScore clock2 data s2))
       (map untimed (detectAnomaliesZScore clock1 data s1))
  /\ (List.length (detectAnomaliesZScore clock2 data s2)
      <= List.length (detectAnomaliesZScore clock1 data s1))%nat.
Proof.
  intros Hle.
  destruct (Nat.ltb_spec (List.length data) 3) as [Hshort | Hlen].
  { unfold detectAnomaliesZScore.
    destruct (Nat.ltb_spec (List.length data) 3) as [_ | Hlong]; [| lia].
    split; [intros x Hx; exact Hx | simpl; lia]. }
  destruct (filter_weaker_length
              (fun iv => PrimFloat.ltb s2 (zScore data (snd iv)))
              (fun iv => PrimFloat.ltb s1 (zScore data (snd iv)))
              (entries data)) as [Hcount Hincl].
  { intros iv _. apply above_higher_cutoff. exact Hle. }
  split.
  - rewrite !zscore_untimed_pushed by exact Hlen.
    apply incl_map. exact Hincl.
  - rewrite <- (length_map untimed (detectAnomaliesZScore clock2 data s2)).
    rewrite <- (length_map untimed (detectAnomaliesZScore clock1 data s1)).
    rewrite !zscore_untimed_pushed by exact Hlen.
    rewrite !length_map. exact Hcount.
Qed.

End Cutoff64.

Lemma zscore_higher_sensitivity_flags_less_witness :
  (List.length (detectAnomaliesZScore epoch orders 3%float)
   <= List.length (detectAnomaliesZScore epoch orders 2%float))%nat.
Proof.
  apply (zscore_higher_sensitivity_flags_less epoch epoch orders 2%float 3%float).
  reflexivity.
Defined.

(** * NaN among the samples *)

Section NaN64.

Lemma is_nan_spec (x : float) :
  PrimFloat.is_nan x = true -> Prim2SF x = S754_nan.
Proof.
  unfold PrimFloat.is_nan. rewrite FloatAxioms.eqb_spec.
  unfold SFeqb, SFcompare.
  destruct (Prim2SF x) as [s|s| |s m e]; try reflexivity.
  - destruct s; discriminate.
  - destruct s; discriminate.
  - rewrite Z.compare_refl, Pos.compare_cont_refl. destruct s; discriminate.
Qed.

Lemma nan_spec (x : float) : Prim2SF x = S754_nan -> x = PrimFloat.nan.
Proof. intros Hx. apply Prim2SF_inj. rewrite Hx. reflexivity. Qed.

Lemma add_nan_l (x : float) : (PrimFloat.nan + x)%float = PrimFloat.nan.
Proof. apply nan_spec. rewrite add_spec. reflexivity. Qed.

Lemma add_nan_r (x : float) : (x + PrimFloat.nan)%float = PrimFloat.nan.
Proof.
  apply nan_spec. rewrite add_spec.
  change (Prim2SF PrimFloat.nan) with S754_nan.
  destruct (Prim2SF x); reflexivity.
Qed.

Lemma sub_nan_r (x : float) : (x - PrimFloat.nan)%float = PrimFloat.nan.
Proof.
  apply nan_spec. rewrite sub_spec.
  change (Prim2SF PrimFloat.nan) with S754_nan.
  destruct (Prim2SF x); reflexivity.
Qed.

Lemma div_nan_l (x : float) : (PrimFloat.nan / x)%float = PrimFloat.nan.
Proof. apply nan_spec. rewrite div_spec. reflexivity. Qed.

Lemma abs_nan : PrimFloat.abs PrimFloat.nan = PrimFloat.nan.
Proof. reflexivity. Qed.

Lemma ltb_nan_r (x : float) : PrimFloat.ltb x PrimFloat.nan = false.
Proof.
  rewrite ltb_spec. change (Prim2SF PrimFloat.nan) with S754_nan.
  unfold SFltb, SFcompare. destruct (Prim2SF x); reflexivity.
Qed.

Lemma fold_add_nan (l : list float) :
  fold_left PrimFloat.add l PrimFloat.nan = PrimFloat.nan.
Proof.
  induction l as [|x l IH]; simpl; [reflexivity |].
  rewrite add_nan_l. exact IH.
Qed.

(** One NaN makes the sum NaN. *)
Lemma sum_nan (data : list float) :
  In PrimFloat.nan data -> sum data = PrimFloat.nan.
Proof.
  unfold sum. simpl add. generalize (of_Z 0 : float) as acc.
  induction data as [|x data IH]; intros acc Hin; [contradiction |].
  simpl. destruct Hin as [-> | Hin].
  - rewrite add_nan_r. apply fold_add_nan.
  - apply IH. exact Hin.
Qed.

(** X5: a single NaN among the samples silences the z-score detector: the
    mean is NaN, so is every score, and no comparison with NaN holds; the
    result is empty whatever the other samples and the sensitivity are. *)
Theorem zscore_nan_sample_silences (Date_now : nat -> float)
    (data : list float) (sensitivity : float) :
  Exists (fun x => PrimFloat.is_nan x = true) data ->
  detectAnomaliesZScore Date_now data sensitivity = [].
Proof.
  intros Hnan.
  assert (In PrimFloat.nan data) as Hin.
  { apply Exists_exists in Hnan. destruct Hnan as [x [Hx Hisnan]].
    rewrite <- (nan_spec x (is_nan_spec x Hisnan)). exact Hx. }
  unfold detectAnomaliesZScore.
  destruct (_ <? 3)%nat; [reflexivity |].
  cbv zeta. rewrite (sum_nan data Hin).
  apply fold_left_skips. intros [index value] _ anomalies.
  simpl div. simpl sub. simpl Math_abs. simpl lt.
  rewrite div_nan_l, sub_nan_r, div_nan_l, abs_nan, ltb_nan_r.
  reflexivity.
Qed.

End NaN64.

Lemma zscore_nan_sample_silences_witness :
  detectAnomaliesZScore epoch [1; 2; PrimFloat.nan; 1000; 3]%float 3%float = [].
Proof.
  apply zscore_nan_sample_silences.
  apply Exists_cons_tl, Exists_cons_tl, Exists_cons_hd. reflexivity.
Defined.

(** * The IQR detector in exact arithmetic *)

Section IQRExact.

Local Open Scope R_scope.
Import AnomalyResult.

(** [Math.floor(n * p / 100)] is the integer quotient. *)
Lemma floor_percent (n : nat) (p : Z) :
  Math_floor (INR n * (IZR p / IZR 100)) = (p * Z.of_nat n / 100)%Z.
Proof.
  replace (INR n * (IZR p / IZR 100)) with (IZR (p * Z.of_nat n) / IZR 100).
  - apply ExactFacts.floor_quotient. lia.
  - rewrite mult_IZR, <- INR_IZR_INZ. lra.
Qed.

Lemma quartile_positions (data : list R) :
  q1 data = nth (25 * List.length data / 100) (sort_ascending data) 0
  /\ q3 data = nth (75 * List.length data / 100) (sort_ascending data) 0.
Proof.
  unfold q1, q3, at_index. cbv zeta.
  rewrite ExactFacts.len_INR.
  pose proof (Permutation_length (sort_permutation data)) as ->.
  simpl mul. simpl lit. unfold Exact.lit. simpl Qnum. simpl Qden.
  rewrite !floor_percent. simpl undefined.
  split; f_equal.
  - rewrite <- (Nat2Z.id (25 * List.length data / 100)). f_equal.
    rewrite Nat2Z.inj_div. f_equal. lia.
  - rewrite <- (Nat2Z.id (75 * List.length data / 100)). f_equal.
    rewrite Nat2Z.inj_div. f_equal. lia.
Qed.

(** The quartiles are samples, and the first is not above the third. *)
Lemma quartiles_ordered (data : list R) :
  data <> [] -> In (q1 data) data /\ In (q3 data) data /\ q1 data <= q3 data.
Proof.
  intros Hne.
  destruct (quartile_positions data) as [-> ->].
  pose proof (sort_permutation data) as Hperm.
  pose proof (Permutation_length Hperm) as Hlen.
  assert (0 < List.length data)%nat as Hpos.
  { destruct data; [congruence | simpl; lia]. }
  assert (25 * List.length data / 100 <= 75 * List.length data / 100)%nat
    as Hle by (apply Nat.Div0.div_le_mono; lia).
  assert (75 * List.length data / 100 < List.length data)%nat as Hlt.
  { apply Nat.Div0.div_lt_upper_bound. lia. }
  split; [| split].
  - apply (Permutation_in _ Hperm), nth_In. lia.
  - apply (Permutation_in _ Hperm), nth_In. lia.
  - apply ExactFacts.sorted_nth_le; [apply ExactFacts.sort_sorted | lia].
Qed.

Lemma outside_exact (data : list R) (s v : R) :
  outside data s v = true
  <-> v < q1 data - s * (q3 data - q1 data)
      \/ q3 data + s * (q3 data - q1 data) < v.
Proof.
  unfold outside, lowerBound, upperBound, iqr.
  rewrite orb_true_iff, !ExactFacts.lt_true. reflexivity.
Qed.

Lemma iqr_indices (Date_now : nat -> R) (data : list R) (s : R) :
  (4 <= List.length data)%nat ->
  map index (detectAnomaliesIQR Date_now data s)
  = map fst (filter (fun iv => outside data s (snd iv)) (entries data)).
Proof.
  intros Hlen. rewrite (detectAnomaliesIQR_pushed Date_now data s Hlen).
  apply pushed_indices. intros k [i v]. reflexivity.
Qed.

(** X7: the IQR detector, in exact arithmetic.  At a sensitivity that is
    not negative every flagged sample lies strictly below the first or
    strictly above the third quartile, so a sample between the quartiles is
    never flagged; and raising the sensitivity never adds an anomaly, since
    the iqr is not negative. *)
Theorem iqr_flags_outside_quartiles (clock1 clock2 : nat -> R)
    (data : list R) (s1 s2 : R) :
  0 <= s1 <= s2 ->
  Forall (fun a => value a < q1 data \/ q3 data < value a)
    (detectAnomaliesIQR clock1 data s1)
  /\ incl (map index (detectAnomaliesIQR clock2 data s2))
          (map index (detectAnomaliesIQR clock1 data s1))
  /\ (List.length (detectAnomaliesIQR clock2 data s2)
      <= List.length (detectAnomaliesIQR clock1 data s1))%nat.
Proof.
  intros [Hs1 Hs2].
  destruct (Nat.ltb_spec (List.length data) 4) as [Hshort | Hlen].
  { unfold detectAnomaliesIQR.
    destruct (Nat.ltb_spec (List.length data) 4) as [_ | Hlong]; [| lia].
    split; [constructor |]. split; [intros x Hx; exact Hx | simpl; lia]. }
  assert (data <> []) as Hne by (destruct data; [simpl in Hlen; lia | discriminate]).
  destruct (quartiles_ordered data Hne) as (_ & _ & Hq).
  destruct (filter_weaker_length
              (fun iv : nat * R => outside data s2 (snd iv))
              (fun iv : nat * R => outside data s1 (snd iv))
              (entries data)) as [Hcount Hincl].
  { intros [i v] _. simpl snd. rewrite !outside_exact. intros [Hlow | Hhigh].
    - left. nra.
    - right. nra. }
  split; [| split].
  - rewrite (detectAnomaliesIQR_pushed clock1 data s1 Hlen).
    apply Forall_pushed. intros k [i v] Hin. simpl.
    apply filter_In in Hin. destruct Hin as [_ Hout]. simpl snd in Hout.
    apply outside_exact in Hout. destruct Hout as [Hlow | Hhigh].
    + left. nra.
    + right. nra.
  - rewrite !iqr_indices by exact Hlen. apply incl_map. exact Hincl.
  - rewrite <- (length_map index (detectAnomaliesIQR clock2 data s2)).
    rewrite <- (length_map index (detectAnomaliesIQR clock1 data s1)).
    rewrite !iqr_indices by exact Hlen. rewrite !length_map. exact Hcount.
Qed.

End IQRExact.

Lemma iqr_flags_outside_quartiles_witness :
  Forall (fun a => (AnomalyResult.value a < q1 orders_exact
                    \/ q3 orders_exact < AnomalyResult.value a)%R)
    (detectAnomaliesIQR (fun _ => 0%R) orders_exact 2%R).
Proof.
  destruct (iqr_flags_outside_quartiles (fun _ => 0%R) (fun _ => 0%R)
              orders_exact 2%R 3%R ltac:(lra)) as [Hvalues _].
  exact Hvalues.
Defined.

(** * The range of the forecaster's confidences, on binary64 *)

Section Confidence64.
Context {JM : JSMath float} {TF : TensorFlow float}.
Local Open Scope js_scope.
Import TrendPrediction.

(** [Math.max(0.4, Math.min(0.95, x))] is NaN when [x] is, and lies
    between 0.4 and 0.95 otherwise. *)
Lemma clamp64 (x : float) :
  let c : float := Math_max (lit 0.4) (Math_min (lit 0.95) x) in
  (PrimFloat.is_nan x = true /\ PrimFloat.is_nan c = true)
  \/ (PrimFloat.is_nan x = false /\ between64 0.4 0.95 c).
Proof.
  cbv zeta.
  change (lit 0.4 : float) with 0.4%float.
  change (lit 0.95 : float) with 0.95%float.
  simpl Math_max. simpl Math_min. unfold F64.max, F64.min.
  change (PrimFloat.is_nan 0.4) with false.
  change (PrimFloat.is_nan 0.95) with false.
  change (PrimFloat.get_sign 0.4) with false.
  change (PrimFloat.get_sign 0.95) with false.
  cbn [orb].
  destruct (PrimFloat.is_nan x) eqn:Hnan.
  { left. split; reflexivity. }
  right. split; [reflexivity |].
  pose proof (F64Order.number_spec x Hnan) as Hx.
  assert (number 0.4%float) as H04 by (vm_compute; discriminate).
  assert (number 0.95%float) as H095 by (vm_compute; discriminate).
  assert (le64 0.4 0.95) as Hends by (vm_compute; reflexivity).
  unfold between64.
  destruct (PrimFloat.ltb 0.95 x) eqn:Habove.
  { change (PrimFloat.is_nan 0.95) with false.
    change (PrimFloat.ltb 0.4 0.95) with true. cbn [orb].
    split; [exact Hends | apply F64Order.le64_refl; exact H095]. }
  assert (le64 x 0.95) as Hle by (apply F64Order.le64_total; assumption).
  assert ((if PrimFloat.ltb x 0.95 then x else x) = x) as ->
    by (destruct (PrimFloat.ltb x 0.95); reflexivity).
  rewrite Hnan. cbn [orb].
  destruct (PrimFloat.ltb 0.4 x) eqn:Hlow.
  { split; [apply F64Order.lt_le64; exact Hlow | exact Hle]. }
  assert ((if PrimFloat.ltb x 0.4 then 0.4%float else 0.4%float) = 0.4%float)
    as -> by (destruct (PrimFloat.ltb x 0.4); reflexivity).
  split; [apply F64Order.le64_refl; exact H04 | exact Hends].
Qed.

Lemma predictTrend_rollout_confidence64 (Date_now : nat -> float)
    (model : list float -> option float)
    (mean normalizedStd lastActualValue : float) (remaining : list nat) :
  forall currentSequence predictions result,
    Forall (fun p => PrimFloat.is_nan (confidence p) = true
                     \/ between64 0.4 0.95 (confidence p)) predictions ->
    predictTrend_rollout Date_now model mean normalizedStd lastActualValue
      remaining currentSequence predictions = Returned result ->
    Forall (fun p => PrimFloat.is_nan (confidence p) = true
                     \/ between64 0.4 0.95 (confidence p)) result.
Proof.
  induction remaining as [|k rest IH]; intros window predictions result Hacc;
    simpl.
  - intros [= <-]. exact Hacc.
  - destruct (model window) as [p|]; [| discriminate].
    apply IH. apply Forall_app. split; [exact Hacc |].
    constructor; [| constructor]. cbn [confidence].
    match goal with |- context [F64.min _ ?x] =>
      destruct (clamp64 x) as [[_ Hc] | [_ Hc]]
    end; [left | right]; exact Hc.
Qed.

(** Up to 20 steps, the range of the panel's slider, the confidences of
    the fallback path lie between 0.4 and 1. *)
Lemma simpleLinearPrediction_confidence64 (Date_now : nat -> float)
    (data : list float) (steps : Z) :
  (steps <= 20)%Z ->
  Forall (fun p => between64 0.4 1 (confidence p))
    (simpleLinearPrediction Date_now data steps).
Proof.
  intros Hsteps.
  apply (proj1 (Forall_map confidence (between64 0.4 1) _)).
  rewrite simpleLinearPrediction_confidences.
  destruct (Z.le_gt_cases steps 0) as [Hnone | Hsome].
  { replace (Z.to_nat steps) with 0%nat by lia. constructor. }
  assert (forallb
            (fun n =>
               forallb
                 (fun k =>
                    let c : float :=
                      Math_max (lit 0.3)
                        (of_Z 1 - (of_Z (Z.of_nat k) / of_Z (Z.of_nat n))
                                  * lit 0.6) in
                    PrimFloat.leb 0.4 c && PrimFloat.leb c 1)
                 (seq 1 n))
            (seq 1 20) = true) as Hall by (vm_compute; reflexivity).
  rewrite forallb_forall in Hall.
  specialize (Hall (Z.to_nat steps) ltac:(apply in_seq; lia)).
  rewrite Z2Nat.id in Hall by lia.
  rewrite forallb_forall in Hall.
  apply Forall_map, Forall_forall. intros k Hk.
  specialize (Hall k Hk). cbv zeta in Hall.
  apply andb_true_iff in Hall. exact Hall.
Qed.

(** X8: up to 20 requested steps, the range of the panel's slider, every
    confidence that the forecaster returns is NaN or lies between 0.4 and
    1, whichever path produced it and whatever the TensorFlow calls did.
    On the fallback path it always lies between 0.4 and 1: the floor of
    0.3 in max(0.3, ...) is never reached.  On the learning path, for every
    step count, it is NaN or lies between 0.4 and 0.95; NaN is reached
    when the forecast value is NaN, as on six samples of 1e308, whose sum
    overflows. *)
Theorem forecast_confidence_range (Date_now : nat -> float)
    (data : list float) (steps : Z) :
  (steps <= 20)%Z ->
  (exists predictions,
     predictTrend Date_now data steps = Returned predictions
     /\ Forall (fun p => PrimFloat.is_nan (confidence p) = true
                         \/ between64 0.4 1 (confidence p)) predictions)
  /\ Forall (fun p => between64 0.4 1 (confidence p))
       (simpleLinearPrediction Date_now data steps)
  /\ (forall model currentSequence mean normalizedStd lastActualValue
             remaining result,
        predictTrend_rollout Date_now model mean normalizedStd
          lastActualValue remaining currentSequence [] = Returned result ->
        Forall (fun p => PrimFloat.is_nan (confidence p) = true
                         \/ between64 0.4 0.95 (confidence p)) result)
  /\ (exists predictions,
        predictTrend (JM := pow_upto_1) (TF := period_model) epoch huge 1
        = Returned predictions
        /\ map (fun p => PrimFloat.is_nan (confidence p)) predictions
           = [true]).
Proof.
  intros Hsteps.
  assert (forall clock,
            Forall (fun p => PrimFloat.is_nan (confidence p) = true
                             \/ between64 0.4 1 (confidence p))
              (simpleLinearPrediction clock data steps)) as Hfallback.
  { intros clock.
    eapply Forall_impl;
      [| apply (simpleLinearPrediction_confidence64 clock data steps Hsteps)].
    intros p Hp. right. exact Hp. }
  assert (le64 0.95 1) as Htop by (vm_compute; reflexivity).
  split; [| split; [| split]].
  - unfold predictTrend.
    destruct (_ <? 5)%nat.
    { eexists. split; [reflexivity | apply Hfallback]. }
    eexists. split; [reflexivity |].
    destruct (predictTrend_try Date_now data steps) as [result | reads]
      eqn:Htry; simpl.
    + revert Htry. unfold predictTrend_try. cbv zeta.
      destruct (_ <? 3)%nat.
      * intros [= <-]. apply Hfallback.
      * destruct (tf_fit _ _) as [model|]; [| discriminate].
        intros Hrun.
        apply predictTrend_rollout_confidence64 in Hrun; [| constructor].
        eapply Forall_impl; [| exact Hrun]. simpl.
        intros p [Hp | [Hlow Hhigh]]; [left; exact Hp | right].
        split; [exact Hlow |].
        apply (F64Order.le64_trans _ _ _ Hhigh Htop).
    + apply Hfallback.
  - apply simpleLinearPrediction_confidence64. exact Hsteps.
  - intros model window mean normalizedStd lastActualValue remaining result
      Hrun.
    apply predictTrend_rollout_confidence64 in Hrun; [exact Hrun | constructor].
  - eexists. split; vm_compute; reflexivity.
Qed.

End Confidence64.

Lemma forecast_confidence_range_witness :
  Forall (fun p => between64 0.4 1 (TrendPrediction.confidence p))
    (simpleLinearPrediction (JM := any_math) epoch orders 10).
Proof.
  destruct (forecast_confidence_range (JM := any_math) (TF := tf_unavailable)
              epoch orders 10 ltac:(lia)) as (_ & Hfallback & _).
  exact Hfallback.
Defined.

(** * The median among the extremes, on binary64 *)

Section Median64.
Local Open Scope js_scope.
Import DescriptiveStats.

(** Up to 1000 samples, the most that the panel keeps, the quotient
    [sorted.length / 2] floors to the integer quotient of n by 2. *)
Lemma median_floor64 (n : nat) :
  (n <= 1000)%nat ->
  Z.to_nat (Math_floor (((of_Z (Z.of_nat n) : float) / of_Z 2)%js))
  = (n / 2)%nat.
Proof.
  intros Hn.
  assert (forallb
            (fun n =>
               Nat.eqb
                 (Z.to_nat
                    (Math_floor (((of_Z (Z.of_nat n) : float) / of_Z 2)%js)))
                 (n / 2))
            (seq 0 1001) = true) as Hall by (vm_compute; reflexivity).
  rewrite forallb_forall in Hall.
  apply Nat.eqb_eq, Hall, in_seq. lia.
Qed.

(** X11: on binary64, for 1 to 1000 samples, none of them NaN, the median
    that the statistics calculator returns is the element at position
    floor(n / 2) of the sorted samples, it is one of the samples, and it
    lies between the minimum and the maximum, which bound every sample. *)
Theorem calculateStats_median_between_extremes (samples : list float) :
  samples <> [] ->
  Forall number samples ->
  (List.length samples <= 1000)%nat ->
  exists stats sorted,
    calculateStats samples = Some stats
    /\ Permutation sorted samples /\ StronglySorted le64 sorted
    /\ nth_error sorted (List.length samples / 2) = Some (median stats)
    /\ In (median stats) samples
    /\ le64 (min stats) (median stats)
    /\ le64 (median stats) (max stats)
    /\ (forall x, In x samples -> le64 (min stats) x /\ le64 x (max stats)).
Proof.
  intros Hne Hnum Hcap.
  pose proof (sort_permutation samples) as Hperm.
  pose proof (Permutation_length Hperm) as Hsame.
  pose proof (sort_sorted64 samples Hnum) as Hsorted.
  pose proof (Permutation_Forall (Permutation_sym Hperm) Hnum) as Hnums.
  assert (0 < List.length samples)%nat as Hpos.
  { destruct samples; [congruence | simpl; lia]. }
  assert (List.length samples / 2 < List.length samples)%nat as Hmid.
  { apply Nat.div_lt; lia. }
  unfold calculateStats.
  destruct (Nat.eqb_spec (List.length samples) 0) as [Hzero | _]; [lia |].
  cbv zeta. eexists. exists (sort_ascending samples).
  split; [reflexivity |].
  cbn [median min max].
  unfold len. rewrite Hsame, (median_floor64 _ Hcap). unfold at_index.
  split; [exact Hperm |]. split; [exact Hsorted |].
  split; [apply nth_error_nth'; lia |].
  split; [apply (Permutation_in _ Hperm), nth_In; lia |].
  split; [apply sorted64_nth_le; [exact Hsorted | exact Hnums | lia] |].
  split; [apply sorted64_nth_le; [exact Hsorted | exact Hnums | lia] |].
  intros x Hx. rewrite <- Hsame. apply (sorted_bounds64 samples x Hnum Hx).
Qed.

End Median64.

Lemma calculateStats_median_between_extremes_witness :
  exists stats,
    calculateStats orders = Some stats
    /\ le64 (DescriptiveStats.min stats) (DescriptiveStats.median stats)
    /\ le64 (DescriptiveStats.median stats) (DescriptiveStats.max stats).
Proof.
  assert (Forall number orders) as Hnum.
  { repeat constructor; vm_compute; discriminate. }
  destruct (calculateStats_median_between_extremes orders
              ltac:(discriminate) Hnum ltac:(simpl; lia))
    as (stats & sorted & Hstats & _ & _ & _ & _ & Hlow & Hhigh & _).
  exists stats. split; [exact Hstats |]. split; [exact Hlow | exact Hhigh].
Defined.

(** * What the insight generator can say *)

Section InsightShape.
Context {num : Type} {JN : JSNumber num}.
Local Open Scope js_scope.
Import AIInsight.

Ltac split_ifs :=
  repeat match goal with
         | |- context [if ?c then _ else _] => destruct c
         end.

Ltac calm_insights :=
  first [ apply Forall_nil
        | apply Forall_cons; [| apply Forall_nil];
          unfold calm, stated; cbn [confidence type In];
          split; [auto 10 | discriminate] ].

Ltac one_insight :=
  split_ifs; (split; [cbn [List.length]; lia | calm_insights]).

Lemma swingRule_shape (data : list num) :
  (List.length (swingRule data) <= 1)%nat /\ Forall calm (swingRule data).
Proof. unfold swingRule. one_insight. Qed.

Lemma trendRule_shape (data : list num) :
  (List.length (trendRule data) <= 1)%nat /\ Forall calm (trendRule data).
Proof. unfold trendRule. one_insight. Qed.

Lemma forecastRule_shape (data : list num)
    (predictions : list (TrendPrediction.t num)) :
  (List.length (forecastRule data predictions) <= 1)%nat
  /\ Forall calm (forecastRule data predictions)
  /\ (predictions = [] -> forecastRule data predictions = []).
Proof.
  split; [| split].
  - unfold forecastRule. cbv zeta. split_ifs; simpl; lia.
  - unfold forecastRule. cbv zeta. split_ifs; calm_insights.
  - intros ->. reflexivity.
Qed.

Lemma extremeRule_shape (data : list num) :
  (List.length (extremeRule data) <= 1)%nat /\ Forall calm (extremeRule data).
Proof. unfold extremeRule. cbv zeta. one_insight. Qed.

Lemma volatilityRule_shape (data : list num) :
  (List.length (volatilityRule data) <= 1)%nat
  /\ Forall calm (volatilityRule data).
Proof. unfold volatilityRule. one_insight. Qed.

Lemma anomalyRule_shape (data : list num)
    (anomalies : list (AnomalyResult.t num)) :
  (List.length (anomalyRule data anomalies) <= 1)%nat
  /\ Forall (fun i =>
               stated i
               /\ (type i = critical ->
                   anomalies <> []
                   /\ ((len anomalies : num) > (len data : num) * lit 0.1)
                      = true))
       (anomalyRule data anomalies)
  /\ (anomalies = [] -> anomalyRule data anomalies = []).
Proof.
  unfold anomalyRule. cbv zeta.
  destruct anomalies as [|a anomalies].
  { simpl. split; [lia |]. split; [constructor | reflexivity]. }
  cbn [List.length Nat.ltb Nat.leb].
  split; [simpl; lia |]. split; [| discriminate].
  constructor; [| constructor].
  unfold stated. cbn [confidence type In]. split; [auto 10 |].
  destruct (lt _ _) eqn:Hmany.
  - intros _. split; [discriminate | reflexivity].
  - discriminate.
Qed.

(** Only the anomaly rule can push a critical insight. *)
Lemma generateAIInsights_critical (data : list num)
    (anomalies : list (AnomalyResult.t num))
    (predictions : list (TrendPrediction.t num)) (i : AIInsight.t num) :
  In i (generateAIInsights data anomalies predictions) ->
  type i = critical ->
  anomalies <> []
  /\ ((len anomalies : num) > (len data : num) * lit 0.1) = true.
Proof.
  unfold generateAIInsights.
  destruct (_ <? 2)%nat.
  { intros [<- | []]. discriminate. }
  destruct (anomalyRule_shape data anomalies) as (_ & Ha & _).
  destruct (swingRule_shape data) as [_ Hs].
  destruct (trendRule_shape data) as [_ Ht].
  destruct (forecastRule_shape data predictions) as (_ & Hf & _).
  destruct (extremeRule_shape data) as [_ He].
  destruct (volatilityRule_shape data) as [_ Hv].
  rewrite Forall_forall in Ha, Hs, Ht, Hf, He, Hv.
  intros Hin Hcritical.
  repeat (apply in_app_or in Hin; destruct Hin as [Hin | Hin]);
    first [ apply (Ha i Hin); exact Hcritical
          | exfalso;
            first [ apply (proj2 (Hs i Hin))
                  | apply (proj2 (Ht i Hin))
                  | apply (proj2 (Hf i Hin))
                  | apply (proj2 (He i Hin))
                  | apply (proj2 (Hv i Hin)) ];
            exact Hcritical ].
Qed.

(** X13: the insight generator returns at most six insights (at most four
    when it is given neither anomalies nor forecasts), each with one of the
    confidences 1.0, 0.9, 0.85, 0.8 and 0.75 that the source states; and an
    insight is critical only if there are anomalies and their number
    exceeds a tenth of the number of samples. *)
Theorem insights_at_most_six_and_critical_only_above_a_tenth
    (data : list num) (anomalies : list (AnomalyResult.t num))
    (predictions : list (TrendPrediction.t num)) :
  let result := generateAIInsights data anomalies predictions in
  (List.length result <= 6)%nat
  /\ Forall stated result
  /\ (forall i, In i result -> type i = critical ->
        anomalies <> []
        /\ ((len anomalies : num) > (len data : num) * lit 0.1) = true)
  /\ (anomalies = [] -> predictions = [] -> (List.length result <= 4)%nat).
Proof.
  cbv zeta.
  split; [| split; [| split]];
    [ | | apply generateAIInsights_critical | ];
    unfold generateAIInsights; destruct (_ <? 2)%nat.
  - simpl. lia.
  - destruct (anomalyRule_shape data anomalies) as (Ha & _).
    destruct (swingRule_shape data) as [Hs _].
    destruct (trendRule_shape data) as [Ht _].
    destruct (forecastRule_shape data predictions) as (Hf & _).
    destruct (extremeRule_shape data) as [He _].
    destruct (volatilityRule_shape data) as [Hv _].
    rewrite !length_app. lia.
  - apply Forall_cons; [| apply Forall_nil].
    unfold stated. cbn [confidence In]. auto 10.
  - destruct (anomalyRule_shape data anomalies) as (_ & Ha & _).
    destruct (swingRule_shape data) as [_ Hs].
    destruct (trendRule_shape data) as [_ Ht].
    destruct (forecastRule_shape data predictions) as (_ & Hf & _).
    destruct (extremeRule_shape data) as [_ He].
    destruct (volatilityRule_shape data) as [_ Hv].
    assert (forall l, Forall calm l -> Forall stated l) as Hstated.
    { intros l Hl. eapply Forall_impl; [| exact Hl]. intros i [Hi _]. exact Hi. }
    repeat (apply Forall_app; split); try (apply Hstated; assumption).
    eapply Forall_impl; [| exact Ha]. intros i [Hi _]. exact Hi.
  - intros _ _. simpl. lia.
  - intros Hna Hnp.
    destruct (anomalyRule_shape data anomalies) as (_ & _ & Ha).
    destruct (swingRule_shape data) as [Hs _].
    destruct (trendRule_shape data) as [Ht _].
    destruct (forecastRule_shape data predictions) as (_ & _ & Hf).
    destruct (extremeRule_shape data) as [He _].
    destruct (volatilityRule_shape data) as [Hv _].
    rewrite (Ha Hna), (Hf Hnp), !length_app. simpl List.length. lia.
Qed.

End InsightShape.

(** * The panel's analysis *)

Section DetectorsPoint.
Context {num : Type} {JN : JSNumber num} {TF : TensorFlow num}.
Local Open Scope js_scope.
Import AnomalyResult.

Lemma detectAnomaliesZScore_points (Date_now : nat -> num)
    (data : list num) (sensitivity : num) :
  Forall (points_into data) (detectAnomaliesZScore Date_now data sensitivity).
Proof.
  destruct (Nat.ltb_spec (List.length data) 3) as [Hshort | Hlen].
  { unfold detectAnomaliesZScore.
    destruct (Nat.ltb_spec (List.length data) 3) as [_ | Hlong]; [| lia].
    constructor. }
  rewrite (detectAnomaliesZScore_pushed Date_now data sensitivity Hlen).
  apply Forall_pushed. intros k [i v] Hin.
  apply filter_In in Hin. destruct Hin as [Hin _].
  apply entries_nth_error in Hin. exact Hin.
Qed.

Lemma detectAnomaliesIQR_points (Date_now : nat -> num)
    (data : list num) (sensitivity : num) :
  Forall (points_into data) (detectAnomaliesIQR Date_now data sensitivity).
Proof.
  destruct (Nat.ltb_spec (List.length data) 4) as [Hshort | Hlen].
  { unfold detectAnomaliesIQR.
    destruct (Nat.ltb_spec (List.length data) 4) as [_ | Hlong]; [| lia].
    constructor. }
  rewrite (detectAnomaliesIQR_pushed Date_now data sensitivity Hlen).
  apply Forall_pushed. intros k [i v] Hin.
  apply filter_In in Hin. destruct Hin as [Hin _].
  apply entries_nth_error in Hin. exact Hin.
Qed.

Lemma detectAnomaliesML_points (Date_now : nat -> num)
    (data : list num) (sensitivity : num) :
  exists result,
    detectAnomaliesML Date_now data sensitivity = Returned result
    /\ Forall (points_into data) result.
Proof.
  unfold detectAnomaliesML.
  destruct (_ <? 5)%nat.
  { exists []. split; [reflexivity | constructor]. }
  eexists. split; [reflexivity |].
  destruct (tf_standardize data) as [sequence |] eqn:Hseq.
  - rewrite (detectAnomaliesML_try_pushed Date_now data sequence sensitivity Hseq).
    simpl try_catch.
    apply Forall_pushed. intros k i Hi. unfold points_into. simpl.
    unfold at_index. apply nth_error_nth'.
    apply filter_In in Hi. destruct Hi as [Hi _]. apply in_seq in Hi. lia.
  - rewrite (proj2 (detectAnomaliesML_try_thrown Date_now data sensitivity 0)
               (conj Hseq eq_refl)).
    simpl try_catch. apply detectAnomaliesZScore_points.
Qed.

End DetectorsPoint.

Section PanelAnalysis.
Context {num : Type} {JN : JSNumber num} {JG : JSGlobals num}
        {JM : JSMath num} {TF : TensorFlow num}.
Local Open Scope js_scope.
Import SimpleOptions.

Lemma detectedAnomalies_returns (clock : nat -> num)
    (options : SimpleOptions.t num) (numericValues : list num) :
  exists detected,
    detectedAnomalies clock options numericValues = Returned detected
    /\ Forall (points_into numericValues) detected.
Proof.
  unfold detectedAnomalies.
  destruct (shouldRunAnomalyDetection options).
  2:{ exists []. split; [reflexivity | constructor]. }
  destruct (anomalyMethod options).
  - eexists. split; [reflexivity | apply detectAnomaliesZScore_points].
  - eexists. split; [reflexivity | apply detectAnomaliesIQR_points].
  - destruct (_ <=? 100)%nat.
    + apply detectAnomaliesML_points.
    + eexists. split; [reflexivity | apply detectAnomaliesZScore_points].
Qed.

Lemma trendPredictions_returns (clock : nat -> num)
    (options : SimpleOptions.t num) (numericValues : list num) :
  exists trend,
    trendPredictions clock options numericValues = Returned trend
    /\ (List.length trend <= 10)%nat
    /\ (trend <> [] ->
        shouldRunTrendPrediction options = true
        /\ (5 <= List.length numericValues <= 100)%nat
        /\ (1 <= predictionSteps options)%Z).
Proof.
  unfold trendPredictions.
  destruct (shouldRunTrendPrediction options); cbn [andb].
  2:{ exists []. split; [reflexivity |]. split; [simpl; lia | congruence]. }
  destruct (Nat.leb_spec 5 (List.length numericValues)) as [Hfive | Hshort];
    cbn [andb].
  2:{ exists []. split; [reflexivity |]. split; [simpl; lia | congruence]. }
  destruct (Nat.leb_spec (List.length numericValues) 100) as [Hcap | Hlong].
  2:{ exists []. split; [reflexivity |]. split; [simpl; lia | congruence]. }
  destruct (predictTrend_returns clock numericValues
              (Z.min (predictionSteps options) 10)) as [trend [Htrend Hlen]].
  exists trend. split; [exact Htrend |]. split; [lia |].
  intros Hsome. split; [reflexivity |]. split; [lia |].
  destruct trend; [congruence |]. simpl in Hlen. lia.
Qed.

(** X15: the timer's callback of the analysis effect always runs through,
    whatever the options, the data and the TensorFlow calls are: it raises
    the loading flag, sets the anomalies, the marked points and the
    forecasts, the insights if they are wanted, and lowers the flag again;
    the handler of its [try] is never entered.  The anomalies it sets point
    at samples of the series; the forecasts are ten at most, and there are
    none unless forecasting is wanted, the series has between 5 and 100
    samples and the step count is positive. *)
Theorem analysis_timer_runs_through (clockA clockP : nat -> num)
    (options : SimpleOptions.t num) (numericValues : list num)
    (timeSeriesData : list (DataPoint.t num)) :
  exists detected trend,
    analysisTimer clockA clockP options numericValues timeSeriesData
    = [setLoading true; setAnomalies detected;
       setProcessedData (dataWithAnomalies timeSeriesData detected);
       setPredictions trend]
      ++ (if shouldRunAIInsights options then
            [setInsights (generateAIInsights numericValues detected trend)]
          else [])
      ++ [setLoading false]
    /\ Forall (points_into numericValues) detected
    /\ (List.length trend <= 10)%nat
    /\ (trend <> [] ->
        shouldRunTrendPrediction options = true
        /\ (5 <= List.length numericValues <= 100)%nat
        /\ (1 <= predictionSteps options)%Z).
Proof.
  destruct (detectedAnomalies_returns clockA options numericValues)
    as (detected & Hdetected & Hpoints).
  destruct (trendPredictions_returns clockP options numericValues)
    as (trend & Htrend & Hlen & Hsome).
  exists detected, trend. unfold analysisTimer.
  rewrite Hdetected, Htrend. simpl.
  repeat split; try assumption; apply Hsome; assumption.
Qed.

Lemma existsb_index (detected : list (AnomalyResult.t num)) (k : nat) :
  existsb (fun a => (AnomalyResult.index a =? k)%nat) detected = true
  <-> In k (map AnomalyResult.index detected).
Proof.
  rewrite existsb_exists, in_map_iff. split.
  - intros [a [Ha Hk]]. apply Nat.eqb_eq in Hk. exists a. split; assumption.
  - intros [a [Hk Ha]]. exists a. split; [exact Ha | apply Nat.eqb_eq; exact Hk].
Qed.

Lemma dataWithAnomalies_nth (timeSeriesData : list (DataPoint.t num))
    (detected : list (AnomalyResult.t num)) (k : nat) :
  nth_error (dataWithAnomalies timeSeriesData detected) k
  = option_map
      (fun point =>
         DataPoint.mk (DataPoint.timestamp point) (DataPoint.value point)
           (Some
              (existsb (fun a => (AnomalyResult.index a =? k)%nat) detected))
           (DataPoint.isPrediction point))
      (nth_error timeSeriesData k).
Proof.
  unfold dataWithAnomalies.
  rewrite (nth_error_pushed
             (fun idx point =>
                DataPoint.mk (DataPoint.timestamp point)
                  (DataPoint.value point)
                  (Some
                     (existsb (fun a => (AnomalyResult.index a =? idx)%nat)
                        detected))
                  (DataPoint.isPrediction point))).
  reflexivity.
Qed.

(** X16: the points that the timer's callback hands to the chart are the
    points of the series, one for one and in their order, with time, value
    and forecast flag untouched; the point at position k is marked as an
    anomaly exactly when some reported anomaly has index k.  With the
    z-score detector on three samples or more that is when the score of
    the k-th sample exceeds the sensitivity. *)
Theorem marked_points_follow_the_anomalies
    (timeSeriesData : list (DataPoint.t num))
    (detected : list (AnomalyResult.t num))
    (clock : nat -> num) (numericValues : list num) (sensitivity : num) :
  List.length (dataWithAnomalies timeSeriesData detected)
  = List.length timeSeriesData
  /\ (forall k point,
        nth_error timeSeriesData k = Some point ->
        exists marked,
          nth_error (dataWithAnomalies timeSeriesData detected) k = Some marked
          /\ DataPoint.timestamp marked = DataPoint.timestamp point
          /\ DataPoint.value marked = DataPoint.value point
          /\ DataPoint.isPrediction marked = DataPoint.isPrediction point
          /\ (DataPoint.isAnomaly marked = Some true
              <-> In k (map AnomalyResult.index detected))
          /\ (DataPoint.isAnomaly marked = Some false
              <-> ~ In k (map AnomalyResult.index detected)))
  /\ ((3 <= List.length numericValues)%nat ->
      forall k point v,
        nth_error timeSeriesData k = Some point ->
        nth_error numericValues k = Some v ->
        exists marked,
          nth_error
            (dataWithAnomalies timeSeriesData
               (detectAnomaliesZScore clock numericValues sensitivity)) k
          = Some marked
          /\ DataPoint.isAnomaly marked
             = Some (zScore numericValues v > sensitivity)).
Proof.
  split; [| split].
  - unfold dataWithAnomalies, entries.
    rewrite length_map, length_combine, length_seq. lia.
  - intros k point Hpoint. eexists.
    rewrite dataWithAnomalies_nth, Hpoint. simpl.
    split; [reflexivity |]. repeat split; try reflexivity.
    + intros [= Hmark]. apply existsb_index. exact Hmark.
    + intros Hin. apply existsb_index in Hin. rewrite Hin. reflexivity.
    + intros [= Hmark] Hin. apply existsb_index in Hin. congruence.
    + intros Hout. destruct (existsb _ detected) eqn:Hmark; [| reflexivity].
      exfalso. apply Hout, existsb_index. exact Hmark.
  - intros Hlen k point v Hpoint Hv. eexists.
    rewrite dataWithAnomalies_nth, Hpoint. simpl.
    split; [reflexivity |]. cbn [DataPoint.isAnomaly]. f_equal.
    apply eq_true_iff_eq. rewrite existsb_index.
    rewrite (detectAnomaliesZScore_pushed clock numericValues sensitivity Hlen).
    rewrite (pushed_indices _ fst) by (intros j [i w]; reflexivity).
    rewrite in_map_iff. split.
    + intros [[i w] [Hi Hin]]. simpl in Hi. subst i.
      apply filter_In in Hin. destruct Hin as [Hin Htest].
      apply entries_nth_error in Hin. simpl snd in Htest.
      congruence.
    + intros Htest. exists (k, v). split; [reflexivity |].
      apply filter_In. split; [apply entries_nth_error; exact Hv | exact Htest].
Qed.

End PanelAnalysis.

(** * The values that the panel analyses *)

Section PanelValues.
Context {num : Type} {JN : JSNumber num} {JG : JSGlobals num}.
Import SimpleOptions.

Lemma push_values (l : list (option num)) (acc : list num) :
  fold_left
    (fun values value =>
       match value with
       | Some v => if negb (isNaN v) then values ++ [v] else values
       | None => values
       end) l acc
  = acc ++ flat_map
             (fun value =>
                match value with
                | Some v => if negb (isNaN v) then [v] else []
                | None => []
                end) l.
Proof.
  revert acc. induction l as [|value l IH]; intros acc; simpl.
  - rewrite app_nil_r. reflexivity.
  - rewrite IH. destruct value as [v|]; [| reflexivity].
    destruct (negb (isNaN v)); [| reflexivity].
    rewrite <- app_assoc. reflexivity.
Qed.

Lemma fold_left_flat_map {A B} (g : A -> list B) (l : list A) (acc : list B) :
  fold_left (fun acc x => acc ++ g x) l acc = acc ++ flat_map g l.
Proof.
  revert acc. induction l as [|x l IH]; intros acc; simpl.
  - rewrite app_nil_r. reflexivity.
  - rewrite IH, <- app_assoc. reflexivity.
Qed.

(** The three nested loops gather, frame by frame and field by field, the
    values of the number fields that are neither missing nor NaN. *)
Lemma extractNumericValues_gathers (data : list (DataFrame.t num)) :
  extractNumericValues data
  = flat_map
      (fun series =>
         flat_map
           (fun field =>
              flat_map
                (fun value =>
                   match value with
                   | Some v => if negb (isNaN v) then [v] else []
                   | None => []
                   end)
                (Field.values field))
           (filter (fun f => FieldType.eqb (Field.type f) FieldType.number)
              (DataFrame.fields series)))
      data.
Proof.
  unfold extractNumericValues.
  destruct data as [|series data]; [reflexivity |].
  cbn [List.length Nat.eqb]. cbv zeta.
  rewrite <- (app_nil_l (flat_map _ (series :: data))).
  rewrite <- fold_left_flat_map.
  apply fold_left_pointwise. intros acc frame.
  rewrite <- fold_left_flat_map.
  apply fold_left_pointwise. intros acc' field.
  apply push_values.
Qed.

Lemma FieldType_eqb_eq (a b : FieldType.t) :
  FieldType.eqb a b = true <-> a = b.
Proof. destruct a, b; simpl; split; congruence. Qed.

(** X17: [extractNumericValues] returns exactly the numbers of the number
    fields: a value is in the result if and only if some field of type
    number of some frame holds it and it is not NaN.  Missing values, NaN
    and the fields of every other type are left out; no frame at all gives
    the empty list. *)
Theorem extractNumericValues_exactly_the_numbers
    (data : list (DataFrame.t num)) (v : num) :
  (In v (extractNumericValues data)
   <-> exists series field,
         In series data
         /\ In field (DataFrame.fields series)
         /\ Field.type field = FieldType.number
         /\ In (Some v) (Field.values field)
         /\ isNaN v = false)
  /\ Forall (fun x => isNaN x = false) (extractNumericValues data)
  /\ extractNumericValues (@nil (DataFrame.t num)) = [].
Proof.
  assert (forall x,
            In x (extractNumericValues data)
            <-> exists series field,
                  In series data
                  /\ In field (DataFrame.fields series)
                  /\ Field.type field = FieldType.number
                  /\ In (Some x) (Field.values field)
                  /\ isNaN x = false) as Hspec.
  { intros x. rewrite extractNumericValues_gathers. split.
    - intros Hin.
      apply in_flat_map in Hin. destruct Hin as [series [Hseries Hin]].
      apply in_flat_map in Hin. destruct Hin as [field [Hfield Hin]].
      apply in_flat_map in Hin. destruct Hin as [value [Hvalue Hin]].
      apply filter_In in Hfield. destruct Hfield as [Hfield Htype].
      apply FieldType_eqb_eq in Htype.
      destruct value as [w|]; [| contradiction].
      destruct (isNaN w) eqn:Hnan; simpl in Hin; [contradiction |].
      destruct Hin as [-> | []].
      exists series, field. repeat split; assumption.
    - intros (series & field & Hseries & Hfield & Htype & Hvalue & Hnan).
      apply in_flat_map. exists series. split; [exact Hseries |].
      apply in_flat_map. exists field. split.
      { apply filter_In. split; [exact Hfield |].
        apply FieldType_eqb_eq. exact Htype. }
      apply in_flat_map. exists (Some x). split; [exact Hvalue |].
      rewrite Hnan. left. reflexivity. }
  split; [apply Hspec |]. split; [| reflexivity].
  apply Forall_forall. intros x Hx. apply Hspec in Hx.
  destruct Hx as (_ & _ & _ & _ & _ & _ & Hnan). exact Hnan.
Qed.

Lemma extractNumericValues_no_NaN (data : list (DataFrame.t num)) :
  Forall (fun x => isNaN x = false) (extractNumericValues data).
Proof.
  rewrite extractNumericValues_gathers.
  apply Forall_forall. intros x Hin.
  apply in_flat_map in Hin. destruct Hin as [series [_ Hin]].
  apply in_flat_map in Hin. destruct Hin as [field [_ Hin]].
  apply in_flat_map in Hin. destruct Hin as [value [_ Hin]].
  destruct value as [w|]; [| contradiction].
  destruct (isNaN w) eqn:Hnan; simpl in Hin; [contradiction |].
  destruct Hin as [<- | []]. exact Hnan.
Qed.

Lemma slice_last_suffix {A} (k : nat) (l : list A) :
  exists older, l = older ++ slice_last k l.
Proof.
  unfold slice_last. exists (firstn (List.length l - k) l).
  symmetry. apply firstn_skipn.
Qed.

Lemma numericValues_suffix (options : SimpleOptions.t num)
    (externalData : list (DataPoint.t num)) (series : list (DataFrame.t num)) :
  exists older,
    (if enableDataUpload options
        && negb (String.eqb (dataUrl options) EmptyString)
        && (0 <? List.length externalData)%nat
     then map DataPoint.value externalData
     else extractNumericValues series)
    = older ++ numericValues options externalData series.
Proof.
  unfold numericValues. cbv zeta.
  destruct (1000 <? _)%nat.
  - apply slice_last_suffix.
  - exists []. reflexivity.
Qed.

Lemma numericValues_no_NaN (options : SimpleOptions.t num)
    (externalData : list (DataPoint.t num)) (series : list (DataFrame.t num)) :
  enableDataUpload options = false ->
  Forall (fun x => isNaN x = false) (numericValues options externalData series).
Proof.
  intros Hgrafana.
  destruct (numericValues_suffix options externalData series) as [older Hsplit].
  rewrite Hgrafana in Hsplit. simpl in Hsplit.
  pose proof (extractNumericValues_no_NaN series) as Hall.
  rewrite Hsplit in Hall. apply Forall_app in Hall. apply Hall.
Qed.

(** X18: the panel analyses the 1000 most recent values at most: the
    memoised [numericValues] has no more than 1000 elements and is the tail
    of what the source chosen by the options delivers (the values of the
    external points when an upload with a URL has delivered some, the
    numbers of the frames otherwise), all of it when that has 1000 values
    or fewer. *)
Theorem numericValues_last_thousand (options : SimpleOptions.t num)
    (externalData : list (DataPoint.t num)) (series : list (DataFrame.t num)) :
  let values :=
    if enableDataUpload options
       && negb (String.eqb (dataUrl options) EmptyString)
       && (0 <? List.length externalData)%nat
    then map DataPoint.value externalData
    else extractNumericValues series in
  (List.length (numericValues options externalData series) <= 1000)%nat
  /\ (exists older,
        values = older ++ numericValues options externalData series)
  /\ List.length (numericValues options externalData series)
     = Nat.min 1000 (List.length values)
  /\ ((List.length values <= 1000)%nat ->
      numericValues options externalData series = values).
Proof.
  cbv zeta.
  pose proof (numericValues_suffix options externalData series) as Hsuffix.
  unfold numericValues in *. cbv zeta in *.
  match goal with |- context [(1000 <? List.length ?l)%nat] =>
    generalize dependent l
  end.
  intros values Hsuffix.
  destruct (Nat.ltb_spec 1000 (List.length values)) as [Hlong | Hshort].
  - unfold slice_last. rewrite length_skipn.
    repeat split; try lia. exact Hsuffix.
  - repeat split; try lia. exact Hsuffix.
Qed.

End PanelValues.

(** ** The statistics of Grafana data, on binary64 *)

(** X19: on binary64 the statistics that the panel shows for Grafana data
    are sound in their extremes.  Without an upload the memoised values
    hold no NaN; if there are any, [calculateStats] returns a record whose
    min and max are samples, with min at most and max at least every
    sample. *)
Theorem panel_stats_extremes (options : SimpleOptions.t float)
    (externalData : list (DataPoint.t float))
    (series : list (DataFrame.t float)) :
  SimpleOptions.enableDataUpload options = false ->
  let values := numericValues options externalData series in
  Forall number values
  /\ (values <> [] ->
      exists stats,
        calculateStats values = Some stats
        /\ In (DescriptiveStats.min stats) values
        /\ In (DescriptiveStats.max stats) values
        /\ forall x, In x values ->
             le64 (DescriptiveStats.min stats) x
             /\ le64 x (DescriptiveStats.max stats)).
Proof.
  intros Hgrafana. cbv zeta.
  assert (Forall number (numericValues options externalData series)) as Hnum.
  { eapply Forall_impl;
      [| exact (numericValues_no_NaN options externalData series Hgrafana)].
    intros x Hx. apply F64Order.number_spec. exact Hx. }
  split; [exact Hnum |].
  intros Hne.
  destruct (calculateStats_nonempty64 _ Hne Hnum)
    as (stats & sorted & Hstats & _ & _ & _ & _ & _ & [Hmin_in Hmin]
        & [Hmax_in Hmax] & _).
  exists stats. repeat split; try assumption.
  - apply Hmin. assumption.
  - apply Hmax. assumption.
Qed.

Lemma panel_stats_extremes_witness :
  Forall number
    (numericValues
       (SimpleOptions.mk VisualizationMode.stats false AnomalyMethod.iqr
          3%float false 5 false false EmptyString)
       []
       [DataFrame.mk None None
          [Field.mk FieldType.time [Some 1%float; Some 2%float; Some 3%float];
           Field.mk FieldType.number
             [Some 4%float; None; Some PrimFloat.nan]]]).
Proof.
  apply (panel_stats_extremes
           (SimpleOptions.mk VisualizationMode.stats false AnomalyMethod.iqr
              3%float false 5 false false EmptyString)).
  reflexivity.
Defined.

(** * The learning detector without TensorFlow, from the panel *)

Section PanelML.
Context {num : Type} {JN : JSNumber num} {TF : TensorFlow num}.
Local Open Scope js_scope.
Import SimpleOptions.

(** X20: when the panel is set to the learning method, detection is on and
    the series has five samples or more, the anomalies are those of the
    z-score detector: at the slider's sensitivity when the series exceeds
    100 samples, and at (sensitivity / 10) * 10 when it does not and the
    TensorFlow call throws, because the tenth that the panel passes on is
    multiplied by ten again in the detector's handler.  On binary64 that
    round trip returns the default sensitivity 3 unchanged, and turns 1.8
    into 1.7999999999999998. *)
Theorem learning_method_without_tensorflow (clock : nat -> num)
    (options : SimpleOptions.t num) (values : list num) :
  anomalyMethod options = AnomalyMethod.ml ->
  shouldRunAnomalyDetection options = true ->
  (5 <= List.length values)%nat ->
  ((100 < List.length values)%nat ->
   detectedAnomalies clock options values
   = Returned
       (detectAnomaliesZScore clock values (anomalySensitivity options)))
  /\ ((List.length values <= 100)%nat ->
      tf_standardize values = None ->
      detectedAnomalies clock options values
      = Returned
          (detectAnomaliesZScore clock values
             (anomalySensitivity options / of_Z 10 * of_Z 10)))
  /\ ((of_Z 3 / of_Z 10 * of_Z 10)%js : float) = 3%float
  /\ ((lit 1.8 / of_Z 10 * of_Z 10)%js : float) = 1.7999999999999998%float.
Proof.
  intros Hml Hon Hfive. unfold detectedAnomalies.
  rewrite Hon, Hml.
  split; [| split; [| split; vm_compute; reflexivity]].
  - intros Hlong.
    destruct (Nat.leb_spec (List.length values) 100) as [Hcap | _];
      [lia | reflexivity].
  - intros Hcap Hthrows.
    destruct (Nat.leb_spec (List.length values) 100) as [_ | Hlong]; [| lia].
    unfold detectAnomaliesML.
    destruct (Nat.ltb_spec (List.length values) 5) as [Hshort | _]; [lia |].
    rewrite (proj2 (detectAnomaliesML_try_thrown clock values _ 0)
               (conj Hthrows eq_refl)).
    reflexivity.
Qed.

End PanelML.

Lemma learning_method_without_tensorflow_witness :
  detectedAnomalies (TF := tf_unavailable) epoch
    (SimpleOptions.mk VisualizationMode.chart true AnomalyMethod.ml 1.8%float
       false 5 false false EmptyString)
    orders
  = Returned (detectAnomaliesZScore epoch orders 1.7999999999999998%float).
Proof.
  destruct (learning_method_without_tensorflow (TF := tf_unavailable) epoch
              (SimpleOptions.mk VisualizationMode.chart true AnomalyMethod.ml
                 1.8%float false 5 false false EmptyString)
              orders eq_refl eq_refl ltac:(simpl; lia))
    as (_ & Hthrows & _).
  exact (Hthrows ltac:(simpl; lia) eq_refl).
Defined.

(** * The data helpers *)

Section SeriesNames.
Context {num : Type}.

Lemma or_string_nonempty (a : option string) (b : string) :
  b <> EmptyString -> or_string a b <> EmptyString.
Proof. intros Hb. destruct a as [[|c s]|]; simpl; try exact Hb. discriminate. Qed.

(** X21: [getSeriesNames] returns one name per frame, in the order of the
    frames, and none is empty: the frame's name, else its refId, else
    "Series"; the filter at its end never removes anything. *)
Theorem getSeriesNames_one_name_per_frame (data : list (DataFrame.t num)) :
  getSeriesNames data
  = map (fun series =>
           or_string (DataFrame.name series)
             (or_string (DataFrame.refId series) "Series"))
      data
  /\ List.length (getSeriesNames data) = List.length data
  /\ Forall (fun name => name <> EmptyString) (getSeriesNames data).
Proof.
  assert (forall l : list (DataFrame.t num),
            filter (fun name => negb (String.eqb name EmptyString))
              (map (fun series =>
                      or_string (DataFrame.name series)
                        (or_string (DataFrame.refId series) "Series")) l)
            = map (fun series =>
                     or_string (DataFrame.name series)
                       (or_string (DataFrame.refId series) "Series")) l)
    as Hkeep.
  { induction l as [|series l IH]; [reflexivity |]. simpl.
    destruct (String.eqb_spec
                (or_string (DataFrame.name series)
                   (or_string (DataFrame.refId series) "Series"))
                EmptyString) as [Hempty | _].
    - exfalso. revert Hempty. apply or_string_nonempty, or_string_nonempty.
      discriminate.
    - simpl. rewrite IH. reflexivity. }
  assert (getSeriesNames data
          = map (fun series =>
                   or_string (DataFrame.name series)
                     (or_string (DataFrame.refId series) "Series")) data)
    as Hnames.
  { unfold getSeriesNames. destruct data as [|series data]; [reflexivity |].
    cbn [List.length Nat.eqb]. apply Hkeep. }
  split; [exact Hnames |]. rewrite Hnames. split; [apply length_map |].
  apply Forall_forall. intros name Hin. apply in_map_iff in Hin.
  destruct Hin as [series [<- _]].
  apply or_string_nonempty, or_string_nonempty. discriminate.
Qed.

End SeriesNames.

Section Windows.
Context {num : Type} {JN : JSNumber num}.

Lemma smoothData_length (values : list num) (windowSize : nat) :
  List.length (smoothData values windowSize) = List.length values.
Proof.
  unfold smoothData. destruct (_ <? _)%nat; [reflexivity |]. cbv zeta.
  rewrite (fold_left_push_all
             (fun _ i =>
                average
                  (slice (i - windowSize / 2)
                     (Nat.min (List.length values) (i + windowSize / 2 + 1))
                     values))).
  unfold entries. rewrite length_map, length_combine, !length_seq. lia.
Qed.

Lemma calculateMovingAverage_pushed (values : list num) (period : nat) :
  (period <= List.length values)%nat ->
  calculateMovingAverage values period
  = map (fun i =>
           if (i + 1 <? period)%nat then at_index values i
           else average (slice (i + 1 - period) (i + 1) values))
      (seq 0 (List.length values)).
Proof.
  intros Hperiod. unfold calculateMovingAverage.
  destruct (Nat.ltb_spec (List.length values) period) as [Hshort | _]; [lia |].
  rewrite (fold_left_pointwise _
             (fun ma i =>
                ma ++ [(fun (_ : nat) i =>
                          if (i + 1 <? period)%nat then at_index values i
                          else average (slice (i + 1 - period) (i + 1) values))
                         (List.length ma) i])).
  2:{ intros ma i. simpl. destruct (_ <? _)%nat; reflexivity. }
  rewrite (fold_left_push_all
             (fun (_ : nat) i =>
                if (i + 1 <? period)%nat then at_index values i
                else average (slice (i + 1 - period) (i + 1) values))).
  unfold entries.
  apply (map_combine_seq _
           (fun i =>
              if (i + 1 <? period)%nat then at_index values i
              else average (slice (i + 1 - period) (i + 1) values))).
  reflexivity.
Qed.

Lemma calculateMovingAverage_length (values : list num) (period : nat) :
  List.length (calculateMovingAverage values period) = List.length values.
Proof.
  destruct (Nat.ltb_spec (List.length values) period) as [Hshort | Hperiod].
  - unfold calculateMovingAverage.
    destruct (Nat.ltb_spec (List.length values) period) as [_ | Hlong];
      [reflexivity | lia].
  - rewrite calculateMovingAverage_pushed by exact Hperiod.
    rewrite length_map, length_seq. reflexivity.
Qed.

Lemma slice_length {A} (a b : nat) (l : list A) :
  List.length (slice a b l) = Nat.min (b - a) (List.length l - a).
Proof. unfold slice. rewrite length_firstn, length_skipn. reflexivity. Qed.

End Windows.

Section WindowValues.
Context {num : Type} {JN : JSNumber num}.
Local Open Scope js_scope.

(** X22: [calculateMovingAverage] keeps the length of the series.  A series
    shorter than the period is returned as it is; otherwise the first
    period - 1 values are the samples themselves and every later one is the
    sum of the [period] most recent samples over their number.  On binary64
    such a value can exceed every sample: three samples of 0.1 average to
    0.10000000000000002; and a period of 0 averages the empty window, which
    gives NaN at every position. *)
Theorem moving_average_windows (values : list num) (period : nat) :
  List.length (calculateMovingAverage values period) = List.length values
  /\ ((List.length values < period)%nat ->
      calculateMovingAverage values period = values)
  /\ ((period <= List.length values)%nat ->
      forall i,
        (i < List.length values)%nat ->
        ((i + 1 < period)%nat ->
         nth_error (calculateMovingAverage values period) i
         = nth_error values i)
        /\ ((period <= i + 1)%nat ->
            let window := slice (i + 1 - period) (i + 1) values in
            List.length window = period
            /\ nth_error (calculateMovingAverage values period) i
               = Some (sum window / len window)))
  /\ calculateMovingAverage [0.1; 0.1; 0.1]%float 3
     = [0.1; 0.1; 0.10000000000000002]%float
  /\ map PrimFloat.is_nan (calculateMovingAverage [1; 2; 3]%float 0)
     = [true; true; true].
Proof.
  split; [apply calculateMovingAverage_length |].
  split; [| split; [| split; vm_compute; reflexivity]].
  - intros Hshort. unfold calculateMovingAverage.
    destruct (Nat.ltb_spec (List.length values) period) as [_ | Hlong];
      [reflexivity | lia].
  - intros Hfits i Hi.
    rewrite (calculateMovingAverage_pushed values period Hfits).
    rewrite nth_error_map, nth_error_seq by exact Hi. simpl.
    split.
    + intros Hearly.
      destruct (Nat.ltb_spec (i + 1) period) as [_ | Hlate]; [| lia].
      symmetry. unfold at_index. apply nth_error_nth'. exact Hi.
    + intros Hlate.
      destruct (Nat.ltb_spec (i + 1) period) as [Hearly | _]; [lia |].
      split; [rewrite slice_length; lia | reflexivity].
Qed.

(** X23: [smoothData] keeps the length of the series.  A series shorter
    than the window is returned as it is; otherwise the value at position i
    is the sum over the number of the samples from position
    i - floor(w / 2), or 0, up to position i + floor(w / 2), or the last:
    between 1 and w samples, the sample at i among them.  On binary64 such
    a value can exceed every sample: three samples of 0.1 smooth to 0.1,
    0.10000000000000002, 0.1. *)
Theorem smoothData_windows (values : list num) (windowSize : nat) :
  List.length (smoothData values windowSize) = List.length values
  /\ ((List.length values < windowSize)%nat ->
      smoothData values windowSize = values)
  /\ ((windowSize <= List.length values)%nat ->
      forall i v,
        nth_error values i = Some v ->
        let halfWindow := (windowSize / 2)%nat in
        let window :=
          slice (i - halfWindow)
            (Nat.min (List.length values) (i + halfWindow + 1)) values in
        nth_error (smoothData values windowSize) i
        = Some (sum window / len window)
        /\ nth_error window (i - (i - halfWindow)) = Some v
        /\ (1 <= List.length window <= 2 * halfWindow + 1)%nat)
  /\ smoothData [0.1; 0.1; 0.1]%float 3
     = [0.1; 0.10000000000000002; 0.1]%float.
Proof.
  split; [apply smoothData_length |].
  split; [| split; [| vm_compute; reflexivity]].
  - intros Hshort. unfold smoothData.
    destruct (Nat.ltb_spec (List.length values) windowSize) as [_ | Hlong];
      [reflexivity | lia].
  - intros Hfits i v Hv. cbv zeta.
    assert (i < List.length values)%nat as Hi.
    { apply nth_error_Some. congruence. }
    unfold smoothData.
    destruct (Nat.ltb_spec (List.length values) windowSize) as [Hshort | _];
      [lia |].
    cbv zeta.
    rewrite (fold_left_push_all
               (fun _ i =>
                  average
                    (slice (i - windowSize / 2)
                       (Nat.min (List.length values) (i + windowSize / 2 + 1))
                       values))).
    rewrite nth_error_map. unfold entries.
    rewrite nth_error_combine, length_seq, !nth_error_seq by lia.
    split; [reflexivity |].
    split; [| rewrite slice_length; lia].
    unfold slice. rewrite nth_error_firstn.
    destruct (Nat.ltb_spec (i - (i - windowSize / 2))
                (Nat.min (List.length values) (i + windowSize / 2 + 1)
                 - (i - windowSize / 2))) as [_ | Hout]; [| lia].
    rewrite nth_error_skipn.
    replace (i - windowSize / 2 + (i - (i - windowSize / 2)))%nat with i
      by lia.
    exact Hv.
Qed.

End WindowValues.

(** ** Normalising, on binary64 *)

Section Normalize64.
Local Open Scope js_scope.

Lemma is_nan_eq (x : float) : PrimFloat.is_nan x = true -> x = PrimFloat.nan.
Proof. intros Hx. apply nan_spec, is_nan_spec, Hx. Qed.

Lemma min_nan_l (x : float) : F64.min PrimFloat.nan x = PrimFloat.nan.
Proof. reflexivity. Qed.

Lemma max_nan_l (x : float) : F64.max PrimFloat.nan x = PrimFloat.nan.
Proof. reflexivity. Qed.

Lemma min_nan_r (x : float) : F64.min x PrimFloat.nan = PrimFloat.nan.
Proof.
  unfold F64.min. change (PrimFloat.is_nan PrimFloat.nan) with true.
  rewrite orb_true_r. reflexivity.
Qed.

Lemma max_nan_r (x : float) : F64.max x PrimFloat.nan = PrimFloat.nan.
Proof.
  unfold F64.max. change (PrimFloat.is_nan PrimFloat.nan) with true.
  rewrite orb_true_r. reflexivity.
Qed.

(** One NaN among the arguments makes [Math.min] and [Math.max] NaN. *)
Lemma fold_nan (op : float -> float -> float) (first : float)
    (rest : list float) :
  (forall x, op PrimFloat.nan x = PrimFloat.nan) ->
  (forall x, op x PrimFloat.nan = PrimFloat.nan) ->
  In PrimFloat.nan (first :: rest) ->
  fold_left op rest first = PrimFloat.nan.
Proof.
  intros Hl Hr.
  assert (forall l, fold_left op l PrimFloat.nan = PrimFloat.nan) as Hstays.
  { induction l as [|x l IH]; simpl; [reflexivity |]. rewrite Hl. exact IH. }
  revert first. induction rest as [|x rest IH]; intros first Hin; simpl.
  - destruct Hin as [-> | []]. reflexivity.
  - destruct Hin as [-> | [-> | Hin]].
    + rewrite Hl. apply Hstays.
    + rewrite Hr. apply Hstays.
    + apply IH. right. exact Hin.
Qed.

Lemma min_self (c : float) : F64.min c c = c.
Proof.
  unfold F64.min. rewrite orb_diag.
  destruct (PrimFloat.is_nan c) eqn:Hnan.
  - symmetry. apply is_nan_eq. exact Hnan.
  - destruct (PrimFloat.ltb c c), (PrimFloat.get_sign c); reflexivity.
Qed.

Lemma max_self (c : float) : F64.max c c = c.
Proof.
  unfold F64.max. rewrite orb_diag.
  destruct (PrimFloat.is_nan c) eqn:Hnan.
  - symmetry. apply is_nan_eq. exact Hnan.
  - destruct (PrimFloat.ltb c c), (PrimFloat.get_sign c); reflexivity.
Qed.

Lemma fold_repeat (op : float -> float -> float) (c : float) (n : nat) :
  op c c = c -> fold_left op (repeat c n) c = c.
Proof.
  intros Hop. induction n as [|n IH]; simpl; [reflexivity |].
  rewrite Hop. exact IH.
Qed.

(** The difference of a finite number and itself is a zero. *)
Lemma sub_self_finite (c : float) :
  PrimFloat.is_finite c = true -> PrimFloat.eqb (c - c)%float 0 = true.
Proof.
  intros Hfinite.
  rewrite FloatAxioms.eqb_spec, sub_spec.
  revert Hfinite. unfold PrimFloat.is_finite, PrimFloat.is_nan,
    PrimFloat.is_infinity.
  rewrite !FloatAxioms.eqb_spec, abs_spec.
  change (Prim2SF 0) with (S754_zero false).
  change (Prim2SF infinity) with (S754_infinity false).
  destruct (Prim2SF c) as [s|s| |s m e].
  - intros _. destruct s; reflexivity.
  - destruct s; discriminate.
  - discriminate.
  - intros _.
    unfold SF64sub, SFsub. rewrite Z.min_id.
    unfold shl_align. rewrite Z.sub_diag.
    destruct s; reflexivity.
Qed.

(** X24: [normalizeData] on binary64.  The empty series is returned as it
    is.  On a non-empty series the spread calls throw when the engine does
    not accept as many arguments as there are samples; otherwise the result
    has one value per sample.  Equal finite samples all become 0.5.  One
    NaN among the samples makes every value NaN.  The values need not lie
    between 0 and 1: on -1e308, 0, 1e308 the range overflows and the
    result is 0, 0, NaN. *)
Theorem normalizeData_edge_cases (max_arguments : nat) (values : list float) :
  normalizeData max_arguments [] = Some (@nil float)
  /\ (values <> [] ->
      (max_arguments < List.length values)%nat ->
      normalizeData max_arguments values = None)
  /\ ((List.length values <= max_arguments)%nat ->
      exists normalized,
        normalizeData max_arguments values = Some normalized
        /\ List.length normalized = List.length values
        /\ (forall c,
              values <> [] ->
              PrimFloat.is_finite c = true ->
              values = repeat c (List.length values) ->
              normalized = repeat 0.5%float (List.length values))
        /\ (Exists (fun v => PrimFloat.is_nan v = true) values ->
            Forall (fun y => PrimFloat.is_nan y = true) normalized))
  /\ (exists normalized,
        normalizeData 3 [-1e308; 0; 1e308]%float = Some normalized
        /\ map PrimFloat.is_nan normalized = [false; false; true]
        /\ firstn 2 normalized = [0; 0]%float).
Proof.
  split; [reflexivity |].
  split; [| split].
  - intros Hne Hlong. destruct values as [|first rest]; [congruence |].
    unfold normalizeData.
    destruct (Nat.ltb_spec max_arguments (List.length (first :: rest)))
      as [_ | Hfits]; [reflexivity | lia].
  - intros Hfits. destruct values as [|first rest].
    { exists []. split; [reflexivity |]. split; [reflexivity |].
      split; [congruence |]. intros Hnan. inversion Hnan. }
    unfold normalizeData.
    destruct (Nat.ltb_spec max_arguments (List.length (first :: rest)))
      as [Hlong | _]; [lia |].
    cbv zeta.
    set (lo := Math_min_of first rest).
    set (hi := Math_max_of first rest).
    destruct (strict_eq (hi - lo) (of_Z 0)) eqn:Hrange.
    + eexists. split; [reflexivity |].
      split; [apply length_map |].
      split.
      * intros c _ _ _.
        change (lit 0.5 : float) with 0.5%float.
        generalize (first :: rest). intros l.
        induction l as [|x l IH]; simpl; [reflexivity |].
        rewrite IH. reflexivity.
      * intros Hnan. exfalso.
        assert (In PrimFloat.nan (first :: rest)) as Hin.
        { apply Exists_exists in Hnan. destruct Hnan as [x [Hx Hisnan]].
          rewrite <- (is_nan_eq x Hisnan). exact Hx. }
        assert (lo = PrimFloat.nan) as Hlo
          by (apply fold_nan; [apply min_nan_l | apply min_nan_r | exact Hin]).
        revert Hrange. rewrite Hlo. simpl sub. rewrite sub_nan_r.
        vm_compute. discriminate.
    + eexists. split; [reflexivity |].
      split; [apply length_map |].
      split.
      * intros c _ Hfinite Hconst. exfalso.
        assert (lo = c /\ hi = c) as [Hlo Hhi].
        { unfold lo, hi, Math_min_of, Math_max_of.
          simpl in Hconst. injection Hconst as Hfirst Hrest.
          rewrite Hrest, <- Hfirst.
          split; apply fold_repeat; [apply min_self | apply max_self]. }
        revert Hrange. rewrite Hlo, Hhi.
        change (strict_eq (c - c) (of_Z 0)) with (PrimFloat.eqb (c - c)%float 0).
        rewrite (sub_self_finite c Hfinite). discriminate.
      * intros Hnan.
        assert (In PrimFloat.nan (first :: rest)) as Hin.
        { apply Exists_exists in Hnan. destruct Hnan as [x [Hx Hisnan]].
          rewrite <- (is_nan_eq x Hisnan). exact Hx. }
        assert (lo = PrimFloat.nan) as Hlo
          by (apply fold_nan; [apply min_nan_l | apply min_nan_r | exact Hin]).
        rewrite Hlo. apply Forall_map, Forall_forall. intros v _.
        simpl sub. simpl div. rewrite sub_nan_r, div_nan_l. reflexivity.
  - eexists. split; [vm_compute; reflexivity |].
    split; vm_compute; reflexivity.
Qed.

End Normalize64.

(** * When the panel analyses *)

Section EffectGuards.
Context {num : Type} {JN : JSNumber num} {JG : JSGlobals num}
        {JM : JSMath num} {TF : TensorFlow num}.
Import SimpleOptions.

Ltac effect_sets :=
  let H := fresh "Hset" in
  intros ? H; cbn [In] in H;
  repeat (destruct H as [H | H]);
  first [ discriminate H
        | contradiction
        | injection H as <-; first [ reflexivity | left; reflexivity
                                   | right; repeat split; assumption ] ].

(** X25: the analysis effect keeps the analysis away from data it cannot
    judge.  It hands a series to the insight generator, or sets the timer
    that runs the detectors and the forecaster, only if the series has two
    samples or more and every one of them is a finite number; the timer is
    set only if detection or forecasting is wanted.  Otherwise every list
    of insights, anomalies and forecasts that it sets is empty. *)
Theorem analysis_effect_guards (clockA clockP : nat -> num)
    (options : SimpleOptions.t num) (numericValues : list num)
    (timeSeriesData : list (DataPoint.t num)) :
  let effect :=
    analysisEffect clockA clockP options numericValues timeSeriesData in
  (forall timer,
     snd effect = Some timer ->
     timer = analysisTimer clockA clockP options numericValues timeSeriesData
     /\ fst effect = []
     /\ (2 <= List.length numericValues)%nat
     /\ Forall (fun v => isNaN v = false /\ isFinite v = true) numericValues
     /\ shouldRunAnomalyDetection options || shouldRunTrendPrediction options
        = true)
  /\ (forall insights,
        In (setInsights insights) (fst effect) ->
        insights = []
        \/ (insights = generateAIInsights numericValues [] []
            /\ (2 <= List.length numericValues)%nat
            /\ Forall (fun v => isNaN v = false /\ isFinite v = true)
                 numericValues
            /\ shouldRunAIInsights options = true))
  /\ (forall anomalies,
        In (setAnomalies anomalies) (fst effect) -> anomalies = [])
  /\ (forall predictions,
        In (setPredictions predictions) (fst effect) -> predictions = []).
Proof.
  cbv zeta. unfold analysisEffect.
  assert (validValues numericValues = true ->
          Forall (fun v => isNaN v = false /\ isFinite v = true) numericValues)
    as Hvalid.
  { unfold validValues. intros Hall. apply Forall_forall. intros v Hv.
    rewrite forallb_forall in Hall. specialize (Hall v Hv).
    apply andb_prop in Hall. destruct Hall as [Hnan Hfin].
    apply negb_true_iff in Hnan. split; assumption. }
  destruct (Nat.ltb_spec (List.length numericValues) 2) as [Hshort | Hlen].
  { cbn [fst snd]. split; [intros timer Htimer; discriminate Htimer |].
    repeat split; effect_sets. }
  destruct (validValues numericValues) eqn:Hok; cbn [negb].
  2:{ cbn [fst snd]. split; [intros timer Htimer; discriminate Htimer |].
    repeat split; effect_sets. }
  specialize (Hvalid eq_refl).
  destruct (shouldRunAIInsights options) eqn:Hai,
           (shouldRunAnomalyDetection options) eqn:Had,
           (shouldRunTrendPrediction options) eqn:Htp;
    cbn [andb negb fst snd];
    (split;
     [ first [ intros timer Htimer; discriminate Htimer
             | intros timer [= <-]; repeat split;
               first [reflexivity | assumption] ]
     | repeat split; effect_sets ]).
Qed.

End EffectGuards.

(** * The time series of the frames *)

Section TimeSeriesShape.
Context {num : Type} {JN : JSNumber num} {JG : JSGlobals num}.

Lemma insert_by_timestamp_permutation (p : DataPoint.t num)
    (l : list (DataPoint.t num)) :
  Permutation (insert_by_timestamp p l) (p :: l).
Proof.
  induction l as [|q l IH]; simpl.
  - apply Permutation_refl.
  - destruct (lt _ _).
    + apply perm_trans with (q :: p :: l).
      * apply perm_skip. exact IH.
      * apply perm_swap.
    + apply Permutation_refl.
Qed.

Lemma sort_by_timestamp_permutation (l : list (DataPoint.t num)) :
  Permutation (sort_by_timestamp l) l.
Proof.
  induction l as [|p l IH]; simpl.
  - apply perm_nil.
  - apply perm_trans with (p :: sort_by_timestamp l).
    + apply insert_by_timestamp_permutation.
    + apply perm_skip. exact IH.
Qed.

Lemma fold_left_invariant {A B} (P : B -> Prop) (f : B -> A -> B)
    (l : list A) :
  (forall b x, P b -> P (f b x)) -> forall b, P b -> P (fold_left f l b).
Proof.
  intros Hstep. induction l as [|x l IH]; intros b Hb; simpl.
  - exact Hb.
  - apply IH, Hstep, Hb.
Qed.

Lemma extractTimeSeriesData_unmarked (data : list (DataFrame.t num)) :
  Forall unmarked (extractTimeSeriesData data).
Proof.
  unfold extractTimeSeriesData.
  destruct (_ =? 0)%nat; [constructor |]. cbv zeta.
  apply (Permutation_Forall
           (Permutation_sym (sort_by_timestamp_permutation _))).
  apply fold_left_invariant; [| constructor].
  intros points series Hpoints.
  destruct (find _ _) as [timeField|]; [| exact Hpoints].
  destruct (find _ _) as [valueField|]; [| exact Hpoints].
  apply fold_left_invariant; [| exact Hpoints].
  intros acc i Hacc.
  destruct (value_at _ i) as [timestamp|]; [| exact Hacc].
  destruct (value_at _ i) as [value|]; [| exact Hacc].
  destruct (isNaN value) eqn:Hnan; simpl; [exact Hacc |].
  apply Forall_app. split; [exact Hacc |].
  constructor; [| constructor]. repeat split. exact Hnan.
Qed.

Lemma fold_left_pointwise_in {A B} (f g : B -> A -> B) (l : list A) :
  (forall b x, In x l -> f b x = g b x) ->
  forall b, fold_left f l b = fold_left g l b.
Proof.
  induction l as [|x l IH]; intros Hfg b; simpl.
  - reflexivity.
  - rewrite Hfg by (left; reflexivity).
    apply IH. intros b' y Hy. apply Hfg. right. exact Hy.
Qed.

Lemma fold_left_push_each {A B} (g : A -> B) (l : list A) (acc : list B) :
  fold_left (fun acc x => acc ++ [g x]) l acc = acc ++ map g l.
Proof.
  revert acc. induction l as [|x l IH]; intros acc; simpl.
  - rewrite app_nil_r. reflexivity.
  - rewrite IH, <- app_assoc. reflexivity.
Qed.

Lemma value_at_map_Some (l : list num) (i : nat) (d : num) :
  (i < List.length l)%nat -> value_at (map Some l) i = Some (nth i l d).
Proof.
  intros Hi. unfold value_at. rewrite nth_error_map.
  rewrite (nth_error_nth' l d Hi). reflexivity.
Qed.

Lemma map_nth_combine {C} (h : num -> num -> C) (d1 d2 : num)
    (times values : list num) :
  List.length times = List.length values ->
  map (fun i => h (nth i times d1) (nth i values d2))
    (seq 0 (List.length times))
  = map (fun tv => h (fst tv) (snd tv)) (combine times values).
Proof.
  revert values. induction times as [|t times IH]; intros [|v values] Hlen;
    simpl in Hlen; try discriminate; [reflexivity |].
  cbn [List.length seq map combine nth fst snd]. f_equal.
  rewrite <- seq_shift, map_map. apply IH. lia.
Qed.

End TimeSeriesShape.

Section TimeSeriesExact.

Local Open Scope R_scope.

Lemma insert_by_timestamp_sorted (p : DataPoint.t R)
    (l : list (DataPoint.t R)) :
  StronglySorted by_time l -> StronglySorted by_time (insert_by_timestamp p l).
Proof.
  induction l as [|q l IH]; intros Hsorted; simpl.
  - constructor; constructor.
  - inversion Hsorted as [|? ? Htail Hhead]; subst.
    destruct (Exact.lt 0 (DataPoint.timestamp p - DataPoint.timestamp q))
      eqn:Hcmp.
    + apply (ExactFacts.lt_true 0) in Hcmp.
      constructor; [apply IH; exact Htail |].
      apply (Permutation_Forall
               (Permutation_sym (insert_by_timestamp_permutation p l))).
      constructor; [unfold by_time; lra | exact Hhead].
    + apply (ExactFacts.lt_false 0) in Hcmp.
      constructor; [exact Hsorted |].
      constructor; [unfold by_time; lra |].
      eapply Forall_impl; [| exact Hhead]. unfold by_time. intros z Hz. lra.
Qed.

Lemma sort_by_timestamp_sorted (l : list (DataPoint.t R)) :
  StronglySorted by_time (sort_by_timestamp l).
Proof.
  induction l as [|p l IH]; simpl.
  - constructor.
  - apply insert_by_timestamp_sorted. exact IH.
Qed.

(** Sorting leaves points that are in the order of their times alone. *)
Lemma sort_by_timestamp_sorted_id (l : list (DataPoint.t R)) :
  StronglySorted by_time l -> sort_by_timestamp l = l.
Proof.
  induction 1 as [|p l Htail IH Hhead]; simpl; [reflexivity |].
  rewrite IH. destruct l as [|q l]; [reflexivity |]. simpl.
  inversion Hhead as [|? ? Hpq _]; subst. unfold by_time in Hpq.
  pose proof (proj2 (ExactFacts.lt_false 0
                       (DataPoint.timestamp p - DataPoint.timestamp q))
                ltac:(lra)) as Hcmp.
  change (Exact.lt 0 (DataPoint.timestamp p - DataPoint.timestamp q) = false)
    in Hcmp.
  rewrite Hcmp. reflexivity.
Qed.

Lemma plain_points_sorted (times values : list R) :
  StronglySorted Rle times ->
  StronglySorted by_time
    (map (fun tv => DataPoint.mk (fst tv) (snd tv) (Some false) (Some false))
       (combine times values)).
Proof.
  intros Hsorted. revert values.
  induction Hsorted as [|t times Htail IH Hhead]; intros [|v values]; simpl;
    try constructor.
  - apply IH.
  - apply Forall_forall. intros p Hp. apply in_map_iff in Hp.
    destruct Hp as [[t' v'] [<- Hin]]. apply in_combine_l in Hin.
    rewrite Forall_forall in Hhead. unfold by_time. simpl. apply Hhead, Hin.
Qed.

(** X26: what [extractTimeSeriesData] hands to the panel (exact
    arithmetic).  The points are in the order of their times, each with
    both flags false.  From a single frame with one time field and one
    number field of equal lengths, without gaps and with the times already
    ascending, it returns one point per row, in the order of the rows, and
    the values of these points are exactly what [extractNumericValues]
    returns for that frame: position k of the series and position k of the
    analysed values are then the same sample. *)
Theorem time_series_matches_the_values (data : list (DataFrame.t R))
    (times values : list R) :
  StronglySorted by_time (extractTimeSeriesData data)
  /\ Forall unmarked (extractTimeSeriesData data)
  /\ (List.length times = List.length values -> StronglySorted Rle times ->
      extractTimeSeriesData [plain_frame times values]
      = map (fun tv =>
               DataPoint.mk (fst tv) (snd tv) (Some false) (Some false))
          (combine times values)
      /\ extractNumericValues [plain_frame times values] = values
      /\ map DataPoint.value (extractTimeSeriesData [plain_frame times values])
         = extractNumericValues [plain_frame times values]).
Proof.
  split.
  { unfold extractTimeSeriesData. destruct (_ =? 0)%nat; [constructor |].
    apply sort_by_timestamp_sorted. }
  split; [apply extractTimeSeriesData_unmarked |].
  intros Hlen Hsorted.
  assert (extractTimeSeriesData [plain_frame times values]
          = map (fun tv =>
                   DataPoint.mk (fst tv) (snd tv) (Some false) (Some false))
              (combine times values)) as Hpoints.
  { unfold extractTimeSeriesData, plain_frame.
    cbn [List.length Nat.eqb fold_left DataFrame.fields find Field.type
         FieldType.eqb Field.values].
    cbv zeta. rewrite length_map.
    rewrite (fold_left_pointwise_in _
               (fun points i =>
                  points
                  ++ [DataPoint.mk (nth i times 0) (nth i values 0)
                        (Some false) (Some false)])).
    2:{ intros points i Hi. apply in_seq in Hi.
        rewrite (value_at_map_Some times i 0) by lia.
        rewrite (value_at_map_Some values i 0) by lia.
        reflexivity. }
    rewrite fold_left_push_each. cbn [app].
    rewrite (map_nth_combine
               (fun t v => DataPoint.mk t v (Some false) (Some false))
               0 0 times values Hlen).
    apply sort_by_timestamp_sorted_id, plain_points_sorted. exact Hsorted. }
  assert (extractNumericValues [plain_frame times values] = values) as Hvalues.
  { rewrite extractNumericValues_gathers. unfold plain_frame.
    cbn [flat_map DataFrame.fields filter Field.type FieldType.eqb
         Field.values].
    rewrite !app_nil_r.
    clear. induction values as [|v values IH]; [reflexivity |].
    cbn [map flat_map]. rewrite IH. reflexivity. }
  split; [exact Hpoints |]. split; [exact Hvalues |].
  rewrite Hpoints, Hvalues, map_map. cbn [DataPoint.value].
  clear - Hlen. revert values Hlen.
  induction times as [|t times IH]; intros [|v values] Hlen;
    simpl in Hlen; try discriminate; [reflexivity |].
  simpl. f_equal. apply IH. lia.
Qed.

End TimeSeriesExact.

(** * The forecaster on the empty series *)

Section EmptySeries.
Context {JM : JSMath float} {TF : TensorFlow float}.

Lemma mul_nan_l (x : float) : (PrimFloat.nan * x)%float = PrimFloat.nan.
Proof. apply nan_spec. rewrite mul_spec. reflexivity. Qed.

(** X27: the forecaster does not reject the empty series: on binary64 it
    returns one point per step, as for any other input, and the value of
    every point is NaN (the last sample is [undefined] and the mean is
    0/0), whatever [Math.exp] returns. *)
Theorem empty_series_forecast_is_NaN (Date_now : nat -> float) (steps : Z) :
  exists predictions,
    predictTrend Date_now [] steps = Returned predictions
    /\ List.length predictions = Z.to_nat steps
    /\ Forall (fun p => TrendPrediction.value p = PrimFloat.nan) predictions.
Proof.
  exists (simpleLinearPrediction Date_now [] steps).
  split; [reflexivity |].
  split; [apply simpleLinearPrediction_length |].
  unfold simpleLinearPrediction. cbv zeta.
  rewrite (fold_left_push_all
             (simpleLinearPrediction_point Date_now _ _ _ steps)).
  apply Forall_pushed. intros reads k _.
  unfold simpleLinearPrediction_point. cbv zeta.
  cbn [TrendPrediction.value].
  change (at_index (@nil float) (List.length (@nil float) - 1))
    with PrimFloat.nan.
  simpl add. simpl mul.
  rewrite add_nan_l, mul_nan_l, add_nan_l. reflexivity.
Qed.

End EmptySeries.

(** * The learning detector's cutoff, from the panel *)

Section PanelCutoff.
Context {num : Type} {JN : JSNumber num} {TF : TensorFlow num}.
Local Open Scope js_scope.
Import SimpleOptions.

(** X28: when the panel runs the learning detector and the TensorFlow call
    succeeds, the cutoff for the window error is (sensitivity / 10) * 0.8:
    the panel passes a tenth of the slider's sensitivity and the detector
    takes 0.8 of what it is given.  The positions from the window size on
    whose error exceeds that cutoff are exactly the reported ones.  On
    binary64 the cutoff is 0.24 at the default sensitivity 3 and
    0.16000000000000003 at 2. *)
Theorem learning_method_cutoff (clock : nat -> num)
    (options : SimpleOptions.t num) (values sequence : list num) :
  anomalyMethod options = AnomalyMethod.ml ->
  shouldRunAnomalyDetection options = true ->
  (5 <= List.length values <= 100)%nat ->
  tf_standardize values = Some sequence ->
  (exists detected,
     detectedAnomalies clock options values = Returned detected
     /\ forall i,
          In i (map AnomalyResult.index detected)
          <-> (windowSize values <= i < List.length values)%nat
              /\ (windowError sequence (windowSize values) i
                  > anomalySensitivity options / of_Z 10 * lit 0.8) = true)
  /\ ((of_Z 3 / of_Z 10 * lit 0.8)%js : float) = 0.24%float
  /\ ((of_Z 2 / of_Z 10 * lit 0.8)%js : float) = 0.16000000000000003%float.
Proof.
  intros Hml Hon [Hfive Hcap] Hseq.
  split; [| split; vm_compute; reflexivity].
  unfold detectedAnomalies.
  rewrite Hon, Hml.
  destruct (Nat.leb_spec (List.length values) 100) as [_ | Hlong]; [| lia].
  unfold detectAnomaliesML.
  destruct (Nat.ltb_spec (List.length values) 5) as [Hshort | _]; [lia |].
  eexists. split; [reflexivity |].
  rewrite (detectAnomaliesML_try_pushed clock values sequence _ Hseq).
  simpl try_catch. intros i.
  rewrite (pushed_indices _ (fun i => i)) by (intros k j; reflexivity).
  rewrite map_id, filter_In, in_seq.
  split; intros [Hi Herror]; (split; [lia | exact Herror]).
Qed.

End PanelCutoff.

Lemma learning_method_cutoff_witness :
  exists detected,
    detectedAnomalies
      (TF := {| tf_standardize := fun l => Some l; tf_fit := fun _ _ => None |})
      epoch
      (SimpleOptions.mk VisualizationMode.chart true AnomalyMethod.ml 3%float
         false 5 false false EmptyString)
      [1; 2; 3; 4; 5; 6]%float
    = Returned detected.
Proof.
  destruct (learning_method_cutoff
              (TF := {| tf_standardize := fun l => Some l;
                        tf_fit := fun _ _ => None |})
              epoch
              (SimpleOptions.mk VisualizationMode.chart true AnomalyMethod.ml
                 3%float false 5 false false EmptyString)
              [1; 2; 3; 4; 5; 6]%float [1; 2; 3; 4; 5; 6]%float
              eq_refl eq_refl ltac:(simpl; lia) eq_refl)
    as ((detected & Hdetected & _) & _).
  exists detected. exact Hdetected.
Defined.

(** * How many samples the IQR detector can flag *)

Section IQRCount.

Local Open Scope R_scope.

Lemma filter_split_length {A} (f : A -> bool) (l : list A) :
  (List.length (filter f l) + List.length (filter (fun x => negb (f x)) l)
   = List.length l)%nat.
Proof.
  induction l as [|x l IH]; simpl; [reflexivity |].
  destruct (f x); simpl; lia.
Qed.

Lemma filter_length_permutation {A} (f : A -> bool) (l1 l2 : list A) :
  Permutation l1 l2 ->
  List.length (filter f l1) = List.length (filter f l2).
Proof.
  induction 1 as [| x l1 l2 _ IH | x y l | l1 l2 l3 _ IH1 _ IH2]; simpl.
  - reflexivity.
  - destruct (f x); simpl; lia.
  - destruct (f x), (f y); reflexivity.
  - lia.
Qed.

(** A run of positions that all pass the filter is kept whole. *)
Lemma filter_keeps_run {A} (f : A -> bool) (d : A) (l : list A) :
  forall a m,
    (a + m <= List.length l)%nat ->
    (forall i, (a <= i < a + m)%nat -> f (nth i l d) = true) ->
    (m <= List.length (filter f l))%nat.
Proof.
  induction l as [|x l IH]; intros a m Hfit Hrun; simpl in Hfit.
  - simpl. lia.
  - destruct a as [|a].
    + destruct m as [|m]; [lia |].
      pose proof (Hrun 0%nat ltac:(lia)) as Hx. simpl in Hx.
      simpl. rewrite Hx. simpl.
      apply le_n_S. apply (IH 0%nat m); [lia |].
      intros i Hi. apply (Hrun (S i)). lia.
    + assert (m <= List.length (filter f l))%nat as Hrest.
      { apply (IH a m); [lia |].
        intros i Hi. apply (Hrun (S i)). lia. }
      simpl. destruct (f x); simpl; lia.
Qed.

Lemma entries_filter_length {A} (f : A -> bool) (l : list A) :
  List.length (filter (fun iv : nat * A => f (snd iv)) (entries l))
  = List.length (filter f l).
Proof.
  unfold entries. generalize 0%nat as start.
  induction l as [|x l IH]; intros start; simpl; [reflexivity |].
  destruct (f x); simpl; rewrite IH; reflexivity.
Qed.

(** X29: with a sensitivity that is not negative the IQR detector flags
    fewer than half of the samples (exact arithmetic): the samples from
    position floor(n/4) to position floor(3n/4) of the sorted copy lie
    between the quartiles, hence within the bounds, and they are more than
    half of all. *)
Theorem iqr_flags_fewer_than_half (Date_now : nat -> R) (data : list R)
    (sensitivity : R) :
  0 <= sensitivity -> data <> [] ->
  (2 * List.length (detectAnomaliesIQR Date_now data sensitivity)
   < List.length data)%nat.
Proof.
  intros Hs Hne.
  assert (0 < List.length data)%nat as Hpos.
  { destruct data; [congruence | simpl; lia]. }
  destruct (Nat.ltb_spec (List.length data) 4) as [Hshort | Hlen].
  { unfold detectAnomaliesIQR.
    destruct (Nat.ltb_spec (List.length data) 4) as [_ | Hlong]; [| lia].
    simpl. lia. }
  rewrite (detectAnomaliesIQR_pushed Date_now data sensitivity Hlen).
  rewrite length_map. unfold entries at 1.
  rewrite length_combine, length_seq, Nat.min_id.
  rewrite (entries_filter_length (outside data sensitivity)).
  pose proof (filter_split_length (outside data sensitivity) data) as Hsplit.
  pose proof (sort_permutation data) as Hperm.
  pose proof (Permutation_length Hperm) as Hsame.
  rewrite <- (filter_length_permutation
                (fun x => negb (outside data sensitivity x)) _ _ Hperm)
    in Hsplit.
  destruct (quartile_positions data) as [Hq1 Hq3].
  destruct (quartiles_ordered data Hne) as (_ & _ & Hq).
  set (i1 := (25 * List.length data / 100)%nat) in *.
  set (i3 := (75 * List.length data / 100)%nat) in *.
  assert (i1 <= i3 /\ i3 < List.length data
          /\ List.length data <= 2 * (i3 - i1) + 1)%nat
    as (Hi13 & Hi3 & Hmany).
  { unfold i1, i3.
    pose proof (Nat.div_mod_eq (25 * List.length data) 100).
    pose proof (Nat.div_mod_eq (75 * List.length data) 100).
    pose proof (Nat.mod_upper_bound (25 * List.length data) 100 ltac:(lia)).
    pose proof (Nat.mod_upper_bound (75 * List.length data) 100 ltac:(lia)).
    lia. }
  assert (i3 - i1 + 1
          <= List.length
               (filter (fun x => negb (outside data sensitivity x))
                  (sort_ascending data)))%nat as Hinside.
  { apply (filter_keeps_run _ 0 (sort_ascending data) i1 (i3 - i1 + 1)).
    - lia.
    - intros i Hi. apply negb_true_iff.
      destruct (outside data sensitivity (nth i (sort_ascending data) 0))
        eqn:Hout; [| reflexivity].
      exfalso. apply outside_exact in Hout.
      assert (q1 data <= nth i (sort_ascending data) 0) as Hlow.
      { rewrite Hq1. apply ExactFacts.sorted_nth_le;
          [apply ExactFacts.sort_sorted | lia]. }
      assert (nth i (sort_ascending data) 0 <= q3 data) as Hhigh.
      { rewrite Hq3. apply ExactFacts.sorted_nth_le;
          [apply ExactFacts.sort_sorted | lia]. }
      destruct Hout as [Hout | Hout]; nra. }
  lia.
Qed.

End IQRCount.

Lemma iqr_flags_fewer_than_half_witness :
  (2 * List.length (detectAnomaliesIQR (fun _ => 0%R) orders_exact 2%R)
   < List.length orders_exact)%nat.
Proof.
  apply iqr_flags_fewer_than_half; [lra | discriminate].
Defined.
